(** * plugin-dexscreener: the market-data client and its intent actions

    A shallow embedding of [src/service.ts] (the [DexScreenerService] class)
    and of the handlers of [src/actions.ts] that the verified properties are
    about, followed by the properties themselves.

    Modelling conventions.
    - Upstream payloads are taken at the types [src/types.ts] declares, with
      the shape alternatives that the code itself tests for (array or single
      object, field present or absent, body an array or not).  Where a
      method reads a field of the body, the body may also be [null], and
      the read then throws.
    - An asynchronous method is a computation over an explicit [World]: the
      wall clock, the instance field [lastRequestTime] and the list of
      requests sent so far, each with the time it left.  A computation
      either returns or throws; a thrown error keeps the state changes made
      before it, as in JavaScript.  [console.error] and [console.log] have
      no effect on what is modelled and are left out.
    - The upstream is a function from the number of requests sent so far
      and the request to an answer and the time the answer takes, which
      covers both a fixed service and one scripted call by call.
    - The numbers carried by a pair (volume, liquidity, counts) are finite
      JSON numbers and only their order matters here, so they are exact
      rationals; the difference of two of them has the sign of the exact
      difference, and the sum of two counts is rounded to a double
      ([js_add]).  [formatPrice], [formatPriceChange] and [formatUsdValue]
      depend on the binary64 representation and are modelled on IEEE-754
      doubles ([SpecFloat] of the standard library).
    - Strings are byte strings; [toLowerCase] and the character classes of
      the patterns act on ASCII, and what is proved about the pattern of
      the search action is proved for texts of ASCII characters.

    Layout: the service, the token-information and trending actions, the
    number formatters, the other actions, sample data, the contracts,
    then the proofs. *)

From Stdlib Require Import List String Ascii ZArith NArith QArith Bool Lia Lqa.
From Stdlib Require Import Sorting.Sorted Permutation.
From Stdlib Require Import Floats.SpecFloat.
From Stdlib Require Import DecimalString.
Import ListNotations.

Local Open Scope string_scope.
Local Open Scope list_scope.
Local Open Scope Z_scope.

(** String concatenation, kept apart from list append. *)
Infix "+++" := String.append (at level 60, right associativity).

(* ===================================================================== *)
(** * JavaScript built-ins used by the sources *)
(* ===================================================================== *)

Module Js.

(** [String.prototype.toLowerCase], on the ASCII letters. *)
Definition lower_ascii (c : ascii) : ascii :=
  let n := nat_of_ascii c in
  if andb (Nat.leb 65 n) (Nat.leb n 90) then ascii_of_nat (n + 32) else c.

Fixpoint toLowerCase (s : string) : string :=
  match s with
  | EmptyString => EmptyString
  | String c rest => String (lower_ascii c) (toLowerCase rest)
  end.

(** [Array.prototype.join]. *)
Definition join (sep : string) (parts : list string) : string :=
  String.concat sep parts.

(** [Array.prototype.includes] on an array of strings. *)
Definition includes (x : string) (xs : list string) : bool :=
  existsb (String.eqb x) xs.

(** [Array.prototype.slice(0, end)] for an integer [end]: a negative
    [end] counts from the end of the array. *)
Definition slice0 {A} (stop : Z) (xs : list A) : list A :=
  let len := Z.of_nat (List.length xs) in
  let k := if stop <? 0 then Z.max (len + stop) 0 else Z.min stop len in
  firstn (Z.to_nat k) xs.

(** [x || d] on an optional integer: [undefined] and [0] are falsy. *)
Definition int_or (x : option Z) (d : Z) : Z :=
  match x with
  | Some v => if v =? 0 then d else v
  | None => d
  end.

(** [x || 0] on an optional number. *)
Definition num_or0 (x : option Q) : Q :=
  match x with
  | Some v => if Qeq_bool v 0 then 0%Q else v
  | None => 0%Q
  end.

(** [a || b] on strings: [undefined] and the empty string are falsy. *)
Definition str_or (a : option string) (b : string) : string :=
  match a with
  | Some s => if String.eqb s "" then b else s
  | None => b
  end.

(** What an array position holds at run time: a value, [null] or
    [undefined]. *)
Inductive Slot (A : Type) : Type :=
| Value (a : A)
| Null
| Undefined.
Arguments Value {A} a.
Arguments Null {A}.
Arguments Undefined {A}.

(** [xs[0]]. *)
Definition first {A} (xs : list A) : Slot A :=
  match xs with
  | [] => Undefined
  | x :: _ => Value x
  end.

(** [slot !== null]. *)
Definition not_null {A} (s : Slot A) : bool :=
  match s with
  | Null => false
  | _ => true
  end.

Definition is_space (c : ascii) : bool :=
  let n := nat_of_ascii c in
  orb (Nat.eqb n 32) (andb (Nat.leb 9 n) (Nat.leb n 13)).

Definition is_digit (c : ascii) : bool :=
  let n := nat_of_ascii c in andb (Nat.leb 48 n) (Nat.leb n 57).

Definition digit_value (c : ascii) : Z := Z.of_nat (nat_of_ascii c) - 48.

Definition hex_value (c : ascii) : option Z :=
  let n := nat_of_ascii c in
  if andb (Nat.leb 48 n) (Nat.leb n 57) then Some (Z.of_nat n - 48)
  else if andb (Nat.leb 65 n) (Nat.leb n 70) then Some (Z.of_nat n - 55)
  else if andb (Nat.leb 97 n) (Nat.leb n 102) then Some (Z.of_nat n - 87)
  else None.

Fixpoint skip_spaces (s : string) : string :=
  match s with
  | String c rest => if is_space c then skip_spaces rest else s
  | EmptyString => s
  end.

(** The longest prefix of digits in the given radix, accumulated. *)
Fixpoint read_digits (radix : Z) (s : string) (acc : option Z) : option Z :=
  match s with
  | String c rest =>
      match hex_value c with
      | Some d =>
          if d <? radix
          then read_digits radix rest
                 (Some (match acc with Some a => a * radix + d | None => d end))
          else acc
      | None => acc
      end
  | EmptyString => acc
  end.

(** [parseInt(s)] without a radix: leading white space, an optional sign,
    an optional [0x] prefix; [None] is [NaN]. *)
Definition parseInt (s : string) : option Z :=
  let s1 := skip_spaces s in
  let '(neg, s2) :=
    match s1 with
    | String "-"%char rest => (true, rest)
    | String "+"%char rest => (false, rest)
    | _ => (false, s1)
    end in
  let magnitude :=
    match s2 with
    | String "0"%char (String "x"%char rest) => read_digits 16 rest None
    | String "0"%char (String "X"%char rest) => read_digits 16 rest None
    | _ => read_digits 10 s2 None
    end in
  option_map (fun v => if neg then - v else v) magnitude.

End Js.

Export Js(Slot, Value, Null, Undefined).

(* ===================================================================== *)
(** * Data model ([src/types.ts]) *)
(* ===================================================================== *)

Record DexScreenerTokenInfo := {
  address : string;
  name : string;
  symbol : string;
  decimals : Q
}.

Record TxnCount := { buys : Q; sells : Q }.

Record TxnWindows := {
  txns_m5 : TxnCount;
  txns_h1 : TxnCount;
  txns_h6 : TxnCount;
  txns_h24 : TxnCount
}.

(** The four windows of [volume] and of [priceChange]. *)
Record Windows := { h24 : Q; h6 : Q; h1 : Q; m5 : Q }.

Record Liquidity := { usd : option Q; base : Q; quote : Q }.

Record PairInfo := {
  imageUrl : option string;
  websites : option (list (string * string));
  socials : option (list (string * string))
}.

(** [DexScreenerPair].  The fields that the code reads through [?.] are
    optional here even where the interface declares them mandatory. *)
Module Pair.
Record t := mk {
  chainId : string;
  dexId : string;
  url : string;
  pairAddress : string;
  labels : option (list string);
  baseToken : DexScreenerTokenInfo;
  quoteToken : DexScreenerTokenInfo;
  priceNative : string;
  priceUsd : option string;
  txns : option TxnWindows;
  volume : option Windows;
  priceChange : option Windows;
  liquidity : option Liquidity;
  fdv : option Q;
  marketCap : option Q;
  pairCreatedAt : option Q;
  info : option PairInfo
}.

(** [{ ...p, labels: ls }]. *)
Definition with_labels (p : t) (ls : list string) : t :=
  mk (chainId p) (dexId p) (url p) (pairAddress p) (Some ls)
     (baseToken p) (quoteToken p) (priceNative p) (priceUsd p)
     (txns p) (volume p) (priceChange p) (liquidity p)
     (fdv p) (marketCap p) (pairCreatedAt p) (info p).
End Pair.
Definition DexScreenerPair : Type := Pair.t.

Record Link := { link_label : string; link_type : string; link_url : string }.

Module Profile.
Record t := mk {
  url : string;
  chainId : string;
  tokenAddress : string;
  icon : option string;
  header : option string;
  openGraph : option string;
  description : option string;
  links : option (list Link)
}.
End Profile.
Definition DexScreenerProfile : Type := Profile.t.

Module Boosted.
Record t := mk {
  url : string;
  chainId : string;
  tokenAddress : string;
  amount : Q;
  totalAmount : Q;
  icon : option string;
  header : option string;
  description : option string;
  links : option (list Link)
}.
End Boosted.
Definition DexScreenerBoostedToken : Type := Boosted.t.

Record DexScreenerOrder := {
  order_type : string;
  order_status : string;
  paymentTimestamp : Q
}.

Record DexScreenerSearchParams := { query : string }.
Record DexScreenerTokenParams := { tokenAddress : string }.
Record DexScreenerPairParams := { pairAddress : string }.

Inductive Timeframe := TF_1h | TF_6h | TF_24h.

Record DexScreenerTrendingParams := {
  timeframe : option Timeframe;
  trending_limit : option Z
}.

Inductive SortKey := ByVolume | ByLiquidity | ByPriceChange | ByTxns.

Record DexScreenerChainParams := {
  chain : string;
  sortBy : option SortKey;
  chain_limit : option Z
}.

Record DexScreenerNewPairsParams := {
  newpairs_chain : option string;
  newpairs_limit : option Z
}.

(** [DexScreenerServiceResponse<T>]. *)
Record DexScreenerServiceResponse (T : Type) := {
  success : bool;
  data : option T;
  error : option string
}.
Arguments success {T} _.
Arguments data {T} _.
Arguments error {T} _.

Definition succeed {T} (d : T) : DexScreenerServiceResponse T :=
  {| success := true; data := Some d; error := None |}.

Definition fail {T} (msg : string) : DexScreenerServiceResponse T :=
  {| success := false; data := None; error := Some msg |}.

(** [DexScreenerConfig]; [rateLimitDelay] is the result of [parseInt], so
    [None] stands for [NaN]. *)
Record DexScreenerConfig := {
  apiUrl : string;
  rateLimitDelay : option Z
}.

(* ===================================================================== *)
(** * The upstream API and the world a client runs in *)
(* ===================================================================== *)

(** The GET requests that the client sends, one constructor per path of
    the upstream API. *)
Inductive Request :=
| GET_search (q : string)
| GET_tokens (tokenAddress : string)
| GET_pairs (pairAddress : string)
| GET_tokens_v1 (chainId addresses : string)
| GET_token_profiles_latest
| GET_token_boosts_latest
| GET_token_boosts_top
| GET_orders (chainId tokenAddress : string)
| GET_token_pairs (chainId tokenAddress : string).

(** The URL handed to [this.api.get] (the search query travels in
    [params.q], shown here as a query string). *)
Definition url_of (r : Request) : string :=
  match r with
  | GET_search q => "/latest/dex/search?q=" +++ q
  | GET_tokens a => "/latest/dex/tokens/" +++ a
  | GET_pairs a => "/latest/dex/pairs/" +++ a
  | GET_tokens_v1 c a => "/tokens/v1/" +++ c +++ "/" +++ a
  | GET_token_profiles_latest => "/token-profiles/latest/v1"
  | GET_token_boosts_latest => "/token-boosts/latest/v1"
  | GET_token_boosts_top => "/token-boosts/top/v1"
  | GET_orders c a => "/orders/v1/" +++ c +++ "/" +++ a
  | GET_token_pairs c a => "/token-pairs/v1/" +++ c +++ "/" +++ a
  end.

(** A listing endpoint answers with an array or with a single object. *)
Inductive OneOrMany (A : Type) : Type :=
| Many (items : list A)
| One (item : A).
Arguments Many {A} items.
Arguments One {A} item.

(** [Array.isArray(d) ? d : [d]]. *)
Definition as_array {A} (d : OneOrMany A) : list A :=
  match d with
  | Many items => items
  | One item => [item]
  end.

(** A body of which the code reads a field: [null], on which the read
    throws, or anything else, given by the field read ([None] when the
    field is missing or falsy). *)
Inductive Body (A : Type) : Type :=
| Fields (field : option A)
| NullBody.
Arguments Fields {A} field.
Arguments NullBody {A}.

(** [response.data] by endpoint.  For the endpoints whose body is used
    as a whole, [None] is a body that is falsy or not an array. *)
Definition payload (r : Request) : Type :=
  match r with
  | GET_search _ | GET_tokens _ => Body (list DexScreenerPair)
  | GET_pairs _ => Body DexScreenerPair
  | GET_tokens_v1 _ _ | GET_token_pairs _ _ => option (list DexScreenerPair)
  | GET_token_profiles_latest => OneOrMany DexScreenerProfile
  | GET_token_boosts_latest | GET_token_boosts_top =>
      OneOrMany DexScreenerBoostedToken
  | GET_orders _ _ => option (list DexScreenerOrder)
  end.

(** What a rejected request throws: [response_message] is
    [error.response?.data?.message], [message] is [error.message]. *)
Record JsError := {
  response_message : option string;
  message : string
}.

(** The answer to one request: how long it takes and how it ends. *)
Record Reply (A : Type) := {
  latency : Z;
  outcome : A + JsError
}.
Arguments latency {A} _.
Arguments outcome {A} _.

(** The upstream service: the answer to a request may depend on how many
    requests this client sent before it. *)
Definition Upstream : Type := nat -> forall r : Request, Reply (payload r).

Record Env := {
  dexConfig : DexScreenerConfig;
  upstream : Upstream
}.

(** [now] is [Date.now()], [lastRequestTime] the instance field,
    [requests] every request sent so far with the time it was sent, and
    [inflight] the time until the last pending answer arrives. *)
Record World := {
  now : Z;
  lastRequestTime : Z;
  requests : list (Z * Request);
  inflight : Z
}.

(** The constructor: configuration from the runtime settings, and
    [lastRequestTime = 0]. *)
Definition new_config (getSetting : string -> option string) : DexScreenerConfig :=
  {| apiUrl := Js.str_or (getSetting "DEXSCREENER_API_URL")
                 "https://api.dexscreener.com";
     rateLimitDelay :=
       Js.parseInt (Js.str_or (getSetting "DEXSCREENER_RATE_LIMIT_DELAY") "100") |}.

Definition new_world (clock : Z) : World :=
  {| now := clock; lastRequestTime := 0; requests := []; inflight := 0 |}.

(* ===================================================================== *)
(** * Computations that may throw *)
(* ===================================================================== *)

Inductive Outcome (A : Type) : Type :=
| Returned (a : A)
| Thrown (e : JsError).
Arguments Returned {A} a.
Arguments Thrown {A} e.

Definition M (A : Type) : Type := Env -> World -> Outcome A * World.

Definition ret {A} (a : A) : M A := fun _ w => (Returned a, w).

Definition bind {A B} (c : M A) (k : A -> M B) : M B :=
  fun env w =>
    match c env w with
    | (Returned a, w1) => k a env w1
    | (Thrown e, w1) => (Thrown e, w1)
    end.

Notation "x <- c ;; k" := (bind c (fun x => k))
  (at level 61, c at next level, right associativity).
Notation "c ;; k" := (bind c (fun _ => k))
  (at level 61, right associativity).

(** [try { body } catch (error) { handler }]. *)
Definition try_catch {A} (body : M A) (handler : JsError -> M A) : M A :=
  fun env w =>
    match body env w with
    | (Returned a, w1) => (Returned a, w1)
    | (Thrown e, w1) => handler e env w1
    end.

(** Calling [this.api.get(url)]: the request leaves now; its answer is
    pending for [latency] milliseconds. *)
Definition send (r : Request) : M (payload r) :=
  fun env w =>
    let reply := upstream env (List.length (requests w)) r in
    let w1 := {| now := now w;
                 lastRequestTime := lastRequestTime w;
                 requests := requests w ++ [(now w, r)];
                 inflight := Z.max (inflight w) (latency reply) |} in
    match outcome reply with
    | inl d => (Returned d, w1)
    | inr e => (Thrown e, w1)
    end.

(** Waiting until every pending answer has arrived. *)
Definition settle_world (w : World) : World :=
  {| now := now w + inflight w;
     lastRequestTime := lastRequestTime w;
     requests := requests w;
     inflight := 0 |}.

(** [await this.api.get(url)]. *)
Definition api_get (r : Request) : M (payload r) :=
  fun env w =>
    let '(o, w1) := send r env w in (o, settle_world w1).

Fixpoint sequence {A} (cs : list (M A)) : M (list A) :=
  match cs with
  | [] => ret []
  | c :: rest => x <- c ;; xs <- sequence rest ;; ret (x :: xs)
  end.

(** [await Promise.all(tasks)] where every task is an async callback that
    sends its request at once: the callbacks start in array order, then
    the caller resumes when the last answer is in. *)
Definition Promise_all {A} (tasks : list (M A)) : M (list A) :=
  fun env w =>
    let '(o, w1) := sequence tasks env w in (o, settle_world w1).

(** [await new Promise(resolve => setTimeout(resolve, ms))]. *)
Definition sleep (ms : Z) : M unit :=
  fun _ w =>
    (Returned tt,
     {| now := now w + ms;
        lastRequestTime := lastRequestTime w;
        requests := requests w;
        inflight := inflight w |}).

(** [this.lastRequestTime = Date.now()]. *)
Definition stamp : M unit :=
  fun _ w =>
    (Returned tt,
     {| now := now w;
        lastRequestTime := now w;
        requests := requests w;
        inflight := inflight w |}).

(** [throw e]. *)
Definition throw {A} (e : JsError) : M A := fun _ w => (Thrown e, w).

(** Reading a property of [undefined] or [null] throws a [TypeError]. *)
Definition type_error_on (subject prop : string) : JsError :=
  {| response_message := None;
     message := "Cannot read properties of " +++ subject
                +++ " (reading '" +++ prop +++ "')" |}.

Definition type_error (prop : string) : JsError :=
  type_error_on "undefined" prop.

(** [body.prop] on a response body. *)
Definition get_field {A} (body : Body A) (prop : string) : M (option A) :=
  match body with
  | Fields field => ret field
  | NullBody => throw (type_error_on "null" prop)
  end.

(* ===================================================================== *)
(** * Numbers as the engine has them: IEEE-754 binary64 *)
(* ===================================================================== *)

Definition number : Type := spec_float.

Definition prec64 : Z := 53.
Definition emax64 : Z := 1024.

(** The double nearest to an integer. *)
Definition number_of_Z (z : Z) : number := binary_normalize prec64 emax64 z 0 false.

(** The double nearest to [num / den], for positive [den]. *)
Definition number_of_ratio (negative : bool) (num den : positive) : number :=
  let '(q, e, loc) := SFdiv_core_binary prec64 emax64 (Zpos num) 0 (Zpos den) 0 in
  binary_round_aux prec64 emax64 negative q e loc.

(** The double nearest to a rational. *)
Definition number_of_Q (q : Q) : number :=
  match Qnum q with
  | Z0 => S754_zero false
  | Zpos n => number_of_ratio false n (Qden q)
  | Zneg n => number_of_ratio true n (Qden q)
  end.

(** The value of a double; an infinity is given the first power of two
    beyond every double, which keeps the order. *)
Definition Q_of_number (x : number) : Q :=
  match x with
  | S754_finite negative m e =>
      let magnitude := if 0 <=? e then inject_Z (Zpos m * 2 ^ e)
                       else (Zpos m # Z.to_pos (2 ^ (- e))) in
      if negative then (- magnitude)%Q else magnitude
  | S754_infinity negative =>
      if negative then inject_Z (- 2 ^ 1024) else inject_Z (2 ^ 1024)
  | _ => 0%Q
  end.

(** [a + b] on two numbers of a pair: the sum rounded to binary64. *)
Definition js_add (a b : Q) : Q := Q_of_number (number_of_Q (a + b)).

(* ===================================================================== *)
(** * [DexScreenerService] ([src/service.ts]) *)
(* ===================================================================== *)

(** [rateLimit]: a comparison with [NaN] is false, so an unparsable delay
    never waits. *)
Definition rateLimit : M unit :=
  fun env w =>
    let timeSinceLastRequest := now w - lastRequestTime w in
    (match rateLimitDelay (dexConfig env) with
     | Some delay =>
         if timeSinceLastRequest <? delay
         then sleep (delay - timeSinceLastRequest) ;; stamp
         else stamp
     | None => stamp
     end) env w.

(** [error.response?.data?.message || error.message || fallback]. *)
Definition error_text (e : JsError) (fallback : string) : string :=
  Js.str_or (response_message e) (Js.str_or (Some (message e)) fallback).

Definition on_error {T} (fallback : string) (e : JsError)
  : M (DexScreenerServiceResponse T) :=
  ret (fail (error_text e fallback)).

(** [x || []]. *)
Definition or_empty {A} (x : option (list A)) : list A :=
  match x with
  | Some xs => xs
  | None => []
  end.

Definition search (params : DexScreenerSearchParams)
  : M (DexScreenerServiceResponse (list DexScreenerPair)) :=
  try_catch
    (rateLimit ;;
     response <- api_get (GET_search (query params)) ;;
     pairs <- get_field response "pairs" ;;
     ret (succeed (or_empty pairs)))
    (on_error "Failed to search tokens").

Definition getTokenPairs (params : DexScreenerTokenParams)
  : M (DexScreenerServiceResponse (list DexScreenerPair)) :=
  try_catch
    (rateLimit ;;
     response <- api_get (GET_tokens (tokenAddress params)) ;;
     pairs <- get_field response "pairs" ;;
     ret (succeed (or_empty pairs)))
    (on_error "Failed to get token pairs").

Definition getPair (params : DexScreenerPairParams)
  : M (DexScreenerServiceResponse DexScreenerPair) :=
  try_catch
    (rateLimit ;;
     response <- api_get (GET_pairs (pairAddress params)) ;;
     found <- get_field response "pair" ;;
     match found with
     | None => ret (fail "Pair not found")
     | Some found => ret (succeed found)
     end)
    (on_error "Failed to get pair").

(** The callback that [getTrending] maps over the promoted tokens. *)
Definition trending_task (token : DexScreenerBoostedToken)
  : M (Slot DexScreenerPair) :=
  try_catch
    (pairResponse <- send (GET_tokens_v1 (Boosted.chainId token)
                                         (Boosted.tokenAddress token)) ;;
     ret (match pairResponse with
          | Some arr => Js.first arr
          | None => Null
          end))
    (fun _ => ret Null).

Definition getTrending (params : DexScreenerTrendingParams)
  : M (DexScreenerServiceResponse (list (Slot DexScreenerPair))) :=
  try_catch
    (rateLimit ;;
     response <- api_get GET_token_boosts_top ;;
     let boostedTokens := as_array response in
     let pairPromises :=
       map trending_task
           (Js.slice0 (Js.int_or (trending_limit params) 10) boostedTokens) in
     settled <- Promise_all pairPromises ;;
     let pairs := filter Js.not_null settled in
     ret (succeed pairs))
    (on_error "Failed to get trending pairs").

(** The number that [getPairsByChain] sorts by. *)
Definition sort_metric (key : SortKey) (p : DexScreenerPair) : Q :=
  match key with
  | ByVolume => Js.num_or0 (option_map h24 (Pair.volume p))
  | ByLiquidity =>
      Js.num_or0 (match Pair.liquidity p with
                  | Some l => usd l
                  | None => None
                  end)
  | ByPriceChange => Js.num_or0 (option_map h24 (Pair.priceChange p))
  | ByTxns =>
      Js.num_or0
        (option_map (fun t => js_add (buys (txns_h24 t)) (sells (txns_h24 t)))
                    (Pair.txns p))
  end.

(** The comparator passed to [pairs.sort]. *)
Definition compare_pairs (key : SortKey) (a b : DexScreenerPair) : Q :=
  (sort_metric key b - sort_metric key a)%Q.

(** [Array.prototype.sort(comparefn)]: the sort is stable, so with a
    consistent comparator its result is the one of a stable insertion. *)
Fixpoint sort_insert {A} (cmp : A -> A -> Q) (x : A) (xs : list A) : list A :=
  match xs with
  | [] => [x]
  | y :: rest =>
      if Qle_bool (cmp x y) 0 then x :: y :: rest
      else y :: sort_insert cmp x rest
  end.

Definition sort {A} (cmp : A -> A -> Q) (xs : list A) : list A :=
  fold_right (sort_insert cmp) [] xs.

Definition same_chain (wanted actual : string) : bool :=
  String.eqb (Js.toLowerCase actual) (Js.toLowerCase wanted).

Definition getPairsByChain (params : DexScreenerChainParams)
  : M (DexScreenerServiceResponse (list DexScreenerPair)) :=
  try_catch
    (rateLimit ;;
     response <- api_get (GET_search (chain params)) ;;
     pairs <- get_field response "pairs" ;;
     let pairs := or_empty pairs in
     let pairs := filter (fun p => same_chain (chain params) (Pair.chainId p))
                         pairs in
     let pairs := match sortBy params with
                  | Some key => sort (compare_pairs key) pairs
                  | None => pairs
                  end in
     let limitedPairs :=
       match chain_limit params with
       | Some l => if l =? 0 then Js.slice0 20 pairs else Js.slice0 l pairs
       | None => Js.slice0 20 pairs
       end in
     ret (succeed limitedPairs))
    (on_error "Failed to get pairs by chain").

(** [labels?.includes('new') ? labels : [...(labels || []), 'new']]. *)
Definition ensure_new (labels : option (list string)) : list string :=
  match labels with
  | Some ls => if Js.includes "new" ls then ls else ls ++ ["new"]
  | None => ["new"]
  end.

(** The callback that [getNewPairs] maps over the profiles. *)
Definition newpairs_task (profile : DexScreenerProfile)
  : M (Slot DexScreenerPair) :=
  try_catch
    (pairResponse <- send (GET_tokens_v1 (Profile.chainId profile)
                                         (Profile.tokenAddress profile)) ;;
     let pairs := or_empty pairResponse in
     ret (match pairs with
          | p0 :: _ => Value (Pair.with_labels p0 (ensure_new (Pair.labels p0)))
          | [] => Null
          end))
    (fun _ => ret Null).

Definition getNewPairs (params : DexScreenerNewPairsParams)
  : M (DexScreenerServiceResponse (list (Slot DexScreenerPair))) :=
  try_catch
    (rateLimit ;;
     response <- api_get GET_token_profiles_latest ;;
     let profiles := as_array response in
     let filteredProfiles :=
       match newpairs_chain params with
       | Some c =>
           if String.eqb c "" then profiles
           else filter (fun p => same_chain c (Profile.chainId p)) profiles
       | None => profiles
       end in
     let pairPromises :=
       map newpairs_task
           (Js.slice0 (Js.int_or (newpairs_limit params) 10) filteredProfiles) in
     settled <- Promise_all pairPromises ;;
     let pairs := filter Js.not_null settled in
     ret (succeed pairs))
    (on_error "Failed to get new pairs").

Definition getTokenProfile (tokenAddress : string)
  : M (DexScreenerServiceResponse DexScreenerProfile) :=
  try_catch
    (rateLimit ;;
     response <- api_get GET_token_profiles_latest ;;
     let profiles := as_array response in
     match find (fun p => String.eqb (Js.toLowerCase (Profile.tokenAddress p))
                                     (Js.toLowerCase tokenAddress))
                profiles with
     | None => ret (fail "Token profile not found")
     | Some profile => ret (succeed profile)
     end)
    (on_error "Failed to get token profile").

Definition getMultipleTokens (chainId : string) (tokenAddresses : list string)
  : M (DexScreenerServiceResponse (list DexScreenerPair)) :=
  try_catch
    (if (30 <? Z.of_nat (List.length tokenAddresses))
     then ret (fail "Maximum 30 token addresses allowed")
     else
       rateLimit ;;
       let addresses := Js.join "," tokenAddresses in
       response <- api_get (GET_tokens_v1 chainId addresses) ;;
       ret (succeed (or_empty response)))
    (on_error "Failed to get multiple tokens").

Definition getLatestTokenProfiles
  : M (DexScreenerServiceResponse (list DexScreenerProfile)) :=
  try_catch
    (rateLimit ;;
     response <- api_get GET_token_profiles_latest ;;
     ret (succeed (as_array response)))
    (on_error "Failed to get latest token profiles").

Definition getLatestBoostedTokens
  : M (DexScreenerServiceResponse (list DexScreenerBoostedToken)) :=
  try_catch
    (rateLimit ;;
     response <- api_get GET_token_boosts_latest ;;
     ret (succeed (as_array response)))
    (on_error "Failed to get latest boosted tokens").

Definition getTopBoostedTokens
  : M (DexScreenerServiceResponse (list DexScreenerBoostedToken)) :=
  try_catch
    (rateLimit ;;
     response <- api_get GET_token_boosts_top ;;
     ret (succeed (as_array response)))
    (on_error "Failed to get top boosted tokens").

Definition checkOrderStatus (chainId tokenAddress : string)
  : M (DexScreenerServiceResponse (list DexScreenerOrder)) :=
  try_catch
    (rateLimit ;;
     response <- api_get (GET_orders chainId tokenAddress) ;;
     ret (succeed (or_empty response)))
    (on_error "Failed to check order status").

Definition getTokenPairsByChain (chainId tokenAddress : string)
  : M (DexScreenerServiceResponse (list DexScreenerPair)) :=
  try_catch
    (rateLimit ;;
     response <- api_get (GET_token_pairs chainId tokenAddress) ;;
     ret (succeed (or_empty response)))
    (on_error "Failed to get token pairs by chain").


(* ===================================================================== *)
(** * Intent actions ([src/actions.ts]) *)
(* ===================================================================== *)

(** What a handler returns to the host framework. *)
Record ActionResult (D : Type) := {
  text : string;
  action : string;
  result_data : option D
}.
Arguments text {D} _.
Arguments action {D} _.
Arguments result_data {D} _.

(** The number-to-text helpers a handler reaches through the service
    object ([service.formatPrice] on the price strings of a pair,
    [service.formatPriceChange], [service.formatUsdValue]) and the
    conversion of a number inside a template literal.  A handler is
    written against this interface. *)
Module Fmt.
Record t := mk {
  formatPrice : string -> string;
  formatPriceChange : Q -> string;
  formatUsdValue : Q -> string;
  toString : Q -> string
}.
End Fmt.

Definition newline : string := String (ascii_of_nat 10) EmptyString.
Definition dquote : string := String (ascii_of_nat 34) EmptyString.

(** A template literal prints a missing string as [undefined]. *)
Definition template_text (s : option string) : string :=
  match s with
  | Some v => v
  | None => "undefined"
  end.

(** [`${i}`] for a natural number. *)
Definition nat_text (n : nat) : string :=
  DecimalString.NilZero.string_of_uint (Nat.to_uint n).

Definition read {A} (x : option A) (prop : string) : Outcome A :=
  match x with
  | Some v => Returned v
  | None => Thrown (type_error prop)
  end.

Definition outcome_bind {A B} (o : Outcome A) (k : A -> Outcome B) : Outcome B :=
  match o with
  | Returned a => k a
  | Thrown e => Thrown e
  end.

(** A pure step that may throw, inside a computation. *)
Definition lift {A} (o : Outcome A) : M A := fun _ w => (o, w).

(** [x ? f(x) : 'N/A'] on an optional number ([0] is falsy). *)
Definition usd_or_na (host : Fmt.t) (x : option Q) : string :=
  match x with
  | Some v => if Qeq_bool v 0 then "N/A" else Fmt.formatUsdValue host v
  | None => "N/A"
  end.

(** [pair.liquidity?.usd]. *)
Definition liquidity_usd (p : DexScreenerPair) : option Q :=
  match Pair.liquidity p with
  | Some l => usd l
  | None => None
  end.

(** [pair.priceUsd || pair.priceNative]. *)
Definition shown_price (p : DexScreenerPair) : string :=
  Js.str_or (Pair.priceUsd p) (Pair.priceNative p).

(** ** Token information *)

Definition is_hex (c : ascii) : bool :=
  match Js.hex_value c with
  | Some _ => true
  | None => false
  end.

(** The next [n] characters are hexadecimal digits. *)
Fixpoint hex_run (n : nat) (s : string) : bool :=
  match n, s with
  | O, _ => true
  | S k, String c rest => andb (is_hex c) (hex_run k rest)
  | S _, EmptyString => false
  end.

(** [content.match(/0x[a-fA-F0-9]{40}/)]: the leftmost match. *)
Fixpoint match_address (content : string) : option string :=
  match content with
  | EmptyString => None
  | String c rest =>
      if andb (String.prefix "0x" content)
              (hex_run 40 (String.substring 2 40 content))
      then Some (String.substring 0 42 content)
      else match_address rest
  end.

(** [(curr.liquidity?.usd || 0) > (prev.liquidity?.usd || 0) ? curr : prev]. *)
Definition more_liquid (prev curr : DexScreenerPair) : DexScreenerPair :=
  if Qle_bool (Js.num_or0 (liquidity_usd curr)) (Js.num_or0 (liquidity_usd prev))
  then prev else curr.

(** [pairs.reduce(f)] without an initial value, on a non-empty array. *)
Definition reduce {A} (f : A -> A -> A) (first : A) (rest : list A) : A :=
  fold_left f rest first.

(** One line of the trading-pairs section. *)
Definition token_info_line (host : Fmt.t) (p : DexScreenerPair) : string :=
  "• **" +++ symbol (Pair.baseToken p) +++ "/" +++ symbol (Pair.quoteToken p)
  +++ "** on " +++ Pair.dexId p +++ " (" +++ Pair.chainId p +++ ")" +++ newline
  +++ "  Price: " +++ Fmt.formatPrice host (shown_price p)
  +++ " | Liq: " +++ usd_or_na host (liquidity_usd p).

(** The answer of the token-info handler once it has chosen [mainPair]
    and the pairs to list; reading [priceChange.h24] or [volume.h24] of a
    pair without them throws. *)
Definition token_info_reply (host : Fmt.t) (mainPair : DexScreenerPair)
    (listed pairs : list DexScreenerPair)
  : Outcome (ActionResult (list DexScreenerPair)) :=
  let pairList := Js.join newline (map (token_info_line host) listed) in
  outcome_bind (read (Pair.priceChange mainPair) "h24") (fun change =>
  outcome_bind (read (Pair.volume mainPair) "h24") (fun vol =>
  Returned
    {| text :=
         "**📊 Token Information**" +++ newline +++ newline
         +++ "**Token:** " +++ name (Pair.baseToken mainPair)
         +++ " (" +++ symbol (Pair.baseToken mainPair) +++ ")" +++ newline
         +++ "**Address:** `" +++ address (Pair.baseToken mainPair) +++ "`" +++ newline
         +++ "**Price:** " +++ Fmt.formatPrice host (shown_price mainPair) +++ newline
         +++ "**24h Change:** " +++ Fmt.formatPriceChange host (h24 change) +++ newline
         +++ "**24h Volume:** " +++ Fmt.formatUsdValue host (h24 vol) +++ newline
         +++ "**Market Cap:** " +++ usd_or_na host (Pair.marketCap mainPair) +++ newline
         +++ "**FDV:** " +++ usd_or_na host (Pair.fdv mainPair) +++ newline +++ newline
         +++ "**Top Trading Pairs:**" +++ newline +++ pairList;
       action := "dexscreener_token_info";
       result_data := Some pairs |})).

Definition getTokenInfo_handler (host : Fmt.t) (content : string)
  : M (ActionResult (list DexScreenerPair)) :=
  match match_address content with
  | None =>
      ret {| text := "Please provide a token address. Example: " +++ dquote
                     +++ "Get token info for 0x..." +++ dquote;
             action := "dexscreener_token_info";
             result_data := None |}
  | Some addr =>
      result <- getTokenPairs {| tokenAddress := addr |} ;;
      match success result, data result with
      | true, Some pairs =>
          match pairs with
          | [] =>
              ret {| text := "No pairs found for token " +++ addr;
                     action := "dexscreener_token_info";
                     result_data := None |}
          | p0 :: rest =>
              let mainPair := reduce more_liquid p0 rest in
              lift (token_info_reply host mainPair (Js.slice0 3 pairs) pairs)
          end
      | _, _ =>
          ret {| text := "Failed to get token info: " +++ template_text (error result);
                 action := "dexscreener_token_info";
                 result_data := None |}
      end
  end.

(** ** Trending *)

Definition is_word (c : ascii) : bool :=
  let n := nat_of_ascii c in
  orb (Js.is_digit c)
      (orb (andb (Nat.leb 65 n) (Nat.leb n 90))
           (orb (andb (Nat.leb 97 n) (Nat.leb n 122)) (Nat.eqb n 95))).

(** [lit] followed by a word boundary, at the start of [s]. *)
Definition literal_then_boundary (lit s : string) : bool :=
  andb (String.prefix lit s)
       (match String.get (String.length lit) s with
        | Some c => negb (is_word c)
        | None => true
        end).

Fixpoint find_timeframe (after_word : bool) (content : string) : option Timeframe :=
  match content with
  | EmptyString => None
  | String c rest =>
      let here :=
        if after_word then None
        else if literal_then_boundary "1h" content then Some TF_1h
        else if literal_then_boundary "6h" content then Some TF_6h
        else if literal_then_boundary "24h" content then Some TF_24h
        else None in
      match here with
      | Some tf => Some tf
      | None => find_timeframe (is_word c) rest
      end
  end.

(** [content.match(/\b(1h|6h|24h)\b/)?.[1]]. *)
Definition match_timeframe (content : string) : option Timeframe :=
  find_timeframe false content.

Fixpoint take_digits (s : string) : string :=
  match s with
  | String c rest => if Js.is_digit c then String c (take_digits rest) else EmptyString
  | EmptyString => EmptyString
  end.

(** [\s+(\d+)] matched at the start of [s]: the captured digits. *)
Definition spaces_then_digits (s : string) : option string :=
  match s with
  | String c rest =>
      if Js.is_space c then
        match take_digits (Js.skip_spaces rest) with
        | EmptyString => None
        | digits => Some digits
        end
      else None
  | EmptyString => None
  end.

(** [content.match(/top\s+(\d+)/i)?.[1]]: the leftmost match. *)
Fixpoint match_top (content : string) : option string :=
  match content with
  | EmptyString => None
  | String c rest =>
      let here :=
        if String.prefix "top" (Js.toLowerCase (String.substring 0 3 content))
        then spaces_then_digits (String.substring 3 (String.length content) content)
        else None in
      match here with
      | Some digits => Some digits
      | None => match_top rest
      end
  end.

Definition timeframe_text (tf : Timeframe) : string :=
  match tf with
  | TF_1h => "1h"
  | TF_6h => "6h"
  | TF_24h => "24h"
  end.

(** One entry of the trending list; [i] is the array index.  The entry
    reads [pair.priceChange.h24], so it throws on an [undefined] or
    [null] entry and on a pair without the windows it prints. *)
Definition trending_entry (host : Fmt.t) (i : nat) (slot : Slot DexScreenerPair)
  : Outcome string :=
  match slot with
  | Value p =>
      outcome_bind (read (Pair.priceChange p) "h24") (fun change =>
      outcome_bind (read (Pair.volume p) "h24") (fun vol =>
      outcome_bind (read (Pair.txns p) "h24") (fun t =>
      Returned
        ("**" +++ nat_text (i + 1) +++ ". " +++ symbol (Pair.baseToken p) +++ "/"
         +++ symbol (Pair.quoteToken p) +++ "**" +++ newline
         +++ "   💰 " +++ Fmt.formatPrice host (shown_price p)
         +++ " (" +++ Fmt.formatPriceChange host (h24 change) +++ ")" +++ newline
         +++ "   📊 Vol: " +++ Fmt.formatUsdValue host (h24 vol)
         +++ " | MCap: " +++ usd_or_na host (Pair.marketCap p) +++ newline
         +++ "   🔥 Buys: " +++ Fmt.toString host (buys (txns_h24 t))
         +++ " | Sells: " +++ Fmt.toString host (sells (txns_h24 t))))))
  | Null => Thrown (type_error_on "null" "priceChange")
  | Undefined => Thrown (type_error "priceChange")
  end.

(** [pairs.map((pair, i) => ...)] where the callback may throw. *)
Fixpoint map_entries (host : Fmt.t) (i : nat) (slots : list (Slot DexScreenerPair))
  : Outcome (list string) :=
  match slots with
  | [] => Returned []
  | s :: rest =>
      outcome_bind (trending_entry host i s) (fun line =>
      outcome_bind (map_entries host (S i) rest) (fun lines =>
      Returned (line :: lines)))
  end.

(** The heading of the trending answer. *)
Definition trending_heading (timeframeMatch : option Timeframe) : string :=
  "**🔥 Trending Tokens ("
  +++ match timeframeMatch with
      | Some tf => timeframe_text tf
      | None => "24h"
      end
  +++ ")**" +++ newline +++ newline.

(** The handler once the two patterns have been matched. *)
Definition trending_answer (host : Fmt.t) (timeframeMatch : option Timeframe)
    (limitMatch : option string)
  : M (ActionResult (list (Slot DexScreenerPair))) :=
  result <- getTrending
              {| timeframe := Some (match timeframeMatch with
                                    | Some tf => tf
                                    | None => TF_24h
                                    end);
                 trending_limit :=
                   match limitMatch with
                   | Some digits => Js.parseInt digits
                   | None => Some 10
                   end |} ;;
  match success result, data result with
  | true, Some pairs =>
      lines <- lift (map_entries host 0 pairs) ;;
      ret {| text := trending_heading timeframeMatch
                     +++ Js.join (newline +++ newline) lines;
             action := "dexscreener_trending";
             result_data := Some pairs |}
  | _, _ =>
      ret {| text := "Failed to get trending tokens: " +++ template_text (error result);
             action := "dexscreener_trending";
             result_data := None |}
  end.

Definition getTrending_handler (host : Fmt.t) (content : string)
  : M (ActionResult (list (Slot DexScreenerPair))) :=
  trending_answer host (match_timeframe content) (match_top content).

(* ===================================================================== *)
(** * Printing and reading numbers *)
(* ===================================================================== *)

Definition js_zero : number := S754_zero false.
Definition js_one : number := Eval vm_compute in number_of_Z 1.
(** The literal [0.01]. *)
Definition js_hundredth : number := Eval vm_compute in number_of_ratio false 1 100.
(** [1e21], from which [toFixed] switches to exponential notation. *)
Definition js_1e21 : number := Eval vm_compute in number_of_Z (10 ^ 21).

Definition js_le (a b : number) : bool := SFleb a b.
Definition js_lt (a b : number) : bool := SFltb a b.

(** The decimal digits of a natural number, without leading zeros. *)
Definition digits_of (n : N) : string :=
  DecimalString.NilZero.string_of_uint (N.to_uint n).

Fixpoint zeros (n : nat) : string :=
  match n with
  | O => EmptyString
  | S k => String "0" (zeros k)
  end.

(** [s.substring(i)]. *)
Fixpoint drop_chars (i : nat) (s : string) : string :=
  match i, s with
  | O, _ => s
  | S k, String _ rest => drop_chars k rest
  | S _, EmptyString => EmptyString
  end.

(** [s.substring(0, i)]. *)
Fixpoint take_chars (i : nat) (s : string) : string :=
  match i, s with
  | O, _ => EmptyString
  | S k, String c rest => String c (take_chars k rest)
  | S _, EmptyString => EmptyString
  end.

(** The integer [n] for which [n / 10^f] is closest to [m * 2^e], the
    larger one of two. *)
Definition scaled_round (f : nat) (m : positive) (e : Z) : N :=
  let scaled := Zpos m * 10 ^ Z.of_nat f in
  Z.to_N (if 0 <=? e then scaled * 2 ^ e
          else (2 * scaled + 2 ^ (- e)) / (2 * 2 ^ (- e))).

(** Steps 10.a to 10.c of [Number.prototype.toFixed]: the digits of [n]
    with a point before the last [f] of them. *)
Definition place_point (f : nat) (n : N) : string :=
  let m := digits_of n in
  match f with
  | O => m
  | S _ =>
      let k := String.length m in
      let m := if Nat.leb k f then zeros (f + 1 - k) +++ m else m in
      let k := String.length m in
      take_chars (k - f) m +++ "." +++ drop_chars (k - f) m
  end.

(** ** [Number::toString] where [toFixed] delegates to it *)

(** The number of decimal digits of a positive integer. *)
Definition decimal_length (v : Z) : nat := String.length (digits_of (Z.to_N v)).

(** Does the decimal [s * 10^p] read back as [x]? *)
Definition reads_back (x : number) (s p : Z) : bool :=
  SFeqb (number_of_Z (s * 10 ^ p)) x.

(** The shortest digit string [s] (with [k] digits) and the exponent [n]
    such that [s * 10^(n-k)] reads back as the integer-valued double
    [x = v], where [v] has [n0] decimal digits; among two of the same
    length the one closer to [v].  Rounding the digits up may carry into
    one more digit, which raises the exponent. *)
Fixpoint shortest_digits (x : number) (v : Z) (n0 : nat) (ks : list nat)
  : Z * nat :=
  match ks with
  | [] => (v, n0)
  | k :: rest =>
      let p := Z.of_nat (n0 - k) in
      let lo := v / 10 ^ p in
      let hi := lo + 1 in
      let lo_ok := reads_back x lo p in
      let hi_ok := reads_back x hi p in
      let up := if hi =? 10 ^ Z.of_nat k
                then (10 ^ Z.of_nat (k - 1), S n0) else (hi, n0) in
      if andb lo_ok hi_ok
      then (if v - lo * 10 ^ p <=? hi * 10 ^ p - v then (lo, n0) else up)
      else if lo_ok then (lo, n0)
      else if hi_ok then up
      else shortest_digits x v n0 rest
  end.

(** [Number::toString(x)] for a positive integer-valued double [x >= 1e21]
    with exact value [v]: exponential notation. *)
Definition exponential_text (x : number) (v : Z) : string :=
  let '(s, n) := shortest_digits x v (decimal_length v) (seq 1 17) in
  let ds := digits_of (Z.to_N s) in
  let mantissa := match ds with
                  | String c EmptyString => ds
                  | String c rest => String c ("." +++ rest)
                  | EmptyString => ds
                  end in
  mantissa +++ "e+" +++ digits_of (N.of_nat (n - 1)).

(** [Number.prototype.toFixed(f)] for [0 <= f <= 100]. *)
Definition toFixed (f : nat) (x : number) : string :=
  match x with
  | S754_nan => "NaN"
  | S754_infinity false => "Infinity"
  | S754_infinity true => "-Infinity"
  | S754_zero _ => place_point f 0
  | S754_finite negative m e =>
      let sign := if negative then "-" else "" in
      let magnitude := S754_finite false m e in
      if js_le js_1e21 magnitude
      then sign +++ exponential_text magnitude (Zpos m * 2 ^ e)
      else sign +++ place_point f (scaled_round f m e)
  end.

(** ** [parseFloat] *)

Fixpoint span_digits (s : string) : string * string :=
  match s with
  | String c rest =>
      if Js.is_digit c
      then let '(ds, tail) := span_digits rest in (String c ds, tail)
      else (EmptyString, s)
  | EmptyString => (EmptyString, EmptyString)
  end.

Fixpoint decimal_value (s : string) (acc : Z) : Z :=
  match s with
  | String c rest => decimal_value rest (acc * 10 + Js.digit_value c)
  | EmptyString => acc
  end.

(** The exponent part [e[+-]digits], when it is complete. *)
Definition exponent_part (s : string) : Z :=
  match s with
  | String c rest =>
      if orb (Ascii.eqb c "e") (Ascii.eqb c "E") then
        let '(negative, body) :=
          match rest with
          | String "-"%char r => (true, r)
          | String "+"%char r => (false, r)
          | _ => (false, rest)
          end in
        match fst (span_digits body) with
        | EmptyString => 0
        | ds => if negative then - decimal_value ds 0 else decimal_value ds 0
        end
      else 0
  | EmptyString => 0
  end.

(** The double nearest to [digits * 10^exponent]. *)
Definition number_of_decimal (negative : bool) (digits exponent : Z) : number :=
  match digits with
  | Zpos d =>
      if 0 <=? exponent
      then binary_normalize prec64 emax64
             ((if negative then -1 else 1) * (digits * 10 ^ exponent)) 0 negative
      else number_of_ratio negative d (Z.to_pos (10 ^ (- exponent)))
  | _ => S754_zero negative
  end.

(** [parseFloat(s)]: leading white space, a sign, then [Infinity] or the
    longest decimal literal; [NaN] when there is none. *)
Definition parseFloat (s : string) : number :=
  let s1 := Js.skip_spaces s in
  let '(negative, s2) :=
    match s1 with
    | String "-"%char rest => (true, rest)
    | String "+"%char rest => (false, rest)
    | _ => (false, s1)
    end in
  if String.prefix "Infinity" s2 then S754_infinity negative
  else
    let '(int_part, s3) := span_digits s2 in
    let '(frac_part, s4) :=
      match s3 with
      | String "."%char rest => span_digits rest
      | _ => (EmptyString, s3)
      end in
    match int_part +++ frac_part with
    | EmptyString => S754_nan
    | ds =>
        number_of_decimal negative (decimal_value ds 0)
          (exponent_part s4 - Z.of_nat (String.length frac_part))
    end.

(* ===================================================================== *)
(** * [formatPrice] *)
(* ===================================================================== *)

Definition formatPrice (price : string + number) : string :=
  let numPrice := match price with
                  | inl s => parseFloat s
                  | inr x => x
                  end in
  if js_le js_one numPrice then toFixed 2 numPrice
  else if js_le js_hundredth numPrice then toFixed 4 numPrice
  else toFixed 8 numPrice.

(** The text after the first point of a rendered number. *)
Fixpoint fraction_of (s : string) : option string :=
  match s with
  | EmptyString => None
  | String c rest => if Ascii.eqb c "." then Some rest else fraction_of rest
  end.

Fixpoint all_digits (s : string) : bool :=
  match s with
  | EmptyString => true
  | String c rest => andb (Js.is_digit c) (all_digits rest)
  end.

(** How many fractional digits a rendered number shows: the length of
    what follows its point, when that is digits only. *)
Definition fraction_digits (s : string) : option nat :=
  match fraction_of s with
  | Some b => if all_digits b then Some (String.length b) else None
  | None => None
  end.

(* ===================================================================== *)
(** * [formatPriceChange] and [formatUsdValue] *)
(* ===================================================================== *)

Definition js_thousand : number := Eval vm_compute in number_of_Z 1000.
Definition js_million : number := Eval vm_compute in number_of_Z 1000000.

(** The division of two doubles. *)
Definition js_div (a b : number) : number := SFdiv prec64 emax64 a b.

Definition formatPriceChange (change : number) : string :=
  let sign := if js_le js_zero change then "+" else "" in
  sign +++ toFixed 2 change +++ "%".

Definition formatUsdValue (value : number) : string :=
  if js_le js_million value
  then "$" +++ toFixed 2 (js_div value js_million) +++ "M"
  else if js_le js_thousand value
  then "$" +++ toFixed 2 (js_div value js_thousand) +++ "K"
  else "$" +++ toFixed 2 value.

(** A number printed in fixed notation with [f] fractional digits:
    digits, a point, [f] digits. *)
Definition fixed_notation (f : nat) (s : string) : Prop :=
  exists whole fraction,
    s = whole +++ "." +++ fraction /\
    whole <> "" /\ all_digits whole = true /\
    all_digits fraction = true /\ String.length fraction = f.

(** The last character of a text. *)
Fixpoint last_char (s : string) : option ascii :=
  match s with
  | EmptyString => None
  | String c EmptyString => Some c
  | String _ rest => last_char rest
  end.

(** Every character of [s] satisfies [p]. *)
Fixpoint all_chars (p : ascii -> bool) (s : string) : bool :=
  match s with
  | EmptyString => true
  | String c rest => andb (p c) (all_chars p rest)
  end.

(** A text without any digit and without a capital I: nothing in it can
    start a decimal literal or [Infinity]. *)
Definition not_numeric (s : string) : bool :=
  all_chars (fun c => negb (orb (Js.is_digit c) (Ascii.eqb c "I"))) s.

(** A text that ends with a digit, or the way [NaN] and [Infinity] do. *)
Definition ends_like_a_number (s : string) : Prop :=
  exists c, last_char s = Some c /\
            (Js.is_digit c = true \/ c = "N"%char \/ c = "y"%char).

(* ===================================================================== *)
(** * The other intent actions ([src/actions.ts]) *)
(* ===================================================================== *)

(** [hay.includes(needle)] on strings. *)
Fixpoint str_includes (needle hay : string) : bool :=
  orb (String.prefix needle hay)
      (match hay with
       | String _ rest => str_includes needle rest
       | EmptyString => false
       end).

(** The lower-case literal [lit] at the start of [s], under the [i]
    flag. *)
Definition literal_here (lit s : string) : bool :=
  String.prefix lit (Js.toLowerCase s).

(** The number of white-space characters at the start of [s]. *)
Fixpoint count_spaces (s : string) : nat :=
  match s with
  | String c rest => if Js.is_space c then S (count_spaces rest) else O
  | EmptyString => O
  end.

(** The first alternative that succeeds, in the order a backtracking
    matcher tries them. *)
Fixpoint first_some {A B} (f : A -> option B) (xs : list A) : option B :=
  match xs with
  | [] => None
  | x :: rest =>
      match f x with
      | Some b => Some b
      | None => first_some f rest
      end
  end.

(** The lengths a greedy [\s+] tries over [n] white-space characters:
    [n], [n-1], ..., [1]. *)
Definition countdown (n : nat) : list nat := rev (seq 1 n).

(** [String.prototype.trim]. *)
Fixpoint trim_end (s : string) : string :=
  match s with
  | EmptyString => EmptyString
  | String c rest =>
      match trim_end rest with
      | EmptyString => if Js.is_space c then EmptyString else String c EmptyString
      | kept => String c kept
      end
  end.

Definition trim (s : string) : string := trim_end (Js.skip_spaces s).

(** [c.toUpperCase()] on an ASCII character. *)
Definition upper_ascii (c : ascii) : ascii :=
  let n := nat_of_ascii c in
  if andb (Nat.leb 97 n) (Nat.leb n 122) then ascii_of_nat (n - 32) else c.

(** [s.charAt(0).toUpperCase() + s.slice(1)]. *)
Definition capitalize (s : string) : string :=
  match s with
  | String c rest => String (upper_ascii c) rest
  | EmptyString => EmptyString
  end.

(** [xs.map((x, i) => ...)] where the callback may throw; [i] is the
    index of the first element. *)
Fixpoint map_indexed {A} (f : nat -> A -> Outcome string) (i : nat) (xs : list A)
  : Outcome (list string) :=
  match xs with
  | [] => Returned []
  | x :: rest =>
      outcome_bind (f i x) (fun line =>
      outcome_bind (map_indexed f (S i) rest) (fun lines =>
      Returned (line :: lines)))
  end.

(** [xs.map((x, i) => f(x, i))]. *)
Fixpoint mapi {A B} (f : nat -> A -> B) (i : nat) (xs : list A) : list B :=
  match xs with
  | [] => []
  | x :: rest => f i x :: mapi f (S i) rest
  end.

(** [Date.now()]. *)
Definition clock : M Z := fun _ w => (Returned (now w), w).

(** ** Search *)

(** [.] without the [s] flag: any character but a line terminator. *)
Definition is_line_terminator (c : ascii) : bool :=
  orb (Nat.eqb (nat_of_ascii c) 10) (Nat.eqb (nat_of_ascii c) 13).

(** [\s+on\s+dexscreener$] at the start of [s].  After a greedy [\s+]
    only the longest run of white space can be followed by a letter. *)
Definition site_suffix (s : string) : bool :=
  match s with
  | String c rest =>
      andb (Js.is_space c)
        (let s1 := Js.skip_spaces rest in
         andb (literal_here "on" s1)
           (match drop_chars 2 s1 with
            | String c2 rest2 =>
                andb (Js.is_space c2)
                  (let s3 := Js.skip_spaces rest2 in
                   andb (literal_here "dexscreener" s3)
                        (String.eqb (drop_chars 11 s3) ""))
            | EmptyString => false
            end))
  | EmptyString => false
  end.

(** What the lazy [(.+?)] takes after its first character: the shortest
    run after which [(?:\s+on\s+dexscreener)?$] matches. *)
Fixpoint capture_rest (s : string) : option string :=
  match s with
  | EmptyString => Some EmptyString
  | String c rest =>
      if site_suffix s then Some EmptyString
      else if is_line_terminator c then None
      else option_map (String c) (capture_rest rest)
  end.

(** [(.+?)(?:\s+on\s+dexscreener)?$] at the start of [s]: the capture. *)
Definition capture (s : string) : option string :=
  match s with
  | String c rest =>
      if is_line_terminator c then None
      else option_map (String c) (capture_rest rest)
  | EmptyString => None
  end.

(** [(?:for\s+)?(.+?)(?:\s+on\s+dexscreener)?$] at the start of [s]: the
    optional group is tried first, its white space from the longest run
    to a single character, then the pattern without the group. *)
Definition after_spaces (s : string) : option string :=
  let with_for :=
    if literal_here "for" s then
      let s1 := drop_chars 3 s in
      first_some (fun u => capture (drop_chars u s1)) (countdown (count_spaces s1))
    else None in
  match with_for with
  | Some q => Some q
  | None => capture s
  end.

(** [\s+(?:for\s+)?(.+?)(?:\s+on\s+dexscreener)?$] at the start of [s]. *)
Definition after_keyword (s : string) : option string :=
  first_some (fun t => after_spaces (drop_chars t s)) (countdown (count_spaces s)).

(** [(?:search|find|look for)] at the start of [s]: what follows it. *)
Definition keyword_here (s : string) : option string :=
  if literal_here "search" s then Some (drop_chars 6 s)
  else if literal_here "find" s then Some (drop_chars 4 s)
  else if literal_here "look for" s then Some (drop_chars 8 s)
  else None.

(** [content.match(/(?:search|find|look for)\s+(?:for\s+)?(.+?)(?:\s+on\s+dexscreener)?$/i)?.[1]]:
    the capture of the leftmost match. *)
Fixpoint match_query (content : string) : option string :=
  let here := match keyword_here content with
              | Some rest => after_keyword rest
              | None => None
              end in
  match here with
  | Some q => Some q
  | None =>
      match content with
      | String _ rest => match_query rest
      | EmptyString => None
      end
  end.

Module searchTokensAction.

Definition name : string := "dexscreener_search".

Definition validate (content : string) : bool :=
  orb (str_includes "search" (Js.toLowerCase content))
      (orb (str_includes "find" (Js.toLowerCase content))
           (str_includes "look for" (Js.toLowerCase content))).

(** One entry of the result list; [i] is the array index. *)
Definition entry (host : Fmt.t) (i : nat) (p : DexScreenerPair) : Outcome string :=
  outcome_bind (read (Pair.priceChange p) "h24") (fun change =>
  outcome_bind (read (Pair.volume p) "h24") (fun vol =>
  Returned
    ("**" +++ nat_text (i + 1) +++ ". " +++ symbol (Pair.baseToken p) +++ "/"
     +++ symbol (Pair.quoteToken p) +++ "** on " +++ Pair.dexId p
     +++ " (" +++ Pair.chainId p +++ ")" +++ newline
     +++ "   💰 Price: " +++ Fmt.formatPrice host (shown_price p) +++ newline
     +++ "   📈 24h: " +++ Fmt.formatPriceChange host (h24 change)
     +++ " | Vol: " +++ Fmt.formatUsdValue host (h24 vol) +++ newline
     +++ "   💧 Liq: " +++ usd_or_na host (liquidity_usd p) +++ newline
     +++ "   🔗 " +++ Pair.url p))).

Definition guidance : ActionResult (list DexScreenerPair) :=
  {| text := "Please provide a search query. Example: " +++ dquote
             +++ "Search for PEPE" +++ dquote;
     action := name;
     result_data := None |}.

Definition handler (host : Fmt.t) (content : string)
  : M (ActionResult (list DexScreenerPair)) :=
  match match_query content with
  | None => ret guidance
  | Some captured =>
      result <- search {| query := trim captured |} ;;
      match success result, data result with
      | true, Some found =>
          match Js.slice0 5 found with
          | [] =>
              ret {| text := "No results found for " +++ dquote
                             +++ trim captured +++ dquote;
                     action := name;
                     result_data := None |}
          | pairs =>
              pairList <- lift (map_indexed (entry host) 0 pairs) ;;
              ret {| text := "**🔍 Search Results for " +++ dquote
                             +++ trim captured +++ dquote +++ "**"
                             +++ newline +++ newline
                             +++ Js.join (newline +++ newline) pairList;
                     action := name;
                     result_data := Some pairs |}
          end
      | _, _ =>
          ret {| text := "Failed to search: " +++ template_text (error result);
                 action := name;
                 result_data := None |}
      end
  end.

End searchTokensAction.

(** ** Token information and trending: the [validate] predicates *)

Module getTokenInfoAction.

Definition name : string := "dexscreener_token_info".

(** The word "token" in any case, and one of three words as written. *)
Definition validate (content : string) : bool :=
  andb (str_includes "token" (Js.toLowerCase content))
       (orb (str_includes "info" content)
            (orb (str_includes "details" content)
                 (str_includes "price" content))).

Definition handler := getTokenInfo_handler.

End getTokenInfoAction.

Module getTrendingAction.

Definition name : string := "dexscreener_trending".

Definition validate (content : string) : bool :=
  orb (str_includes "trending" (Js.toLowerCase content))
      (orb (str_includes "hot" (Js.toLowerCase content))
           (orb (str_includes "popular" (Js.toLowerCase content))
                (str_includes "gainers" (Js.toLowerCase content)))).

Definition handler := getTrending_handler.

End getTrendingAction.

(** ** New pairs *)

Fixpoint take_word (s : string) : string :=
  match s with
  | String c rest => if is_word c then String c (take_word rest) else EmptyString
  | EmptyString => EmptyString
  end.

(** [\s+(\w+)] at the start of [s]: the captured word. *)
Definition spaces_then_word (s : string) : option string :=
  match s with
  | String c rest =>
      if Js.is_space c then
        match take_word (Js.skip_spaces rest) with
        | EmptyString => None
        | word => Some word
        end
      else None
  | EmptyString => None
  end.

(** [content.match(/on\s+(\w+)/i)?.[1]]: the leftmost match. *)
Fixpoint match_chain (content : string) : option string :=
  match content with
  | EmptyString => None
  | String c rest =>
      let here :=
        if literal_here "on" content
        then spaces_then_word (drop_chars 2 content)
        else None in
      match here with
      | Some word => Some word
      | None => match_chain rest
      end
  end.

(** [(\d+)\s+(?:new|latest)] at the start of [s]: the captured digits. *)
Definition digits_then_new (s : string) : option string :=
  match take_digits s with
  | EmptyString => None
  | digits =>
      match drop_chars (String.length digits) s with
      | String c rest =>
          if Js.is_space c then
            let s2 := Js.skip_spaces rest in
            if orb (literal_here "new" s2) (literal_here "latest" s2)
            then Some digits else None
          else None
      | EmptyString => None
      end
  end.

(** [content.match(/(\d+)\s+(?:new|latest)/i)?.[1]]: the leftmost match. *)
Fixpoint match_count (content : string) : option string :=
  match content with
  | EmptyString => None
  | String c rest =>
      match digits_then_new content with
      | Some digits => Some digits
      | None => match_count rest
      end
  end.

Module getNewPairsAction.

Definition name : string := "dexscreener_new_pairs".

Definition validate (content : string) : bool :=
  andb (str_includes "new" (Js.toLowerCase content))
       (orb (str_includes "pairs" (Js.toLowerCase content))
            (orb (str_includes "tokens" (Js.toLowerCase content))
                 (str_includes "listings" (Js.toLowerCase content)))).

(** The age of a pair.  [minutes now created] is the text of
    [Math.floor((Date.now() - pair.pairCreatedAt) / 60000)] as the engine
    computes and prints it. *)
Definition age (minutes : Z -> Q -> string) (now : Z) (created : option Q) : string :=
  match created with
  | Some t => if Qeq_bool t 0 then "Unknown" else minutes now t +++ " mins ago"
  | None => "Unknown"
  end.

(** [pair.labels?.includes('new') ? '🆕' : '']. *)
Definition new_marker (labels : option (list string)) : string :=
  match labels with
  | Some ls => if Js.includes "new" ls then "🆕" else ""
  | None => ""
  end.

(** One entry of the list; the first property read is [pairCreatedAt],
    so an entry that is [undefined] or [null] throws there. *)
Definition entry (host : Fmt.t) (minutes : Z -> Q -> string) (now : Z)
    (i : nat) (slot : Slot DexScreenerPair) : Outcome string :=
  match slot with
  | Value p =>
      Returned
        ("**" +++ nat_text (i + 1) +++ ". " +++ symbol (Pair.baseToken p) +++ "/"
         +++ symbol (Pair.quoteToken p) +++ "** " +++ new_marker (Pair.labels p)
         +++ newline
         +++ "   ⏰ Created: " +++ age minutes now (Pair.pairCreatedAt p)
         +++ " on " +++ Pair.dexId p +++ " (" +++ Pair.chainId p +++ ")" +++ newline
         +++ "   💰 Price: " +++ Fmt.formatPrice host (shown_price p) +++ newline
         +++ "   💧 Liquidity: " +++ usd_or_na host (liquidity_usd p))
  | Null => Thrown (type_error_on "null" "pairCreatedAt")
  | Undefined => Thrown (type_error "pairCreatedAt")
  end.

Definition heading (chainMatch : option string) : string :=
  "**🆕 New Trading Pairs"
  +++ match chainMatch with
      | Some word => " on " +++ word
      | None => ""
      end
  +++ "**" +++ newline +++ newline.

Definition handler (host : Fmt.t) (minutes : Z -> Q -> string) (content : string)
  : M (ActionResult (list (Slot DexScreenerPair))) :=
  let chainMatch := match_chain content in
  let limitMatch := match_count content in
  result <- getNewPairs
              {| newpairs_chain := chainMatch;
                 newpairs_limit := match limitMatch with
                                   | Some digits => Js.parseInt digits
                                   | None => Some 10
                                   end |} ;;
  match success result, data result with
  | true, Some pairs =>
      now <- clock ;;
      newPairsList <- lift (map_indexed (entry host minutes now) 0 pairs) ;;
      ret {| text := heading chainMatch
                     +++ Js.join (newline +++ newline) newPairsList;
             action := name;
             result_data := Some pairs |}
  | _, _ =>
      ret {| text := "Failed to get new pairs: " +++ template_text (error result);
             action := name;
             result_data := None |}
  end.

End getNewPairsAction.

(** ** Pairs of a chain *)

Module getPairsByChainAction.

Definition name : string := "dexscreener_chain_pairs".

Definition chains : list string :=
  ["ethereum"; "bsc"; "polygon"; "arbitrum"; "optimism"; "base"; "solana";
   "avalanche"].

(** [chains.some(chain => content.toLowerCase().includes(chain))]. *)
Definition validate (content : string) : bool :=
  existsb (fun chain => str_includes chain (Js.toLowerCase content)) chains.

(** [chains.find(c => content.toLowerCase().includes(c))]. *)
Definition find_chain (content : string) : option string :=
  find (fun c => str_includes c (Js.toLowerCase content)) chains.

(** The sort criterion, from key words of the text as written. *)
Definition sort_criterion (content : string) : SortKey :=
  if str_includes "liquid" content then ByLiquidity
  else if orb (str_includes "gain" content) (str_includes "change" content)
  then ByPriceChange
  else if orb (str_includes "active" content) (str_includes "trades" content)
  then ByTxns
  else ByVolume.

Definition sort_key_text (key : SortKey) : string :=
  match key with
  | ByVolume => "volume"
  | ByLiquidity => "liquidity"
  | ByPriceChange => "priceChange"
  | ByTxns => "txns"
  end.

(** The metric shown with a pair. *)
Definition metric (host : Fmt.t) (sortBy : SortKey) (p : DexScreenerPair)
  : Outcome string :=
  match sortBy with
  | ByVolume =>
      outcome_bind (read (Pair.volume p) "h24") (fun vol =>
      Returned ("Vol: " +++ Fmt.formatUsdValue host (h24 vol)))
  | ByLiquidity =>
      Returned ("Liq: " +++ usd_or_na host (liquidity_usd p))
  | ByPriceChange =>
      outcome_bind (read (Pair.priceChange p) "h24") (fun change =>
      Returned ("24h: " +++ Fmt.formatPriceChange host (h24 change)))
  | ByTxns =>
      outcome_bind (read (Pair.txns p) "h24") (fun t =>
      Returned ("Trades: "
                +++ Fmt.toString host (js_add (buys (txns_h24 t)) (sells (txns_h24 t)))))
  end.

Definition entry (host : Fmt.t) (sortBy : SortKey) (i : nat) (p : DexScreenerPair)
  : Outcome string :=
  outcome_bind (metric host sortBy p) (fun shown =>
  Returned
    ("**" +++ nat_text (i + 1) +++ ". " +++ symbol (Pair.baseToken p) +++ "/"
     +++ symbol (Pair.quoteToken p) +++ "** on " +++ Pair.dexId p +++ newline
     +++ "   💰 " +++ Fmt.formatPrice host (shown_price p) +++ " | " +++ shown)).

Definition guidance : ActionResult (list DexScreenerPair) :=
  {| text := "Please specify a blockchain. Supported: ethereum, bsc, polygon, arbitrum, optimism, base, solana, avalanche";
     action := name;
     result_data := None |}.

Definition handler (host : Fmt.t) (content : string)
  : M (ActionResult (list DexScreenerPair)) :=
  match find_chain content with
  | None => ret guidance
  | Some chain =>
      let sortBy := sort_criterion content in
      result <- getPairsByChain
                  {| chain := chain; sortBy := Some sortBy; chain_limit := Some 10 |} ;;
      match success result, data result with
      | true, Some pairs =>
          pairsList <- lift (map_indexed (entry host sortBy) 0 (Js.slice0 5 pairs)) ;;
          ret {| text := "**⛓️ Top " +++ capitalize chain +++ " Pairs by "
                         +++ sort_key_text sortBy +++ "**" +++ newline +++ newline
                         +++ Js.join (newline +++ newline) pairsList;
                 action := name;
                 result_data := Some pairs |}
      | _, _ =>
          ret {| text := "Failed to get " +++ chain +++ " pairs: "
                         +++ template_text (error result);
                 action := name;
                 result_data := None |}
      end
  end.

End getPairsByChainAction.

(** ** Boosted tokens *)

Module getBoostedTokensAction.

Definition name : string := "dexscreener_boosted_tokens".

Definition validate (content : string) : bool :=
  orb (str_includes "boosted" (Js.toLowerCase content))
      (orb (str_includes "promoted" (Js.toLowerCase content))
           (str_includes "sponsored" (Js.toLowerCase content))).

Definition entry (host : Fmt.t) (i : nat) (token : DexScreenerBoostedToken) : string :=
  "**" +++ nat_text (i + 1) +++ ". " +++ Boosted.tokenAddress token
  +++ "** on " +++ Boosted.chainId token +++ newline
  +++ "   💰 Boost Amount: " +++ Fmt.toString host (Boosted.amount token)
  +++ " (Total: " +++ Fmt.toString host (Boosted.totalAmount token) +++ ")" +++ newline
  +++ "   📝 " +++ Js.str_or (Boosted.description token) "No description" +++ newline
  +++ "   🔗 " +++ Boosted.url token.

Definition handler (host : Fmt.t) (content : string)
  : M (ActionResult (list DexScreenerBoostedToken)) :=
  let isTop := str_includes "top" (Js.toLowerCase content) in
  result <- (if isTop then getTopBoostedTokens else getLatestBoostedTokens) ;;
  match success result, data result with
  | true, Some listed =>
      match Js.slice0 10 listed with
      | [] =>
          ret {| text := "No boosted tokens found";
                 action := name;
                 result_data := None |}
      | tokens =>
          ret {| text := "**⚡ " +++ (if isTop then "Top" else "Latest")
                         +++ " Boosted Tokens**" +++ newline +++ newline
                         +++ Js.join (newline +++ newline) (mapi (entry host) 0 tokens);
                 action := name;
                 result_data := Some tokens |}
      end
  | _, _ =>
      ret {| text := "Failed to get boosted tokens: " +++ template_text (error result);
             action := name;
             result_data := None |}
  end.

End getBoostedTokensAction.

(** ** Token profiles *)

Module getTokenProfilesAction.

Definition name : string := "dexscreener_token_profiles".

Definition validate (content : string) : bool :=
  andb (str_includes "profile" (Js.toLowerCase content))
       (str_includes "token" (Js.toLowerCase content)).

(** [profile.links?.map(l => `[${l.label}](${l.url})`).join(' | ') || 'No links']. *)
Definition links_text (links : option (list Link)) : string :=
  Js.str_or
    (option_map
       (fun ls =>
          Js.join " | "
            (map (fun l => "[" +++ link_label l +++ "](" +++ link_url l +++ ")") ls))
       links)
    "No links".

Definition entry (i : nat) (profile : DexScreenerProfile) : string :=
  "**" +++ nat_text (i + 1) +++ ". " +++ Profile.tokenAddress profile
  +++ "** on " +++ Profile.chainId profile +++ newline
  +++ "   📝 " +++ Js.str_or (Profile.description profile) "No description" +++ newline
  +++ "   🔗 Links: " +++ links_text (Profile.links profile) +++ newline
  +++ "   🌐 " +++ Profile.url profile.

Definition handler : M (ActionResult (list DexScreenerProfile)) :=
  result <- getLatestTokenProfiles ;;
  match success result, data result with
  | true, Some listed =>
      match Js.slice0 5 listed with
      | [] =>
          ret {| text := "No token profiles found";
                 action := name;
                 result_data := None |}
      | profiles =>
          ret {| text := "**📋 Latest Token Profiles**" +++ newline +++ newline
                         +++ Js.join (newline +++ newline)
                               (mapi entry 0 profiles);
                 action := name;
                 result_data := Some profiles |}
      end
  | _, _ =>
      ret {| text := "Failed to get token profiles: " +++ template_text (error result);
             action := name;
             result_data := None |}
  end.

End getTokenProfilesAction.

(** ** The exported list of actions *)

(** What the framework routes on: the action name of an answer and its
    text. *)
Definition answer_of {D} (c : M (ActionResult D)) : M (string * string) :=
  fun env w =>
    match c env w with
    | (Returned r, w') => (Returned (action r, text r), w')
    | (Thrown e, w') => (Thrown e, w')
    end.

Module Action.
Record t := mk {
  name : string;
  validate : string -> bool;
  handler : string -> M (string * string)
}.
End Action.

(** [dexscreenerActions], each handler with its answer reduced to name
    and text since the data differ in type. *)
Definition dexscreenerActions (host : Fmt.t) (minutes : Z -> Q -> string)
  : list Action.t :=
  [ Action.mk searchTokensAction.name searchTokensAction.validate
      (fun content => answer_of (searchTokensAction.handler host content));
    Action.mk getTokenInfoAction.name getTokenInfoAction.validate
      (fun content => answer_of (getTokenInfoAction.handler host content));
    Action.mk getTrendingAction.name getTrendingAction.validate
      (fun content => answer_of (getTrendingAction.handler host content));
    Action.mk getNewPairsAction.name getNewPairsAction.validate
      (fun content => answer_of (getNewPairsAction.handler host minutes content));
    Action.mk getPairsByChainAction.name getPairsByChainAction.validate
      (fun content => answer_of (getPairsByChainAction.handler host content));
    Action.mk getBoostedTokensAction.name getBoostedTokensAction.validate
      (fun content => answer_of (getBoostedTokensAction.handler host content));
    Action.mk getTokenProfilesAction.name getTokenProfilesAction.validate
      (fun _ => answer_of getTokenProfilesAction.handler) ].

(* ===================================================================== *)
(** * Sample data *)
(* ===================================================================== *)

Module Fixtures.

Definition token (sym : string) : DexScreenerTokenInfo :=
  {| address := "0x" +++ sym; name := sym; symbol := sym; decimals := 18%Q |}.

Definition sample_pair (chainId sym : string) (labels : option (list string))
    (liq vol : Q) : DexScreenerPair :=
  Pair.mk chainId "uniswap" ("https://dexscreener.com/" +++ chainId +++ "/" +++ sym)
    ("0xpair" +++ sym) labels (token sym) (token "WETH") "0.0001" (Some "0.25")
    (Some {| txns_m5 := {| buys := 1; sells := 0 |};
             txns_h1 := {| buys := 4; sells := 2 |};
             txns_h6 := {| buys := 9; sells := 5 |};
             txns_h24 := {| buys := 30; sells := 12 |} |})
    (Some {| h24 := vol; h6 := 0; h1 := 0; m5 := 0 |})
    (Some {| h24 := 50; h6 := 5; h1 := 1; m5 := 0 |})
    (Some {| usd := Some liq; base := 1; quote := 1 |})
    None None None None.

Definition pepe : DexScreenerPair :=
  sample_pair "ethereum" "PEPE" None 5000000 1000000.
Definition shib : DexScreenerPair :=
  sample_pair "ethereum" "SHIB" (Some ["new"; "v3"]) 250000 500000.
Definition bonk : DexScreenerPair :=
  sample_pair "Solana" "BONK" (Some ["v2"]) 9000000 750000.

Definition promoted (chainId tokenAddress : string) : DexScreenerBoostedToken :=
  Boosted.mk ("https://dexscreener.com/" +++ chainId +++ "/" +++ tokenAddress)
    chainId tokenAddress 100 1000 None None None None.

Definition profile (chainId tokenAddress : string) : DexScreenerProfile :=
  Profile.mk ("https://dexscreener.com/" +++ chainId +++ "/" +++ tokenAddress)
    chainId tokenAddress None None None None None.

Definition network_error : JsError :=
  {| response_message := None; message := "Network Error" |}.

Definition rate_limited : JsError :=
  {| response_message := Some "Too many requests";
     message := "Request failed with status code 429" |}.

(** An upstream that rejects everything. *)
Definition unreachable : Upstream :=
  fun _ r => {| latency := 30; outcome := inr network_error |}.

(** Upstreams are built by overriding one endpoint at a time. *)
Definition with_boosts_top (reply : Reply (OneOrMany DexScreenerBoostedToken))
    (rest : Upstream) : Upstream :=
  fun n r =>
    match r as r0 return Reply (payload r0) with
    | GET_token_boosts_top => reply
    | r0 => rest n r0
    end.

Definition with_profiles (reply : Reply (OneOrMany DexScreenerProfile))
    (rest : Upstream) : Upstream :=
  fun n r =>
    match r as r0 return Reply (payload r0) with
    | GET_token_profiles_latest => reply
    | r0 => rest n r0
    end.

Definition with_tokens_v1 (chainId addresses : string)
    (reply : Reply (option (list DexScreenerPair))) (rest : Upstream) : Upstream :=
  fun n r =>
    match r as r0 return Reply (payload r0) with
    | GET_tokens_v1 c a =>
        if andb (String.eqb c chainId) (String.eqb a addresses) then reply
        else rest n (GET_tokens_v1 c a)
    | r0 => rest n r0
    end.

Definition with_search (q : string)
    (reply : Reply (Body (list DexScreenerPair))) (rest : Upstream) : Upstream :=
  fun n r =>
    match r as r0 return Reply (payload r0) with
    | GET_search q0 =>
        if String.eqb q0 q then reply else rest n (GET_search q0)
    | r0 => rest n r0
    end.

Definition with_tokens (tokenAddress : string)
    (reply : Reply (Body (list DexScreenerPair))) (rest : Upstream) : Upstream :=
  fun n r =>
    match r as r0 return Reply (payload r0) with
    | GET_tokens a =>
        if String.eqb a tokenAddress then reply else rest n (GET_tokens a)
    | r0 => rest n r0
    end.

Definition ok {A} (ms : Z) (d : A) : Reply A :=
  {| latency := ms; outcome := inl d |}.

Definition ko {A} (ms : Z) (e : JsError) : Reply A :=
  {| latency := ms; outcome := inr e |}.

(** The default configuration: no setting is present. *)
Definition default_config : DexScreenerConfig := new_config (fun _ => None).

(** A fresh client started at some wall-clock time. *)
Definition fresh : World := new_world 1700000000000.

(** Two promoted tokens, both with pair data. *)
Definition two_promoted : list DexScreenerBoostedToken :=
  [promoted "ethereum" "0x123"; promoted "ethereum" "0x456"].

Definition trending_upstream : Upstream :=
  with_boosts_top (ok 40 (Many two_promoted))
    (with_tokens_v1 "ethereum" "0x123" (ok 25 (Some [pepe]))
       (with_tokens_v1 "ethereum" "0x456" (ok 35 (Some [shib; bonk]))
          unreachable)).

Definition trending_env : Env :=
  {| dexConfig := default_config; upstream := trending_upstream |}.

(** The second promoted token has no pair: its lookup answers [[]]. *)
Definition sparse_upstream : Upstream :=
  with_boosts_top (ok 40 (Many two_promoted))
    (with_tokens_v1 "ethereum" "0x123" (ok 25 (Some [pepe]))
       (with_tokens_v1 "ethereum" "0x456" (ok 35 (Some []))
          unreachable)).

Definition sparse_env : Env :=
  {| dexConfig := default_config; upstream := sparse_upstream |}.

(** The promoted list arrives, the lookup of the second token fails. *)
Definition flaky_upstream : Upstream :=
  with_boosts_top (ok 40 (Many two_promoted))
    (with_tokens_v1 "ethereum" "0x123" (ok 25 (Some [pepe])) unreachable).

Definition flaky_env : Env :=
  {| dexConfig := default_config; upstream := flaky_upstream |}.

Definition down_env : Env :=
  {| dexConfig := default_config; upstream := unreachable |}.

(** An upstream that answers every request with a 429 and a message. *)
Definition throttled_env : Env :=
  {| dexConfig := default_config;
     upstream := fun _ r => {| latency := 15; outcome := inr rate_limited |} |}.

(** An upstream whose errors carry no text at all. *)
Definition silent_env : Env :=
  {| dexConfig := default_config;
     upstream := fun _ r =>
       {| latency := 15;
          outcome := inr {| response_message := Some ""; message := "" |} |} |}.

(** A search for "ethereum" answers with pairs of several chains. *)
Definition weth : DexScreenerPair :=
  sample_pair "Ethereum" "WETH" None 750000 2000000.

Definition chain_env : Env :=
  {| dexConfig := default_config;
     upstream := with_search "ethereum" (ok 30 (Fields (Some [shib; bonk; pepe; weth])))
                   unreachable |}.

(** The search answers with a body that is [null]. *)
Definition null_body_env : Env :=
  {| dexConfig := default_config;
     upstream := with_search "ethereum" (ok 30 NullBody) unreachable |}.

(** A token with three pairs. *)
Definition usdc_address : string := "0xA0b86991c6218b36c1d19D4a2e9Eb0cE3606eB48".

Definition token_env : Env :=
  {| dexConfig := default_config;
     upstream := with_tokens usdc_address (ok 30 (Fields (Some [shib; pepe; bonk; weth])))
                   unreachable |}.

(** Two latest profiles with pair data. *)
Definition newpairs_env : Env :=
  {| dexConfig := default_config;
     upstream :=
       with_profiles (ok 40 (Many [profile "ethereum" "0x123";
                                   profile "ethereum" "0x456"]))
         (with_tokens_v1 "ethereum" "0x123" (ok 25 (Some [pepe]))
            (with_tokens_v1 "ethereum" "0x456" (ok 35 (Some [shib; bonk]))
               unreachable)) |}.

(** The formatting helpers of the service itself; the counts of the
    sample data are whole numbers, printed digit by digit. *)
Definition whole_text (q : Q) : string :=
  let z := (Qnum q / Zpos (Qden q))%Z in
  (if z <? 0 then "-" else "") +++ digits_of (Z.to_N (Z.abs z)).

Definition service_host : Fmt.t :=
  Fmt.mk (fun price => formatPrice (inl price))
         (fun change => formatPriceChange (number_of_Q change))
         (fun value => formatUsdValue (number_of_Q value))
         whole_text.

(** Formatting helpers that print placeholders. *)
Definition plain_host : Fmt.t :=
  Fmt.mk (fun price => "$" +++ price) (fun _ => "+0.00%") (fun _ => "$0.00")
         (fun _ => "0").

End Fixtures.

(* ===================================================================== *)
(** * Worlds reached by the building blocks *)
(* ===================================================================== *)

(** The world right after [rateLimit]. *)
Definition paced (env : Env) (w : World) : World :=
  let elapsed := now w - lastRequestTime w in
  let t := match rateLimitDelay (dexConfig env) with
           | Some delay =>
               if elapsed <? delay then now w + (delay - elapsed) else now w
           | None => now w
           end in
  {| now := t; lastRequestTime := t;
     requests := requests w; inflight := inflight w |}.

(** The world after a request was sent from [w] and answered. *)
Definition answered (env : Env) (w : World) (r : Request) : World :=
  settle_world
    {| now := now w; lastRequestTime := lastRequestTime w;
       requests := requests w ++ [(now w, r)];
       inflight := Z.max (inflight w)
                     (latency (upstream env (List.length (requests w)) r)) |}.


(** The world right after [send]: the request is on its way. *)
Definition sent (env : Env) (w : World) (r : Request) : World :=
  {| now := now w; lastRequestTime := lastRequestTime w;
     requests := requests w ++ [(now w, r)];
     inflight := Z.max (inflight w)
                   (latency (upstream env (List.length (requests w)) r)) |}.

(** The world after a row of requests was sent without waiting. *)
Fixpoint fanned (env : Env) (w : World) (rs : list Request) : World :=
  match rs with
  | [] => w
  | r :: rest => fanned env (sent env w r) rest
  end.

(** The requests that a run appended to the log. *)
Definition new_requests (w w' : World) : list (Z * Request) :=
  skipn (List.length (requests w)) (requests w').

(** The envelope of a method that reads the field [prop] of a body and
    goes on with [k]: on a [null] body the read throws a [TypeError],
    which the method's [catch] turns into a failure. *)
Definition field_result {A T} (body : Body A) (prop fallback : string)
    (k : option A -> DexScreenerServiceResponse T) : DexScreenerServiceResponse T :=
  match body with
  | Fields field => k field
  | NullBody => fail (error_text (type_error_on "null" prop) fallback)
  end.

(* ===================================================================== *)
(** * The per-token lookups, read off the upstream *)
(* ===================================================================== *)

Definition lookup_of_token (token : DexScreenerBoostedToken) : Request :=
  GET_tokens_v1 (Boosted.chainId token) (Boosted.tokenAddress token).

Definition lookup_of_profile (profile : DexScreenerProfile) : Request :=
  GET_tokens_v1 (Profile.chainId profile) (Profile.tokenAddress profile).

(** The answer to the [n]-th request of the client when it is the lookup
    [GET_tokens_v1 c a]. *)
Definition lookup_answer (env : Env) (n : nat) (c a : string)
  : option (list DexScreenerPair) + JsError :=
  outcome (upstream env n (GET_tokens_v1 c a)).

(** What [getTrending] holds for one promoted token once its lookup, the
    [n]-th request, is settled. *)
Definition trending_slot (env : Env) (n : nat) (token : DexScreenerBoostedToken)
  : Slot DexScreenerPair :=
  match lookup_answer env n (Boosted.chainId token) (Boosted.tokenAddress token) with
  | inl (Some arr) => Js.first arr
  | inl None => Null
  | inr _ => Null
  end.

Fixpoint trending_slots (env : Env) (n : nat)
    (tokens : list DexScreenerBoostedToken) : list (Slot DexScreenerPair) :=
  match tokens with
  | [] => []
  | t :: rest => trending_slot env n t :: trending_slots env (S n) rest
  end.

(** The same for [getNewPairs] and one profile. *)
Definition newpairs_slot (env : Env) (n : nat) (profile : DexScreenerProfile)
  : Slot DexScreenerPair :=
  match lookup_answer env n (Profile.chainId profile) (Profile.tokenAddress profile) with
  | inl (Some (p0 :: _)) =>
      Value (Pair.with_labels p0 (ensure_new (Pair.labels p0)))
  | _ => Null
  end.

Fixpoint newpairs_slots (env : Env) (n : nat)
    (profiles : list DexScreenerProfile) : list (Slot DexScreenerPair) :=
  match profiles with
  | [] => []
  | p :: rest => newpairs_slot env n p :: newpairs_slots env (S n) rest
  end.

(** The promoted tokens that [getTrending] looks up. *)
Definition trending_chosen (params : DexScreenerTrendingParams)
    (tokens : list DexScreenerBoostedToken) : list DexScreenerBoostedToken :=
  Js.slice0 (Js.int_or (trending_limit params) 10) tokens.

(** The profiles that [getNewPairs] looks up. *)
Definition newpairs_chosen (params : DexScreenerNewPairsParams)
    (profiles : list DexScreenerProfile) : list DexScreenerProfile :=
  Js.slice0 (Js.int_or (newpairs_limit params) 10)
    (match newpairs_chain params with
     | Some c =>
         if String.eqb c "" then profiles
         else filter (fun p => same_chain c (Profile.chainId p)) profiles
     | None => profiles
     end).

(* ===================================================================== *)
(** * The contract of getTrending, in the words of the specification *)
(* ===================================================================== *)

(** The pairs among the entries of a result array. *)
Fixpoint defined_entries {A} (slots : list (Slot A)) : list A :=
  match slots with
  | [] => []
  | Value a :: rest => a :: defined_entries rest
  | _ :: rest => defined_entries rest
  end.

(** For each token in order, the first pair of its lookup; a token whose
    lookup failed contributes nothing.  The lookup of the first token is
    the [n]-th request of the client, the next one the [n+1]-th, ... *)
Fixpoint first_pairs (env : Env) (n : nat)
    (tokens : list DexScreenerBoostedToken) : list DexScreenerPair :=
  match tokens with
  | [] => []
  | t :: rest =>
      match lookup_answer env n (Boosted.chainId t) (Boosted.tokenAddress t) with
      | inl (Some (p :: _)) => p :: first_pairs env (S n) rest
      | _ => first_pairs env (S n) rest
      end
  end.

(** The limit a caller asked for, 10 when none is given. *)
Definition requested_limit (params : DexScreenerTrendingParams) : Z :=
  match trending_limit params with
  | Some l => l
  | None => 10
  end.

(** The same, a limit of 0 meaning 10 as well. *)
Definition requested_limit_or_default (params : DexScreenerTrendingParams) : Z :=
  match trending_limit params with
  | Some 0 => 10
  | Some l => l
  | None => 10
  end.

(** A limit that is absent, zero or positive. *)
Definition not_negative (limit : option Z) : Prop :=
  forall l, limit = Some l -> 0 <= l.

(** What the lookups of [tokens] leave in the result, token by token:
    the first pair of an answer, an [undefined] entry for an answer that
    is an empty array, nothing for a lookup that was rejected or whose
    body is not an array.  The lookup of the first token is the [n]-th
    request of the client. *)
Fixpoint kept_entries (env : Env) (n : nat)
    (tokens : list DexScreenerBoostedToken) : list (Slot DexScreenerPair) :=
  match tokens with
  | [] => []
  | t :: rest =>
      match lookup_answer env n (Boosted.chainId t) (Boosted.tokenAddress t) with
      | inl (Some (p :: _)) => Value p :: kept_entries env (S n) rest
      | inl (Some []) => Undefined :: kept_entries env (S n) rest
      | inl None => kept_entries env (S n) rest
      | inr _ => kept_entries env (S n) rest
      end
  end.

(** The claim as it stands: "take the first [limit] promoted tokens in
    their listed order, fetch each token's pair data, keep each token's
    first pair, drop every token whose lookup failed; the first request
    goes to the promoted-tokens endpoint", for every limit. *)
Definition trending_as_stated (env : Env) (w : World)
    (params : DexScreenerTrendingParams)
    (tokens : list DexScreenerBoostedToken) : Prop :=
  exists found w',
    getTrending params env w = (Returned (succeed found), w') /\
    nth_error (map (fun entry => url_of (snd entry)) (requests w'))
              (List.length (requests w))
      = Some "/token-boosts/top/v1" /\
    found = map Value
              (first_pairs env (S (List.length (requests w)))
                 (firstn (Z.to_nat (requested_limit params)) tokens)).

(** The claim as amended: the tokens visited are the first [limit] ones,
    a limit of 0 meaning 10; the requests of the call are the one for the
    promoted tokens and then one lookup for each visited token, in their
    order; the result is, entry by entry, what those lookups leave; so
    the pairs in it are the first pairs of the lookups that answered with
    one, in the order of the promoted tokens. *)
Definition trending_as_amended (env : Env) (w : World)
    (params : DexScreenerTrendingParams)
    (tokens : list DexScreenerBoostedToken) : Prop :=
  let visited := firstn (Z.to_nat (requested_limit_or_default params)) tokens in
  exists found w',
    getTrending params env w = (Returned (succeed found), w') /\
    nth_error (map (fun entry => url_of (snd entry)) (requests w'))
              (List.length (requests w))
      = Some "/token-boosts/top/v1" /\
    map snd (new_requests w w')
      = GET_token_boosts_top
          :: map (fun t => GET_tokens_v1 (Boosted.chainId t) (Boosted.tokenAddress t))
                 visited /\
    found = kept_entries env (S (List.length (requests w))) visited /\
    defined_entries found = first_pairs env (S (List.length (requests w))) visited.

(* ===================================================================== *)
(** * The "new" label, in the words of the specification *)
(* ===================================================================== *)

(** Two pairs that agree in every field but the labels. *)
Definition same_but_labels (fetched returned : DexScreenerPair) : Prop :=
  Pair.chainId returned = Pair.chainId fetched /\
  Pair.dexId returned = Pair.dexId fetched /\
  Pair.url returned = Pair.url fetched /\
  Pair.pairAddress returned = Pair.pairAddress fetched /\
  Pair.baseToken returned = Pair.baseToken fetched /\
  Pair.quoteToken returned = Pair.quoteToken fetched /\
  Pair.priceNative returned = Pair.priceNative fetched /\
  Pair.priceUsd returned = Pair.priceUsd fetched /\
  Pair.txns returned = Pair.txns fetched /\
  Pair.volume returned = Pair.volume fetched /\
  Pair.priceChange returned = Pair.priceChange fetched /\
  Pair.liquidity returned = Pair.liquidity fetched /\
  Pair.fdv returned = Pair.fdv fetched /\
  Pair.marketCap returned = Pair.marketCap fetched /\
  Pair.pairCreatedAt returned = Pair.pairCreatedAt fetched /\
  Pair.info returned = Pair.info fetched.

(** [returned] is [fetched] with a label list that carries "new": the
    labels of [returned] are the old list itself when that already had
    the label, the old list with "new" appended when it lacked it, and
    the list of "new" alone when [fetched] had no labels; every other
    field is the one of [fetched]. *)
Definition new_label_ensured (fetched returned : DexScreenerPair) : Prop :=
  same_but_labels fetched returned /\
  exists ls,
    Pair.labels returned = Some ls /\
    In "new" ls /\
    match Pair.labels fetched with
    | Some old => (In "new" old -> ls = old) /\
                  (~ In "new" old -> ls = old ++ ["new"])
    | None => ls = ["new"]
    end.

(** [fetched] is the first pair that some lookup of the run returned. *)
Definition first_of_some_lookup (env : Env) (fetched : DexScreenerPair) : Prop :=
  exists n c a others, lookup_answer env n c a = inl (Some (fetched :: others)).

(* ===================================================================== *)
(** * Every client operation, as one family *)
(* ===================================================================== *)

Inductive Operation :=
| Op_search (params : DexScreenerSearchParams)
| Op_getTokenPairs (params : DexScreenerTokenParams)
| Op_getPair (params : DexScreenerPairParams)
| Op_getTrending (params : DexScreenerTrendingParams)
| Op_getPairsByChain (params : DexScreenerChainParams)
| Op_getNewPairs (params : DexScreenerNewPairsParams)
| Op_getTokenProfile (tokenAddress : string)
| Op_getMultipleTokens (chainId : string) (tokenAddresses : list string)
| Op_getLatestTokenProfiles
| Op_getLatestBoostedTokens
| Op_getTopBoostedTokens
| Op_checkOrderStatus (chainId tokenAddress : string)
| Op_getTokenPairsByChain (chainId tokenAddress : string).

Definition result_type (op : Operation) : Type :=
  match op with
  | Op_search _ | Op_getTokenPairs _ | Op_getPairsByChain _
  | Op_getMultipleTokens _ _ | Op_getTokenPairsByChain _ _ =>
      list DexScreenerPair
  | Op_getPair _ => DexScreenerPair
  | Op_getTrending _ | Op_getNewPairs _ => list (Slot DexScreenerPair)
  | Op_getTokenProfile _ => DexScreenerProfile
  | Op_getLatestTokenProfiles => list DexScreenerProfile
  | Op_getLatestBoostedTokens | Op_getTopBoostedTokens =>
      list DexScreenerBoostedToken
  | Op_checkOrderStatus _ _ => list DexScreenerOrder
  end.

Definition perform (op : Operation)
  : M (DexScreenerServiceResponse (result_type op)) :=
  match op with
  | Op_search params => search params
  | Op_getTokenPairs params => getTokenPairs params
  | Op_getPair params => getPair params
  | Op_getTrending params => getTrending params
  | Op_getPairsByChain params => getPairsByChain params
  | Op_getNewPairs params => getNewPairs params
  | Op_getTokenProfile a => getTokenProfile a
  | Op_getMultipleTokens c l => getMultipleTokens c l
  | Op_getLatestTokenProfiles => getLatestTokenProfiles
  | Op_getLatestBoostedTokens => getLatestBoostedTokens
  | Op_getTopBoostedTokens => getTopBoostedTokens
  | Op_checkOrderStatus c a => checkOrderStatus c a
  | Op_getTokenPairsByChain c a => getTokenPairsByChain c a
  end.

(** The fixed string at the end of each operation's [catch]. *)
Definition fallback_message (op : Operation) : string :=
  match op with
  | Op_search _ => "Failed to search tokens"
  | Op_getTokenPairs _ => "Failed to get token pairs"
  | Op_getPair _ => "Failed to get pair"
  | Op_getTrending _ => "Failed to get trending pairs"
  | Op_getPairsByChain _ => "Failed to get pairs by chain"
  | Op_getNewPairs _ => "Failed to get new pairs"
  | Op_getTokenProfile _ => "Failed to get token profile"
  | Op_getMultipleTokens _ _ => "Failed to get multiple tokens"
  | Op_getLatestTokenProfiles => "Failed to get latest token profiles"
  | Op_getLatestBoostedTokens => "Failed to get latest boosted tokens"
  | Op_getTopBoostedTokens => "Failed to get top boosted tokens"
  | Op_checkOrderStatus _ _ => "Failed to check order status"
  | Op_getTokenPairsByChain _ _ => "Failed to get token pairs by chain"
  end.

(** The request that the operation itself awaits, right after
    [rateLimit]; none when [getMultipleTokens] refuses its input. *)
Definition own_request (op : Operation) : option Request :=
  match op with
  | Op_search params => Some (GET_search (query params))
  | Op_getTokenPairs params => Some (GET_tokens (tokenAddress params))
  | Op_getPair params => Some (GET_pairs (pairAddress params))
  | Op_getTrending _ => Some GET_token_boosts_top
  | Op_getPairsByChain params => Some (GET_search (chain params))
  | Op_getNewPairs _ => Some GET_token_profiles_latest
  | Op_getTokenProfile _ => Some GET_token_profiles_latest
  | Op_getMultipleTokens c l =>
      if 30 <? Z.of_nat (List.length l) then None
      else Some (GET_tokens_v1 c (Js.join "," l))
  | Op_getLatestTokenProfiles => Some GET_token_profiles_latest
  | Op_getLatestBoostedTokens => Some GET_token_boosts_latest
  | Op_getTopBoostedTokens => Some GET_token_boosts_top
  | Op_checkOrderStatus c a => Some (GET_orders c a)
  | Op_getTokenPairsByChain c a => Some (GET_token_pairs c a)
  end.

(** The message of a failure envelope: the upstream-supplied text when
    there is one, otherwise the error's own message, otherwise the
    operation's fixed string (an empty text counts as none). *)
Definition preferred_message (e : JsError) (fallback : string) : string :=
  match response_message e with
  | Some (String c rest) => String c rest
  | _ => match message e with
         | String c rest => String c rest
         | EmptyString => fallback
         end
  end.

(** Between [w] and [w'] the client sent a request that was rejected. *)
Definition saw_rejection (env : Env) (w w' : World) : Prop :=
  exists n t r e,
    (List.length (requests w) <= n)%nat /\
    nth_error (requests w') n = Some (t, r) /\
    outcome (upstream env n r) = inr e.

(** "On any transport or upstream failure the operation returns
    [{success: false, error}]." *)
Definition fails_on_any_rejection (op : Operation) (env : Env) (w : World) : Prop :=
  forall res w',
    perform op env w = (Returned res, w') ->
    saw_rejection env w w' ->
    success res = false.

(* ===================================================================== *)
(** * The contract of getPairsByChain, in the words of the specification *)
(* ===================================================================== *)

(** A comparator of the shape [(a, b) => metric(b) - metric(a)], and the
    order it sorts into. *)
Definition by_metric {A} (metric : A -> Q) (a b : A) : Q :=
  (metric b - metric a)%Q.

Definition metric_ge {A} (metric : A -> Q) (a b : A) : Prop :=
  (metric b <= metric a)%Q.

(** "A chain identifier case-insensitively equal to the requested
    chain." *)
Definition on_chain (wanted : string) (p : DexScreenerPair) : bool :=
  if string_dec (Js.toLowerCase (Pair.chainId p)) (Js.toLowerCase wanted)
  then true else false.

(** The metric of a sort key as the specification names it: the 24h
    volume, the USD liquidity, the 24h price change, and for the
    transaction count the buys plus the sells of the 24h window (a sum of
    two doubles); a pair without the figure counts as 0. *)
Definition stated_metric (key : SortKey) (p : DexScreenerPair) : Q :=
  match key with
  | ByVolume =>
      match Pair.volume p with
      | Some windows => h24 windows
      | None => 0
      end
  | ByLiquidity =>
      match Pair.liquidity p with
      | Some {| usd := Some dollars |} => dollars
      | _ => 0
      end
  | ByPriceChange =>
      match Pair.priceChange p with
      | Some windows => h24 windows
      | None => 0
      end
  | ByTxns =>
      match Pair.txns p with
      | Some windows => js_add (buys (txns_h24 windows)) (sells (txns_h24 windows))
      | None => 0
      end
  end.

(** Ordered descending by the metric of the sort key. *)
Definition descending (key : SortKey) (pairs : list DexScreenerPair) : Prop :=
  StronglySorted (fun a b => (stated_metric key b <= stated_metric key a)%Q) pairs.

(** The limit a caller asked for, 20 when none is given. *)
Definition requested_chain_limit (params : DexScreenerChainParams) : Z :=
  match chain_limit params with
  | Some l => l
  | None => 20
  end.

(** The same, a limit of 0 meaning 20 as well. *)
Definition requested_chain_limit_or_default (params : DexScreenerChainParams) : Z :=
  match chain_limit params with
  | Some 0 => 20
  | Some l => l
  | None => 20
  end.

(** "Keep the pairs whose chain identifier case-insensitively equals the
    requested chain, order them descending by the requested metric, then
    truncate to [limit]."  [candidates] is the list before truncation: the
    pairs of the chain, in the order of the upstream when no sort key is
    given; [limit_of] is the reading of the limit. *)
Definition chain_contract (limit_of : DexScreenerChainParams -> Z)
    (params : DexScreenerChainParams)
    (upstream_pairs found : list DexScreenerPair) : Prop :=
  exists candidates,
    Permutation candidates (filter (on_chain (chain params)) upstream_pairs) /\
    (sortBy params = None ->
     candidates = filter (on_chain (chain params)) upstream_pairs) /\
    (forall key, sortBy params = Some key -> descending key candidates) /\
    found = firstn (Z.to_nat (limit_of params)) candidates.

(** The whole of the claim as amended, for each answer of the search
    endpoint.  A body that is an object gives a success whose pairs obey
    the contract with a limit of 0 read as 20; they are all on the chain
    and, with a sort key, descending.  A [null] body and a rejected
    request give a failure without data. *)
Definition chain_answer_as_amended (params : DexScreenerChainParams)
    (answer : Body (list DexScreenerPair) + JsError)
    (res : DexScreenerServiceResponse (list DexScreenerPair)) : Prop :=
  match answer with
  | inl (Fields field) =>
      exists found,
        res = succeed found /\
        chain_contract requested_chain_limit_or_default params
          (match field with Some pairs => pairs | None => [] end) found /\
        Forall (fun p => on_chain (chain params) p = true) found /\
        (forall key, sortBy params = Some key -> descending key found)
  | inl NullBody =>
      success res = false /\ data res = None
  | inr e =>
      success res = false /\ data res = None
  end.

(* ===================================================================== *)
(** * The token-info answer, in the words of the specification *)
(* ===================================================================== *)

(** The USD liquidity of a pair, a missing one counting as 0. *)
Definition usd_liquidity (p : DexScreenerPair) : Q :=
  match Pair.liquidity p with
  | Some {| usd := Some dollars |} => dollars
  | _ => 0
  end.

(** [chosen] stands in [pairs], no pair of the list has a higher USD
    liquidity, and every pair before it has a lower one. *)
Definition most_liquid_of (pairs : list DexScreenerPair)
    (chosen : DexScreenerPair) : Prop :=
  exists before after,
    pairs = before ++ chosen :: after /\
    Forall (fun p => (usd_liquidity p < usd_liquidity chosen)%Q) before /\
    Forall (fun p => (usd_liquidity p <= usd_liquidity chosen)%Q) after.

(** The price of a pair as it is shown: the USD price, the native price
    when there is no USD price. *)
Definition price_text (host : Fmt.t) (p : DexScreenerPair) : string :=
  Fmt.formatPrice host
    (match Pair.priceUsd p with
     | Some (String c rest) => String c rest
     | _ => Pair.priceNative p
     end).

(** A USD figure as it is shown: [N/A] when it is missing or 0. *)
Definition figure_text (host : Fmt.t) (figure : option Q) : string :=
  match figure with
  | Some dollars =>
      if Qeq_bool dollars 0 then "N/A" else Fmt.formatUsdValue host dollars
  | None => "N/A"
  end.

(** The two lines of a pair in the trading-pairs section. *)
Definition pair_lines (host : Fmt.t) (p : DexScreenerPair) : list string :=
  [ "• **" +++ symbol (Pair.baseToken p) +++ "/" +++ symbol (Pair.quoteToken p)
    +++ "** on " +++ Pair.dexId p +++ " (" +++ Pair.chainId p +++ ")";
    "  Price: " +++ price_text host p +++ " | Liq: "
    +++ figure_text host (match Pair.liquidity p with
                          | Some pool => usd pool
                          | None => None
                          end) ].

(** The answer, line by line: the figures of [mainPair], then the pairs
    of [listed]. *)
Definition token_info_lines (host : Fmt.t) (mainPair : DexScreenerPair)
    (change volume : Q) (listed : list DexScreenerPair) : list string :=
  [ "**📊 Token Information**";
    "";
    "**Token:** " +++ name (Pair.baseToken mainPair)
    +++ " (" +++ symbol (Pair.baseToken mainPair) +++ ")";
    "**Address:** `" +++ address (Pair.baseToken mainPair) +++ "`";
    "**Price:** " +++ price_text host mainPair;
    "**24h Change:** " +++ Fmt.formatPriceChange host change;
    "**24h Volume:** " +++ Fmt.formatUsdValue host volume;
    "**Market Cap:** " +++ figure_text host (Pair.marketCap mainPair);
    "**FDV:** " +++ figure_text host (Pair.fdv mainPair);
    "";
    "**Top Trading Pairs:**" ]
  ++ flat_map (pair_lines host) listed.

(** "Picks the pair with the highest USD liquidity as the canonical
    display pair, and lists up to 3 pairs total": the answer shows the
    figures of the most liquid pair and lists the first three pairs of
    the list; its data are the whole list.  A main pair without the 24h
    change or volume cannot be rendered, and the handler throws. *)
Definition token_info_as_stated (host : Fmt.t) (pairs : list DexScreenerPair)
    (o : Outcome (ActionResult (list DexScreenerPair))) : Prop :=
  exists mainPair,
    most_liquid_of pairs mainPair /\
    match Pair.priceChange mainPair, Pair.volume mainPair with
    | Some change, Some volume =>
        o = Returned
              {| text := String.concat newline
                           (token_info_lines host mainPair (h24 change) (h24 volume)
                              (firstn 3 pairs));
                 action := "dexscreener_token_info";
                 result_data := Some pairs |}
    | _, _ => exists e, o = Thrown e
    end.

(* ===================================================================== *)
(** * The tiers of formatPrice, in the words of the specification *)
(* ===================================================================== *)

(** "For all prices p >= 1, formatPrice(p) has exactly 2 fractional
    digits; for 0.01 <= p < 1, exactly 4; for p < 0.01, exactly 8." *)
Definition price_tiers_as_stated (p : number) : Prop :=
  (js_le js_one p = true ->
   fraction_digits (formatPrice (inr p)) = Some 2%nat) /\
  (js_le js_hundredth p = true -> js_lt p js_one = true ->
   fraction_digits (formatPrice (inr p)) = Some 4%nat) /\
  (js_lt p js_hundredth = true ->
   fraction_digits (formatPrice (inr p)) = Some 8%nat).

(* ===================================================================== *)
(** * Pacing, in the words of the specification *)
(* ===================================================================== *)

(** Every request of the log leaves at least [delay] milliseconds after
    the request before it. *)
Fixpoint spaced (delay : Z) (log : list (Z * Request)) : Prop :=
  match log with
  | [] => True
  | (t1, _) :: rest =>
      match rest with
      | [] => True
      | (t2, _) :: _ => delay <= t2 - t1 /\ spaced delay rest
      end
  end.

(* ===================================================================== *)
(** * The envelope and the request log of an operation *)
(* ===================================================================== *)

(** A result envelope is either a success that carries its data and no
    error, or a failure that carries a non-empty error text and no data. *)
Definition well_formed {T} (res : DexScreenerServiceResponse T) : Prop :=
  match success res with
  | true => (exists d, data res = Some d) /\ error res = None
  | false => data res = None /\ exists c rest, error res = Some (String c rest)
  end.

(** The two operations that look up one token after the other. *)
Definition is_aggregate (op : Operation) : bool :=
  match op with
  | Op_getTrending _ | Op_getNewPairs _ => true
  | _ => false
  end.

(** What one run of an operation leaves behind: a well-formed envelope,
    the operation's own request at the head of what it appended to the
    log, and the time of that request in [lastRequestTime]. *)
Definition run_shape (op : Operation) (env : Env) (w : World)
    (res : DexScreenerServiceResponse (result_type op)) (w' : World) : Prop :=
  well_formed res /\
  match own_request op with
  | Some r =>
      exists extra,
        requests w' = requests w ++ (now (paced env w), r) :: extra /\
        lastRequestTime w' = now (paced env w) /\
        (is_aggregate op = false -> extra = [])
  | None => w' = w
  end.


(* ===================================================================== *)
(** * What a handler takes from the message *)
(* ===================================================================== *)

(** The white space of ASCII: tab, line feed, vertical tab, form feed,
    carriage return and space. *)
Definition blank (c : ascii) : bool :=
  existsb (Ascii.eqb c) ["009"; "010"; "011"; "012"; "013"; " "]%char.

Definition blanks (s : string) : bool := all_chars blank s.

(** Every character of [s] is an ASCII character.  On such a text the
    byte strings of this development and the strings of the engine
    agree: white space, letter case and line breaks are those of ASCII. *)
Definition ascii_only (s : string) : bool :=
  all_chars (fun c => Nat.ltb (nat_of_ascii c) 128) s.

(** No line feed and no carriage return. *)
Definition no_line_break (s : string) : bool :=
  all_chars (fun c => negb (orb (Ascii.eqb c "010") (Ascii.eqb c "013"))) s.

Definition no_space (s : string) : bool :=
  all_chars (fun c => negb (blank c)) s.

(** [query] is [text] without the white space at its two ends. *)
Definition trimmed_of (text query : string) : Prop :=
  exists lead trail,
    text = lead +++ query +++ trail /\
    blanks lead = true /\ blanks trail = true /\
    match query with
    | String first _ => blank first = false
    | EmptyString => True
    end /\
    match last_char query with
    | Some last => blank last = false
    | None => True
    end.

(** White space, "on", white space, "dexscreener", in any case of the
    letters. *)
Definition names_the_site (after : string) : Prop :=
  exists gap1 on_word gap2 site_word,
    after = gap1 +++ on_word +++ gap2 +++ site_word /\
    gap1 <> "" /\ blanks gap1 = true /\
    Js.toLowerCase on_word = "on" /\
    gap2 <> "" /\ blanks gap2 = true /\
    Js.toLowerCase site_word = "dexscreener".

(** [piece] stands in [content] and runs to its end, or to a final
    "on dexscreener" with white space before and inside it. *)
Definition reaches_the_end (content piece : string) : Prop :=
  exists before after,
    content = before +++ piece +++ after /\
    (after = "" \/ names_the_site after).

(** [0x] and forty hexadecimal digits. *)
Definition address_shaped (a : string) : bool :=
  andb (String.prefix "0x" a)
       (andb (Nat.eqb (String.length a) 42) (hex_run 40 (drop_chars 2 a))).

(** [piece] stands somewhere in [content]. *)
Definition occurs_in (content piece : string) : Prop :=
  exists before after, content = before +++ piece +++ after.

(** The sort criterion that a message asks for: liquidity when "liquid"
    stands in it as written; else the price change for "gain" or
    "change"; else the transaction count for "active" or "trades"; else
    the volume. *)
Definition criterion_as_stated (content : string) (key : SortKey) : Prop :=
  match key with
  | ByLiquidity => occurs_in content "liquid"
  | ByPriceChange =>
      ~ occurs_in content "liquid" /\
      (occurs_in content "gain" \/ occurs_in content "change")
  | ByTxns =>
      ~ occurs_in content "liquid" /\
      ~ occurs_in content "gain" /\ ~ occurs_in content "change" /\
      (occurs_in content "active" \/ occurs_in content "trades")
  | ByVolume =>
      ~ occurs_in content "liquid" /\
      ~ occurs_in content "gain" /\ ~ occurs_in content "change" /\
      ~ occurs_in content "active" /\ ~ occurs_in content "trades"
  end.

(** The outcome of a handler that lists the first [n] items of a
    listing endpoint.  When the endpoint answers with a listing and the
    handler returns, the data are those items, none when there is no
    item.  When the request was rejected the handler returns, without
    data, a text made of its [failure] prefix and the error text of the
    service. *)
Definition lists_first {A} (n : nat) (failure fallback : string)
    (answer : OneOrMany A + JsError) (o : Outcome (ActionResult (list A))) : Prop :=
  match answer with
  | inl d =>
      forall r, o = Returned r ->
                result_data r = match firstn n (as_array d) with
                                | [] => None
                                | shown => Some shown
                                end
  | inr e =>
      exists r,
        o = Returned r /\
        result_data r = None /\
        text r = failure +++ preferred_message e fallback
  end.

(** A pair that carries the three windows which the interface declares
    and which the handlers read without a guard. *)
Definition carries_windows (p : DexScreenerPair) : Prop :=
  Pair.priceChange p <> None /\ Pair.volume p <> None /\ Pair.txns p <> None.

(** The pair lists of the search and of the token endpoint are typed as
    the interface declares. *)
Definition typed_pairs (env : Env) : Prop :=
  (forall n q ds,
     outcome (upstream env n (GET_search q)) = inl (Fields (Some ds)) ->
     Forall carries_windows ds) /\
  (forall n a ds,
     outcome (upstream env n (GET_tokens a)) = inl (Fields (Some ds)) ->
     Forall carries_windows ds).
(* ===================================================================== *)
(** * Reasoning about runs *)
(* ===================================================================== *)

Lemma rateLimit_run env w : rateLimit env w = (Returned tt, paced env w).
Proof.
  unfold rateLimit, paced.
  destruct (rateLimitDelay (dexConfig env)) as [delay|]; [|reflexivity].
  destruct (now w - lastRequestTime w <? delay); reflexivity.
Qed.

Lemma rateLimit_then {A} (k : M A) env w :
  (rateLimit ;; k) env w = k env (paced env w).
Proof. unfold bind. rewrite rateLimit_run. reflexivity. Qed.

Lemma api_get_run env w r :
  api_get r env w =
  (match outcome (upstream env (List.length (requests w)) r) with
   | inl d => Returned d
   | inr e => Thrown e
   end, answered env w r).
Proof.
  unfold api_get, send, answered.
  destruct (outcome (upstream env (List.length (requests w)) r)); reflexivity.
Qed.

Lemma requests_answered env w r :
  requests (answered env w r) = requests w ++ [(now w, r)].
Proof. reflexivity. Qed.

Lemma requests_paced env w : requests (paced env w) = requests w.
Proof. reflexivity. Qed.

(** A method whose body is [rateLimit], one awaited request and a pure
    continuation: its run, whatever the answer. *)
Lemma single_request_run {T} (r : Request)
      (k : payload r -> DexScreenerServiceResponse T) (fallback : string)
      env w :
  try_catch (rateLimit ;; response <- api_get r ;; ret (k response))
            (on_error fallback) env w =
  (Returned
     (match outcome (upstream env (List.length (requests w)) r) with
      | inl d => k d
      | inr e => fail (error_text e fallback)
      end),
   answered env (paced env w) r).
Proof.
  unfold try_catch. rewrite rateLimit_then. unfold bind.
  rewrite api_get_run. rewrite requests_paced.
  destruct (outcome (upstream env (List.length (requests w)) r)); reflexivity.
Qed.

(** A method whose body is [rateLimit], one awaited request, the read of
    a field of the body and a pure continuation. *)
Lemma field_request_run {A T} (r : Request) (view : payload r -> Body A)
      (prop : string) (k : option A -> DexScreenerServiceResponse T)
      (fallback : string) env w :
  try_catch (rateLimit ;;
             response <- api_get r ;;
             field <- get_field (view response) prop ;;
             ret (k field))
            (on_error fallback) env w =
  (Returned
     (match outcome (upstream env (List.length (requests w)) r) with
      | inl d => field_result (view d) prop fallback k
      | inr e => fail (error_text e fallback)
      end),
   answered env (paced env w) r).
Proof.
  unfold try_catch. rewrite rateLimit_then. unfold bind.
  rewrite api_get_run. rewrite requests_paced.
  destruct (outcome (upstream env (List.length (requests w)) r)) as [d|e];
    [|reflexivity].
  unfold field_result. destruct (view d); reflexivity.
Qed.

Lemma search_run params env w :
  search params env w =
  (Returned
     (match outcome (upstream env (List.length (requests w))
                       (GET_search (query params))) with
      | inl d => field_result d "pairs" "Failed to search tokens"
                   (fun field => succeed (or_empty field))
      | inr e => fail (error_text e "Failed to search tokens")
      end),
   answered env (paced env w) (GET_search (query params))).
Proof.
  exact (field_request_run (GET_search (query params)) (fun d => d) "pairs"
           (fun field => succeed (or_empty field)) "Failed to search tokens" env w).
Qed.

Lemma getTokenPairs_run params env w :
  getTokenPairs params env w =
  (Returned
     (match outcome (upstream env (List.length (requests w))
                       (GET_tokens (tokenAddress params))) with
      | inl d => field_result d "pairs" "Failed to get token pairs"
                   (fun field => succeed (or_empty field))
      | inr e => fail (error_text e "Failed to get token pairs")
      end),
   answered env (paced env w) (GET_tokens (tokenAddress params))).
Proof.
  exact (field_request_run (GET_tokens (tokenAddress params)) (fun d => d) "pairs"
           (fun field => succeed (or_empty field)) "Failed to get token pairs" env w).
Qed.

(** The complete run of [getPairsByChain]. *)
Lemma getPairsByChain_run params env w :
  getPairsByChain params env w =
  (Returned
     (match outcome (upstream env (List.length (requests w))
                       (GET_search (chain params))) with
      | inl d =>
          field_result d "pairs" "Failed to get pairs by chain"
            (fun field =>
               let matching :=
                 filter (fun p => same_chain (chain params) (Pair.chainId p))
                        (or_empty field) in
               let candidates := match sortBy params with
                                 | Some key => sort (compare_pairs key) matching
                                 | None => matching
                                 end in
               succeed (match chain_limit params with
                        | Some l => if l =? 0 then Js.slice0 20 candidates
                                    else Js.slice0 l candidates
                        | None => Js.slice0 20 candidates
                        end))
      | inr e => fail (error_text e "Failed to get pairs by chain")
      end),
   answered env (paced env w) (GET_search (chain params))).
Proof.
  exact (field_request_run (GET_search (chain params)) (fun d => d) "pairs"
           _ "Failed to get pairs by chain" env w).
Qed.

Lemma getPair_run params env w :
  getPair params env w =
  (Returned
     (match outcome (upstream env (List.length (requests w))
                       (GET_pairs (pairAddress params))) with
      | inl d =>
          field_result d "pair" "Failed to get pair"
            (fun field => match field with
                          | Some found => succeed found
                          | None => fail "Pair not found"
                          end)
      | inr e => fail (error_text e "Failed to get pair")
      end),
   answered env (paced env w) (GET_pairs (pairAddress params))).
Proof.
  unfold getPair, try_catch. rewrite rateLimit_then. unfold bind.
  rewrite api_get_run, requests_paced.
  destruct (outcome (upstream env (List.length (requests w))
                       (GET_pairs (pairAddress params)))) as [[[found|]|]|e];
    reflexivity.
Qed.

Lemma send_run env w r :
  send r env w =
  (match outcome (upstream env (List.length (requests w)) r) with
   | inl d => Returned d
   | inr e => Thrown e
   end, sent env w r).
Proof.
  unfold send, sent.
  destruct (outcome (upstream env (List.length (requests w)) r)); reflexivity.
Qed.

Lemma answered_sent env w r : answered env w r = settle_world (sent env w r).
Proof. reflexivity. Qed.

Lemma now_fanned env rs : forall w, now (fanned env w rs) = now w.
Proof. induction rs as [|r rs IH]; intros w; simpl; [|rewrite IH]; reflexivity. Qed.

Lemma lastRequestTime_fanned env rs :
  forall w, lastRequestTime (fanned env w rs) = lastRequestTime w.
Proof. induction rs as [|r rs IH]; intros w; simpl; [|rewrite IH]; reflexivity. Qed.

Lemma requests_fanned env rs :
  forall w, requests (fanned env w rs) =
            requests w ++ map (fun r => (now w, r)) rs.
Proof.
  induction rs as [|r rs IH]; intros w; simpl.
  - rewrite app_nil_r. reflexivity.
  - rewrite IH. simpl. rewrite <- app_assoc. reflexivity.
Qed.

(** An async callback of the fan-out: one lookup in its own
    [try]/[catch]. *)
Lemma lookup_task_run (c a : string)
      (f : option (list DexScreenerPair) -> Slot DexScreenerPair) env w :
  try_catch (pairResponse <- send (GET_tokens_v1 c a) ;; ret (f pairResponse))
            (fun _ => ret Null) env w =
  (Returned (match lookup_answer env (List.length (requests w)) c a with
             | inl d => f d
             | inr _ => Null
             end),
   sent env w (GET_tokens_v1 c a)).
Proof.
  unfold try_catch, bind, lookup_answer. rewrite send_run.
  destruct (outcome (upstream env (List.length (requests w)) (GET_tokens_v1 c a)));
    reflexivity.
Qed.

Lemma trending_task_run token env w :
  trending_task token env w =
  (Returned (trending_slot env (List.length (requests w)) token),
   sent env w (lookup_of_token token)).
Proof.
  unfold trending_task. rewrite lookup_task_run. unfold trending_slot.
  destruct (lookup_answer _ _ _ _) as [[arr|]|e]; reflexivity.
Qed.

Lemma newpairs_task_run profile env w :
  newpairs_task profile env w =
  (Returned (newpairs_slot env (List.length (requests w)) profile),
   sent env w (lookup_of_profile profile)).
Proof.
  unfold newpairs_task. rewrite lookup_task_run. unfold newpairs_slot.
  destruct (lookup_answer _ _ _ _) as [[[|p0 arr]|]|e]; reflexivity.
Qed.

Lemma length_requests_sent env w r :
  List.length (requests (sent env w r)) = S (List.length (requests w)).
Proof. simpl. rewrite length_app. simpl. lia. Qed.

Lemma trending_fanout_run env tokens :
  forall w,
    sequence (map trending_task tokens) env w =
    (Returned (trending_slots env (List.length (requests w)) tokens),
     fanned env w (map lookup_of_token tokens)).
Proof.
  induction tokens as [|t ts IH]; intros w; simpl; [reflexivity|].
  unfold bind at 1. rewrite trending_task_run.
  unfold bind at 1. rewrite IH. rewrite length_requests_sent. reflexivity.
Qed.

Lemma newpairs_fanout_run env profiles :
  forall w,
    sequence (map newpairs_task profiles) env w =
    (Returned (newpairs_slots env (List.length (requests w)) profiles),
     fanned env w (map lookup_of_profile profiles)).
Proof.
  induction profiles as [|p ps IH]; intros w; simpl; [reflexivity|].
  unfold bind at 1. rewrite newpairs_task_run.
  unfold bind at 1. rewrite IH. rewrite length_requests_sent. reflexivity.
Qed.

Lemma length_requests_answered env w r :
  List.length (requests (answered env w r)) = S (List.length (requests w)).
Proof. simpl. rewrite length_app. simpl. lia. Qed.

(** The complete run of [getTrending]. *)
Lemma getTrending_run params env w :
  getTrending params env w =
  match outcome (upstream env (List.length (requests w)) GET_token_boosts_top) with
  | inl d =>
      let chosen := trending_chosen params (as_array d) in
      (Returned
         (succeed (filter Js.not_null
                     (trending_slots env (S (List.length (requests w))) chosen))),
       settle_world
         (fanned env (answered env (paced env w) GET_token_boosts_top)
                 (map lookup_of_token chosen)))
  | inr e =>
      (Returned (fail (error_text e "Failed to get trending pairs")),
       answered env (paced env w) GET_token_boosts_top)
  end.
Proof.
  unfold getTrending, try_catch. rewrite rateLimit_then.
  unfold bind at 1. rewrite api_get_run, requests_paced.
  destruct (outcome (upstream env (List.length (requests w)) GET_token_boosts_top))
    as [d|e]; [|reflexivity].
  unfold bind, Promise_all. fold (trending_chosen params (as_array d)).
  rewrite trending_fanout_run, length_requests_answered, requests_paced.
  reflexivity.
Qed.

(** The complete run of [getNewPairs]. *)
Lemma getNewPairs_run params env w :
  getNewPairs params env w =
  match outcome (upstream env (List.length (requests w)) GET_token_profiles_latest) with
  | inl d =>
      let chosen := newpairs_chosen params (as_array d) in
      (Returned
         (succeed (filter Js.not_null
                     (newpairs_slots env (S (List.length (requests w))) chosen))),
       settle_world
         (fanned env (answered env (paced env w) GET_token_profiles_latest)
                 (map lookup_of_profile chosen)))
  | inr e =>
      (Returned (fail (error_text e "Failed to get new pairs")),
       answered env (paced env w) GET_token_profiles_latest)
  end.
Proof.
  unfold getNewPairs, try_catch. rewrite rateLimit_then.
  unfold bind at 1. rewrite api_get_run, requests_paced.
  destruct (outcome (upstream env (List.length (requests w)) GET_token_profiles_latest))
    as [d|e]; [|reflexivity].
  unfold bind, Promise_all. fold (newpairs_chosen params (as_array d)).
  rewrite newpairs_fanout_run, length_requests_answered, requests_paced.
  reflexivity.
Qed.

(** What a fan-out leaves in the log. *)
Lemma fan_out_shape env w r rs :
  let w' := settle_world (fanned env (answered env (paced env w) r) rs) in
  requests w' =
    requests w ++ (now (paced env w), r)
      :: map (fun q => (now (answered env (paced env w) r), q)) rs /\
  lastRequestTime w' = now (paced env w).
Proof.
  cbv zeta. split.
  - change (requests (settle_world ?x)) with (requests x).
    rewrite requests_fanned, requests_answered, requests_paced.
    rewrite <- app_assoc. reflexivity.
  - change (lastRequestTime (settle_world ?x)) with (lastRequestTime x).
    rewrite lastRequestTime_fanned. reflexivity.
Qed.

Lemma new_requests_fan_out env w r rs :
  new_requests w (settle_world (fanned env (answered env (paced env w) r) rs))
  = (now (paced env w), r)
      :: map (fun q => (now (answered env (paced env w) r), q)) rs.
Proof.
  unfold new_requests. destruct (fan_out_shape env w r rs) as [-> _].
  rewrite skipn_app, skipn_all, Nat.sub_diag. reflexivity.
Qed.

Lemma slice0_positive {A} (k : Z) (xs : list A) :
  0 < k -> Js.slice0 k xs = firstn (Z.to_nat k) xs.
Proof.
  intros Hk. unfold Js.slice0.
  destruct (Z.ltb_spec k 0); [lia|].
  destruct (Z.le_gt_cases k (Z.of_nat (List.length xs))).
  - rewrite Z.min_l by lia. reflexivity.
  - rewrite Z.min_r by lia. rewrite Nat2Z.id.
    rewrite firstn_all. symmetry. apply firstn_all2. lia.
Qed.

Lemma int_or_positive limit d :
  not_negative limit -> 0 < d -> 0 < Js.int_or limit d.
Proof.
  intros Hlimit Hd. unfold Js.int_or. destruct limit as [l|]; [|exact Hd].
  specialize (Hlimit l eq_refl). destruct (Z.eqb_spec l 0); lia.
Qed.

Lemma append_assoc a b c : (a +++ b) +++ c = a +++ b +++ c.
Proof. induction a as [|x a IH]; simpl; [|rewrite IH]; reflexivity. Qed.

(* ===================================================================== *)
(** * getTrending *)
(* ===================================================================== *)

Lemma not_null_filter {A} (slots : list (Slot A)) :
  ~ In Null (filter Js.not_null slots).
Proof. intros H. apply filter_In in H. destruct H as [_ H]. discriminate. Qed.

Lemma defined_entries_filter {A} (slots : list (Slot A)) :
  defined_entries (filter Js.not_null slots) = defined_entries slots.
Proof.
  induction slots as [|[a| |] rest IH]; simpl; try rewrite IH; reflexivity.
Qed.

Lemma defined_trending_slots env tokens :
  forall n, defined_entries (trending_slots env n tokens) = first_pairs env n tokens.
Proof.
  induction tokens as [|t ts IH]; intros n; simpl; [reflexivity|].
  unfold trending_slot.
  destruct (lookup_answer env n (Boosted.chainId t) (Boosted.tokenAddress t))
    as [[[|p arr]|]|e]; simpl; rewrite IH; reflexivity.
Qed.

Lemma first_request_after env w r rs :
  nth_error
    (map (fun entry => url_of (snd entry))
         (requests (settle_world (fanned env (answered env (paced env w) r) rs))))
    (List.length (requests w)) = Some (url_of r).
Proof.
  simpl. rewrite requests_fanned, requests_answered, requests_paced.
  rewrite <- app_assoc, map_app. rewrite nth_error_app2; rewrite length_map; [|lia].
  rewrite Nat.sub_diag. reflexivity.
Qed.

Lemma kept_entries_filter env tokens :
  forall n, filter Js.not_null (trending_slots env n tokens) = kept_entries env n tokens.
Proof.
  induction tokens as [|t ts IH]; intros n; simpl; [reflexivity|].
  unfold trending_slot.
  destruct (lookup_answer env n (Boosted.chainId t) (Boosted.tokenAddress t))
    as [[[|p arr]|]|e]; simpl; rewrite IH; reflexivity.
Qed.

Lemma trending_chosen_prefix params (tokens : list DexScreenerBoostedToken) :
  not_negative (trending_limit params) ->
  trending_chosen params tokens =
  firstn (Z.to_nat (requested_limit_or_default params)) tokens.
Proof.
  intros Hlimit. unfold trending_chosen, requested_limit_or_default, Js.int_or.
  destruct (trending_limit params) as [l|]; [|apply slice0_positive; lia].
  specialize (Hlimit l eq_refl).
  destruct l as [|l|l]; [apply slice0_positive; lia| |lia].
  change (Z.pos l =? 0) with false. apply slice0_positive; lia.
Qed.

(** C2 (amended).  For every promoted-token list that the top-boosts
    endpoint returns and every limit that is not negative, [getTrending]
    succeeds; its first request goes to the promoted-tokens endpoint and
    is followed by one lookup for each of the first [limit] promoted
    tokens, in their order, where a limit of 0 means 10 just as a missing
    one does; and its result is, entry by entry in that order, the first
    pair of each lookup, an [undefined] entry for a lookup that answered
    with an empty array, and nothing for a lookup that was rejected or
    did not answer with an array. *)
Theorem getTrending_first_limit :
  forall env w params d,
    outcome (upstream env (List.length (requests w)) GET_token_boosts_top) = inl d ->
    not_negative (trending_limit params) ->
    trending_as_amended env w params (as_array d).
Proof.
  intros env w params d Hd Hlimit. unfold trending_as_amended. cbv zeta.
  rewrite getTrending_run, Hd. cbv zeta.
  rewrite (trending_chosen_prefix params (as_array d) Hlimit).
  eexists; eexists; split; [reflexivity|].
  split; [apply first_request_after|]. split.
  - rewrite new_requests_fan_out. cbn [map snd]. rewrite !map_map. reflexivity.
  - split; [apply kept_entries_filter|].
    rewrite defined_entries_filter. apply defined_trending_slots.
Qed.

(** The amended C2 at work on two promoted tokens whose lookups answer
    with pairs: a limit of 1 visits the first token only, a limit of 0
    visits both, as the default of 10 does. *)
Lemma getTrending_first_limit_witness :
  (exists found w',
     getTrending {| timeframe := None; trending_limit := Some 1 |}
       Fixtures.trending_env Fixtures.fresh = (Returned (succeed found), w') /\
     map snd (new_requests Fixtures.fresh w')
       = [GET_token_boosts_top; GET_tokens_v1 "ethereum" "0x123"] /\
     found = [Value Fixtures.pepe]) /\
  (exists found w',
     getTrending {| timeframe := None; trending_limit := Some 0 |}
       Fixtures.trending_env Fixtures.fresh = (Returned (succeed found), w') /\
     map snd (new_requests Fixtures.fresh w')
       = [GET_token_boosts_top; GET_tokens_v1 "ethereum" "0x123";
          GET_tokens_v1 "ethereum" "0x456"] /\
     found = [Value Fixtures.pepe; Value Fixtures.shib]).
Proof.
  split.
  - destruct (getTrending_first_limit Fixtures.trending_env Fixtures.fresh
                {| timeframe := None; trending_limit := Some 1 |}
                (Many Fixtures.two_promoted) eq_refl)
      as (found & w' & Hrun & _ & Hsent & Hfound & _).
    + intros l Hl. injection Hl as <-. lia.
    + exists found, w'. split; [exact Hrun|]. split; [exact Hsent|exact Hfound].
  - destruct (getTrending_first_limit Fixtures.trending_env Fixtures.fresh
                {| timeframe := None; trending_limit := Some 0 |}
                (Many Fixtures.two_promoted) eq_refl)
      as (found & w' & Hrun & _ & Hsent & Hfound & _).
    + intros l Hl. injection Hl as <-. lia.
    + exists found, w'. split; [exact Hrun|]. split; [exact Hsent|exact Hfound].
Defined.

(** C2 as stated fails at the limit 0: the code reads [limit || 10], so
    it looks up both promoted tokens and returns their pairs where the
    claim, taking the first 0 tokens, has an empty result. *)
Lemma getTrending_limit_zero_counterexample :
  outcome (upstream Fixtures.trending_env
             (List.length (requests Fixtures.fresh)) GET_token_boosts_top)
    = inl (Many Fixtures.two_promoted)
  /\ fst (getTrending {| timeframe := None; trending_limit := Some 0 |}
            Fixtures.trending_env Fixtures.fresh)
     = Returned (succeed [Value Fixtures.pepe; Value Fixtures.shib])
  /\ ~ trending_as_stated Fixtures.trending_env Fixtures.fresh
         {| timeframe := None; trending_limit := Some 0 |}
         Fixtures.two_promoted.
Proof.
  split; [reflexivity|]. split; [rewrite getTrending_run; reflexivity|].
  intros (found & w' & Hrun & _ & Hfound).
  rewrite getTrending_run in Hrun. simpl in Hrun, Hfound.
  injection Hrun as Hres _. subst found. discriminate.
Qed.

(** C9.  When the lookup of one of the promoted tokens that [getTrending]
    visits answers with an empty array, the call still succeeds and its
    result holds an [undefined] entry: the filter removes the [null]
    placeholders only, so the token is not dropped. *)
Theorem getTrending_keeps_undefined :
  forall env w params d i token,
    outcome (upstream env (List.length (requests w)) GET_token_boosts_top) = inl d ->
    nth_error (trending_chosen params (as_array d)) i = Some token ->
    lookup_answer env (S (List.length (requests w)) + i)
      (Boosted.chainId token) (Boosted.tokenAddress token) = inl (Some []) ->
    exists found w',
      getTrending params env w = (Returned (succeed found), w') /\
      In Undefined found /\
      ~ In Null found.
Proof.
  intros env w params d i token Hd Hnth Hempty.
  rewrite getTrending_run, Hd. cbv zeta.
  eexists; eexists; split; [reflexivity|]. split; [|apply not_null_filter].
  apply filter_In. split; [|reflexivity].
  generalize dependent i. generalize (S (List.length (requests w))).
  induction (trending_chosen params (as_array d)) as [|t ts IH];
    intros n i Hnth Hempty.
  - destruct i; discriminate.
  - destruct i as [|i]; simpl in *.
    + injection Hnth as ->. left. unfold trending_slot.
      rewrite Nat.add_0_r in Hempty. rewrite Hempty. reflexivity.
    + right. apply (IH (S n) i Hnth).
      replace (S n + i)%nat with (n + S i)%nat by lia. exact Hempty.
Qed.

Lemma getTrending_keeps_undefined_witness :
  exists found w',
    getTrending {| timeframe := None; trending_limit := None |}
      Fixtures.sparse_env Fixtures.fresh = (Returned (succeed found), w') /\
    In Undefined found /\
    ~ In Null found.
Proof.
  apply (getTrending_keeps_undefined Fixtures.sparse_env Fixtures.fresh
           {| timeframe := None; trending_limit := None |}
           (Many Fixtures.two_promoted) 1
           (Fixtures.promoted "ethereum" "0x456")).
  - reflexivity.
  - reflexivity.
  - reflexivity.
Defined.

(** C10.  Two [getTrending] calls that differ only in [timeframe] run
    identically: same result, same requests, same final world.  In the
    trending action the matched timeframe reaches the heading of the text
    and nothing else: action name, data and the text after the heading
    are the same, and so are the requests sent. *)
Theorem timeframe_is_ignored :
  forall host tf1 tf2 limit tm1 tm2 limitMatch env w,
    getTrending {| timeframe := tf1; trending_limit := limit |} env w
    = getTrending {| timeframe := tf2; trending_limit := limit |} env w
    /\
    snd (trending_answer host tm1 limitMatch env w)
    = snd (trending_answer host tm2 limitMatch env w)
    /\
    match fst (trending_answer host tm1 limitMatch env w),
          fst (trending_answer host tm2 limitMatch env w) with
    | Returned r1, Returned r2 =>
        action r1 = action r2 /\
        result_data r1 = result_data r2 /\
        (text r1 = text r2 \/
         exists body, text r1 = trending_heading tm1 +++ body /\
                      text r2 = trending_heading tm2 +++ body)
    | Thrown e1, Thrown e2 => e1 = e2
    | _, _ => False
    end.
Proof.
  intros host tf1 tf2 limit tm1 tm2 limitMatch env w.
  split; [reflexivity|].
  unfold trending_answer, bind.
  set (lim := match limitMatch with
              | Some digits => Js.parseInt digits
              | None => Some 10
              end).
  change (getTrending {| timeframe := Some match tm2 with
                                           | Some tf => tf
                                           | None => TF_24h
                                           end;
                         trending_limit := lim |} env w)
    with (getTrending {| timeframe := Some match tm1 with
                                            | Some tf => tf
                                            | None => TF_24h
                                            end;
                         trending_limit := lim |} env w).
  destruct (getTrending _ env w) as [[res|e] w1]; [|split; reflexivity].
  destruct (success res); [|split; [reflexivity|]; simpl; auto].
  destruct (data res) as [pairs|]; [|split; [reflexivity|]; simpl; auto].
  unfold lift. destruct (map_entries host 0 pairs) as [lines|e];
    [|split; reflexivity].
  split; [reflexivity|]. simpl. repeat split. right. eexists. split; reflexivity.
Qed.

(* ===================================================================== *)
(** * getNewPairs *)
(* ===================================================================== *)

Lemma includes_In x xs : Js.includes x xs = true <-> In x xs.
Proof.
  unfold Js.includes. rewrite existsb_exists. split.
  - intros (y & Hy & Heq). apply String.eqb_eq in Heq. subst. exact Hy.
  - intros H. exists x. split; [exact H|apply String.eqb_refl].
Qed.

Lemma ensure_new_spec (p : DexScreenerPair) :
  new_label_ensured p (Pair.with_labels p (ensure_new (Pair.labels p))).
Proof.
  split; [repeat split|].
  exists (ensure_new (Pair.labels p)). split; [reflexivity|].
  unfold ensure_new. destruct (Pair.labels p) as [old|].
  - destruct (Js.includes "new" old) eqn:Hinc.
    + apply includes_In in Hinc. repeat split; tauto.
    + assert (~ In "new" old).
      { intros H. apply includes_In in H. congruence. }
      repeat split; try tauto. apply in_or_app. right. left. reflexivity.
  - split; [left|]; reflexivity.
Qed.

Lemma newpairs_slots_labelled env profiles :
  forall n,
    Forall (fun slot =>
              exists fetched returned,
                slot = Value returned /\
                new_label_ensured fetched returned /\
                first_of_some_lookup env fetched)
           (filter Js.not_null (newpairs_slots env n profiles)).
Proof.
  induction profiles as [|p ps IH]; intros n; simpl; [constructor|].
  unfold newpairs_slot.
  destruct (lookup_answer env n (Profile.chainId p) (Profile.tokenAddress p))
    as [[[|p0 others]|]|e] eqn:Hans; simpl; try apply IH.
  constructor; [|apply IH].
  exists p0. eexists. split; [reflexivity|]. split; [apply ensure_new_spec|].
  exists n, (Profile.chainId p), (Profile.tokenAddress p), others. exact Hans.
Qed.

(** C3.  [getNewPairs] always returns, and every entry of a successful
    result is a pair whose label list holds "new": it is the first pair
    of one of the lookups, field by field, but for its labels, which are
    the fetched list itself when "new" was already in it, the fetched
    list with "new" appended when it was not, and the list of "new" alone
    when the fetched pair had no labels. *)
Theorem getNewPairs_carry_new :
  forall params env w,
    exists res w',
      getNewPairs params env w = (Returned res, w') /\
      (success res = true ->
       exists found,
         data res = Some found /\
         Forall (fun slot =>
                   exists fetched returned,
                     slot = Value returned /\
                     new_label_ensured fetched returned /\
                     first_of_some_lookup env fetched)
                found).
Proof.
  intros params env w. rewrite getNewPairs_run.
  destruct (outcome (upstream env (List.length (requests w)) GET_token_profiles_latest))
    as [d|e]; cbv zeta.
  - eexists; eexists; split; [reflexivity|]. intros _.
    eexists; split; [reflexivity|]. apply newpairs_slots_labelled.
  - eexists; eexists; split; [reflexivity|]. discriminate.
Qed.

(** C3 at work: two profiles; the first pair of one lookup has no labels
    and comes back with the list of "new" alone, the first pair of the
    other already carries "new" and keeps its list. *)
Lemma getNewPairs_carry_new_witness :
  exists res w',
    getNewPairs {| newpairs_chain := Some "ethereum"; newpairs_limit := None |}
      Fixtures.newpairs_env Fixtures.fresh = (Returned res, w') /\
    success res = true /\
    exists found,
      data res = Some found /\
      map (fun slot => match slot with
                       | Value p => (symbol (Pair.baseToken p), Pair.labels p)
                       | _ => ("", None)
                       end) found
        = [("PEPE", Some ["new"]); ("SHIB", Some ["new"; "v3"])] /\
      Forall (fun slot =>
                exists fetched returned,
                  slot = Value returned /\
                  new_label_ensured fetched returned /\
                  first_of_some_lookup Fixtures.newpairs_env fetched)
             found.
Proof.
  destruct (getNewPairs_carry_new
              {| newpairs_chain := Some "ethereum"; newpairs_limit := None |}
              Fixtures.newpairs_env Fixtures.fresh) as (res & w' & Hrun & Hnew).
  exists res, w'. split; [exact Hrun|].
  rewrite getNewPairs_run in Hrun. vm_compute in Hrun.
  injection Hrun as Hres _. subst res.
  split; [reflexivity|].
  destruct (Hnew eq_refl) as (found & Hdata & Hall).
  exists found. split; [exact Hdata|]. split; [|exact Hall].
  injection Hdata as <-. reflexivity.
Defined.

(* ===================================================================== *)
(** * The result envelope *)
(* ===================================================================== *)

Lemma error_text_preferred e fallback :
  error_text e fallback = preferred_message e fallback.
Proof.
  unfold error_text, preferred_message, Js.str_or.
  destruct (response_message e) as [[|c rest]|]; simpl;
    destruct (message e); reflexivity.
Qed.

Lemma getTokenProfile_run a env w :
  getTokenProfile a env w =
  (Returned
     (match outcome (upstream env (List.length (requests w))
                       GET_token_profiles_latest) with
      | inl d =>
          match find (fun p => String.eqb (Js.toLowerCase (Profile.tokenAddress p))
                                          (Js.toLowerCase a))
                     (as_array d) with
          | Some profile => succeed profile
          | None => fail "Token profile not found"
          end
      | inr e => fail (error_text e "Failed to get token profile")
      end),
   answered env (paced env w) GET_token_profiles_latest).
Proof.
  unfold getTokenProfile, try_catch. rewrite rateLimit_then. unfold bind.
  rewrite api_get_run, requests_paced.
  destruct (outcome (upstream env (List.length (requests w))
                       GET_token_profiles_latest)) as [d|e]; [|reflexivity].
  simpl. destruct (find _ _); reflexivity.
Qed.

(** The operations made of [rateLimit], one awaited request and a pure
    continuation. *)
Ltac single_request k :=
  match goal with
  | |- exists res w', ?op ?env ?w = _ /\ _ =>
      eexists; eexists; split;
      [ exact (single_request_run _ k _ env w)
      | intros r e Hown Hrej; injection Hown as <-;
        cbv beta; rewrite Hrej; rewrite error_text_preferred; reflexivity ]
  end.

(** The operations whose run is known by a lemma of its own. *)
Ltac known_run lemma :=
  rewrite lemma; eexists; eexists; split; [reflexivity|];
  intros r e Hown Hrej; injection Hown as <-; rewrite Hrej;
  rewrite error_text_preferred; reflexivity.

(** C1 (amended).  Every client operation, on every input and against
    every upstream, returns a [ServiceResult] and never throws; when the
    request that the operation itself awaits is rejected, the result is
    [{success: false, error}] where [error] is the upstream-supplied text
    when there is one, otherwise the error's own message, otherwise the
    operation's fixed string. *)
Theorem operations_never_throw :
  forall op env w,
    exists res w',
      perform op env w = (Returned res, w') /\
      forall r e,
        own_request op = Some r ->
        outcome (upstream env (List.length (requests w)) r) = inr e ->
        res = fail (preferred_message e (fallback_message op)).
Proof.
  intros op env w. destruct op; simpl.
  - known_run search_run.
  - known_run getTokenPairs_run.
  - known_run getPair_run.
  - rewrite getTrending_run.
    destruct (outcome (upstream env (List.length (requests w)) GET_token_boosts_top))
      as [d|e0] eqn:Hd; cbv zeta; (eexists; eexists; split; [reflexivity|]);
      intros r e Hown Hrej; injection Hown as <-; rewrite Hd in Hrej;
      [discriminate|].
    injection Hrej as ->. rewrite error_text_preferred. reflexivity.
  - known_run getPairsByChain_run.
  - rewrite getNewPairs_run.
    destruct (outcome (upstream env (List.length (requests w)) GET_token_profiles_latest))
      as [d|e0] eqn:Hd; cbv zeta; (eexists; eexists; split; [reflexivity|]);
      intros r e Hown Hrej; injection Hown as <-; rewrite Hd in Hrej;
      [discriminate|].
    injection Hrej as ->. rewrite error_text_preferred. reflexivity.
  - known_run getTokenProfile_run.
  - unfold getMultipleTokens.
    destruct (30 <? Z.of_nat (List.length tokenAddresses)).
    + eexists; eexists; split; [reflexivity|]. discriminate.
    + single_request
        (fun response : payload (GET_tokens_v1 chainId (Js.join "," tokenAddresses)) =>
           succeed (or_empty response)).
  - single_request (fun response : payload GET_token_profiles_latest =>
                      succeed (as_array response)).
  - single_request (fun response : payload GET_token_boosts_latest =>
                      succeed (as_array response)).
  - single_request (fun response : payload GET_token_boosts_top =>
                      succeed (as_array response)).
  - single_request (fun response : payload (GET_orders chainId tokenAddress0) =>
                      succeed (or_empty response)).
  - single_request (fun response : payload (GET_token_pairs chainId tokenAddress0) =>
                      succeed (or_empty response)).
Qed.

(** The amended C1 at work: the same search against an upstream that is
    down, one that answers with its own error text, and one whose errors
    carry no text. *)
Lemma operations_never_throw_witness :
  (exists res w',
     perform (Op_search {| query := "PEPE" |}) Fixtures.down_env Fixtures.fresh
       = (Returned res, w') /\
     res = fail "Network Error") /\
  (exists res w',
     perform (Op_search {| query := "PEPE" |}) Fixtures.throttled_env Fixtures.fresh
       = (Returned res, w') /\
     res = fail "Too many requests") /\
  (exists res w',
     perform (Op_search {| query := "PEPE" |}) Fixtures.silent_env Fixtures.fresh
       = (Returned res, w') /\
     res = fail "Failed to search tokens").
Proof.
  split; [|split].
  - destruct (operations_never_throw (Op_search {| query := "PEPE" |})
                Fixtures.down_env Fixtures.fresh) as (res & w' & Hrun & Hfail).
    exists res, w'. split; [exact Hrun|].
    apply (Hfail (GET_search "PEPE") Fixtures.network_error); reflexivity.
  - destruct (operations_never_throw (Op_search {| query := "PEPE" |})
                Fixtures.throttled_env Fixtures.fresh) as (res & w' & Hrun & Hfail).
    exists res, w'. split; [exact Hrun|].
    apply (Hfail (GET_search "PEPE") Fixtures.rate_limited); reflexivity.
  - destruct (operations_never_throw (Op_search {| query := "PEPE" |})
                Fixtures.silent_env Fixtures.fresh) as (res & w' & Hrun & Hfail).
    exists res, w'. split; [exact Hrun|].
    apply (Hfail (GET_search "PEPE")
             {| response_message := Some ""; message := "" |}); reflexivity.
Defined.

(** C1 as stated fails: in [getTrending] the lookup of the second
    promoted token is rejected, the rejection is caught by the callback's
    own [catch], and the operation answers [{success: true}]. *)
Lemma swallowed_rejection_counterexample :
  ~ fails_on_any_rejection
      (Op_getTrending {| timeframe := None; trending_limit := None |})
      Fixtures.flaky_env Fixtures.fresh.
Proof.
  intros H.
  assert (Hrun : exists res w',
             perform (Op_getTrending {| timeframe := None; trending_limit := None |})
               Fixtures.flaky_env Fixtures.fresh = (Returned res, w') /\
             success res = true /\
             saw_rejection Fixtures.flaky_env Fixtures.fresh w').
  { eexists; eexists. split; [simpl; rewrite getTrending_run; reflexivity|].
    split; [reflexivity|].
    exists 2%nat, (now Fixtures.fresh + 40),
           (GET_tokens_v1 "ethereum" "0x456"), Fixtures.network_error.
    split; [simpl; lia|]. split; reflexivity. }
  destruct Hrun as (res & w' & Hrun & Hok & Hrej).
  specialize (H res w' Hrun Hrej). congruence.
Qed.
(* ===================================================================== *)
(** * getMultipleTokens: the 30-address cap *)
(* ===================================================================== *)

(** C5.  With more than 30 addresses [getMultipleTokens] answers
    [{success: false, error: "Maximum 30 token addresses allowed"}] and
    leaves the world untouched (no request is sent); with at most 30 it
    sends exactly one request, the batched lookup of the comma-joined
    addresses. *)
Theorem getMultipleTokens_cap :
  forall env w chainId (tokenAddresses : list string),
    ((30 < List.length tokenAddresses)%nat ->
     getMultipleTokens chainId tokenAddresses env w =
     (Returned (fail "Maximum 30 token addresses allowed"), w))
    /\
    ((List.length tokenAddresses <= 30)%nat ->
     exists res w' sent_at r,
       getMultipleTokens chainId tokenAddresses env w = (Returned res, w') /\
       requests w' = requests w ++ [(sent_at, r)] /\
       url_of r = "/tokens/v1/" +++ chainId +++ "/" +++ Js.join "," tokenAddresses).
Proof.
  intros env w chainId addrs. split; intros Hlen; unfold getMultipleTokens.
  - unfold try_catch.
    destruct (Z.ltb_spec 30 (Z.of_nat (List.length addrs))); [reflexivity|lia].
  - destruct (Z.ltb_spec 30 (Z.of_nat (List.length addrs))); [lia|].
    rewrite (single_request_run
               (GET_tokens_v1 chainId (Js.join "," addrs))
               (fun response => succeed (or_empty response))).
    eexists; eexists; eexists; eexists; split; [reflexivity|].
    rewrite requests_answered, requests_paced. split; reflexivity.
Qed.

(** C5 at work: 31 addresses are refused without a request, 2 addresses
    go out as one batched lookup. *)
Lemma getMultipleTokens_cap_witness :
  getMultipleTokens "ethereum" (repeat "0x123" 31)
    Fixtures.down_env Fixtures.fresh =
  (Returned (fail "Maximum 30 token addresses allowed"), Fixtures.fresh)
  /\
  exists res w' sent_at r,
    getMultipleTokens "ethereum" ["0x123"; "0x456"]
      Fixtures.down_env Fixtures.fresh = (Returned res, w') /\
    requests w' = requests Fixtures.fresh ++ [(sent_at, r)] /\
    url_of r = "/tokens/v1/ethereum/0x123,0x456".
Proof.
  split.
  - apply (proj1 (getMultipleTokens_cap Fixtures.down_env Fixtures.fresh
                    "ethereum" (repeat "0x123" 31))).
    simpl. lia.
  - apply (proj2 (getMultipleTokens_cap Fixtures.down_env Fixtures.fresh
                    "ethereum" ["0x123"; "0x456"])).
    simpl. lia.
Defined.

(* ===================================================================== *)
(** * getPairsByChain *)
(* ===================================================================== *)

Section Sorting.

Context {A : Type}.
Variable metric : A -> Q.

Lemma sort_insert_perm x xs :
  Permutation (sort_insert (by_metric metric) x xs) (x :: xs).
Proof.
  induction xs as [|y ys IH]; simpl; [reflexivity|].
  destruct (Qle_bool (by_metric metric x y) 0); [reflexivity|].
  rewrite IH. apply perm_swap.
Qed.

Lemma sort_perm xs : Permutation (sort (by_metric metric) xs) xs.
Proof.
  induction xs as [|x xs IH]; simpl; [reflexivity|].
  rewrite sort_insert_perm. constructor. exact IH.
Qed.

Lemma sort_insert_sorted x xs :
  StronglySorted (metric_ge metric) xs ->
  StronglySorted (metric_ge metric) (sort_insert (by_metric metric) x xs).
Proof.
  induction xs as [|y ys IH]; intros Hs; simpl.
  - constructor; constructor.
  - inversion Hs as [|? ? Hys Hall]; subst.
    destruct (Qle_bool (by_metric metric x y) 0) eqn:Hc.
    + apply Qle_bool_iff in Hc. unfold by_metric in Hc.
      assert (Hxy : metric_ge metric x y) by (unfold metric_ge; lra).
      constructor; [exact Hs|]. constructor; [exact Hxy|].
      eapply Forall_impl; [|exact Hall]. intros z Hz. unfold metric_ge in *. lra.
    + assert (Hyx : metric_ge metric y x).
      { unfold metric_ge.
        destruct (Qlt_le_dec (metric y) (metric x)) as [Hlt|Hle]; [|exact Hle].
        assert (Qle_bool (by_metric metric x y) 0 = true).
        { apply Qle_bool_iff. unfold by_metric. lra. }
        congruence. }
      constructor; [apply IH; exact Hys|].
      eapply Permutation_Forall; [symmetry; apply sort_insert_perm|].
      constructor; assumption.
Qed.

Lemma sort_sorted xs :
  StronglySorted (metric_ge metric) (sort (by_metric metric) xs).
Proof.
  induction xs as [|x xs IH]; simpl; [constructor|].
  apply sort_insert_sorted. exact IH.
Qed.

End Sorting.

Lemma In_firstn_In {A} (x : A) n :
  forall xs, In x (firstn n xs) -> In x xs.
Proof.
  induction n as [|n IH]; intros [|y ys] H; simpl in *; try contradiction.
  destruct H as [H|H]; [left; exact H|right; apply IH; exact H].
Qed.

Lemma StronglySorted_firstn {A} (R : A -> A -> Prop) n :
  forall xs, StronglySorted R xs -> StronglySorted R (firstn n xs).
Proof.
  induction n as [|n IH]; intros xs Hs; [constructor|].
  destruct xs as [|x xs]; [constructor|]. simpl.
  inversion Hs; subst. constructor; [apply IH; assumption|].
  apply Forall_forall. intros y Hy. apply In_firstn_In in Hy.
  eapply Forall_forall; eassumption.
Qed.

Lemma StronglySorted_weaken {A} (R R' : A -> A -> Prop) xs :
  (forall a b, R a b -> R' a b) -> StronglySorted R xs -> StronglySorted R' xs.
Proof.
  intros Himp Hs. induction Hs as [|x xs Hs IH Hall]; constructor; [exact IH|].
  eapply Forall_impl; [|exact Hall]. intros b. apply Himp.
Qed.

(** The number that the code sorts by is the metric that the
    specification names. *)
Lemma sort_metric_stated key p : (sort_metric key p == stated_metric key p)%Q.
Proof.
  assert (Hor0 : forall q, (Js.num_or0 (Some q) == q)%Q).
  { intros q. unfold Js.num_or0. destruct (Qeq_bool q 0) eqn:Hq; [|reflexivity].
    apply Qeq_bool_iff in Hq. symmetry. exact Hq. }
  destruct key; unfold sort_metric, stated_metric.
  - destruct (Pair.volume p); [apply Hor0|reflexivity].
  - destruct (Pair.liquidity p) as [[[dollars|] b q]|];
      [apply Hor0|reflexivity|reflexivity].
  - destruct (Pair.priceChange p); [apply Hor0|reflexivity].
  - destruct (Pair.txns p); [apply Hor0|reflexivity].
Qed.

Lemma sort_descending key pairs : descending key (sort (compare_pairs key) pairs).
Proof.
  unfold descending.
  apply (StronglySorted_weaken (metric_ge (sort_metric key))).
  - intros a b Hab. unfold metric_ge in Hab.
    rewrite <- !sort_metric_stated. exact Hab.
  - apply (sort_sorted (sort_metric key)).
Qed.

Lemma same_chain_on_chain wanted pairs :
  filter (fun p => same_chain wanted (Pair.chainId p)) pairs
  = filter (on_chain wanted) pairs.
Proof.
  apply filter_ext. intros p. unfold same_chain, on_chain.
  destruct (string_dec _ _) as [Heq|Hne].
  - apply String.eqb_eq. exact Heq.
  - apply String.eqb_neq. exact Hne.
Qed.

Lemma Forall_firstn {A} (P : A -> Prop) n xs :
  Forall P xs -> Forall P (firstn n xs).
Proof.
  intros H. apply Forall_forall. intros x Hx. apply In_firstn_In in Hx.
  eapply Forall_forall; eassumption.
Qed.

Lemma chain_limit_prefix params (candidates : list DexScreenerPair) :
  not_negative (chain_limit params) ->
  match chain_limit params with
  | Some l => if l =? 0 then Js.slice0 20 candidates else Js.slice0 l candidates
  | None => Js.slice0 20 candidates
  end = firstn (Z.to_nat (requested_chain_limit_or_default params)) candidates.
Proof.
  intros Hlimit. unfold requested_chain_limit_or_default.
  destruct (chain_limit params) as [l|]; [|apply slice0_positive; lia].
  specialize (Hlimit l eq_refl).
  destruct l as [|l|l]; [apply slice0_positive; lia| |lia].
  change (Z.pos l =? 0) with false. apply slice0_positive; lia.
Qed.

(** C4 (amended).  [getPairsByChain] always returns.  When the search
    endpoint answers with an object and the limit is not negative, the
    call succeeds with the pairs whose chain identifier
    case-insensitively equals the requested chain, ordered descending by
    the metric of the sort key when one is given (the 24h volume, the USD
    liquidity, the 24h price change, or the 24h buys plus sells added as
    doubles; a missing figure counts as 0) and in the order of the
    upstream otherwise, truncated to the limit, where a limit of 0 means
    20 just as a missing one does.  When the body is [null] or the
    request is rejected the call answers a failure without data. *)
Theorem getPairsByChain_filtered_sorted_limited :
  forall env w params,
    not_negative (chain_limit params) ->
    exists res w',
      getPairsByChain params env w = (Returned res, w') /\
      chain_answer_as_amended params
        (outcome (upstream env (List.length (requests w)) (GET_search (chain params))))
        res.
Proof.
  intros env w params Hlimit. rewrite getPairsByChain_run.
  eexists; eexists; split; [reflexivity|].
  destruct (outcome (upstream env (List.length (requests w))
                       (GET_search (chain params)))) as [[field|]|e];
    [|split; reflexivity|split; reflexivity].
  unfold chain_answer_as_amended, field_result. cbv zeta.
  change (or_empty field) with (match field with Some pairs => pairs | None => [] end).
  set (upstream_pairs := match field with Some pairs => pairs | None => [] end).
  rewrite same_chain_on_chain.
  set (matching := filter (on_chain (chain params)) upstream_pairs).
  set (candidates := match sortBy params with
                     | Some key => sort (compare_pairs key) matching
                     | None => matching
                     end).
  rewrite (chain_limit_prefix params candidates Hlimit).
  assert (Hperm : Permutation candidates matching).
  { unfold candidates. destruct (sortBy params) as [key|]; [|reflexivity].
    apply (sort_perm (sort_metric key)). }
  assert (Hsorted : forall key, sortBy params = Some key -> descending key candidates).
  { intros key Hkey. unfold candidates. rewrite Hkey. apply sort_descending. }
  eexists. split; [reflexivity|]. split; [|split].
  - exists candidates. split; [exact Hperm|]. split; [|split].
    + intros Hnone. unfold candidates. rewrite Hnone. reflexivity.
    + exact Hsorted.
    + reflexivity.
  - apply Forall_firstn.
    eapply Permutation_Forall; [symmetry; exact Hperm|].
    apply Forall_forall. intros p Hp. apply filter_In in Hp. apply Hp.
  - intros key Hkey. apply StronglySorted_firstn. apply Hsorted. exact Hkey.
Qed.

(** The amended C4 at work on a search that answers with four pairs,
    three of them on the chain: the two most liquid ones with a limit of
    2, all three in the order of the upstream with a limit of 0, and a
    failure when the body is [null]. *)
Lemma getPairsByChain_witness :
  (exists res w',
     getPairsByChain
       {| chain := "ethereum"; sortBy := Some ByLiquidity; chain_limit := Some 2 |}
       Fixtures.chain_env Fixtures.fresh = (Returned res, w') /\
     res = succeed [Fixtures.pepe; Fixtures.weth] /\
     chain_answer_as_amended
       {| chain := "ethereum"; sortBy := Some ByLiquidity; chain_limit := Some 2 |}
       (inl (Fields (Some [Fixtures.shib; Fixtures.bonk; Fixtures.pepe; Fixtures.weth])))
       res) /\
  (exists res w',
     getPairsByChain
       {| chain := "ethereum"; sortBy := None; chain_limit := Some 0 |}
       Fixtures.chain_env Fixtures.fresh = (Returned res, w') /\
     res = succeed [Fixtures.shib; Fixtures.pepe; Fixtures.weth] /\
     chain_answer_as_amended
       {| chain := "ethereum"; sortBy := None; chain_limit := Some 0 |}
       (inl (Fields (Some [Fixtures.shib; Fixtures.bonk; Fixtures.pepe; Fixtures.weth])))
       res) /\
  (exists res w',
     getPairsByChain
       {| chain := "ethereum"; sortBy := None; chain_limit := None |}
       Fixtures.null_body_env Fixtures.fresh = (Returned res, w') /\
     success res = false /\ data res = None).
Proof.
  split; [|split].
  - destruct (getPairsByChain_filtered_sorted_limited
                Fixtures.chain_env Fixtures.fresh
                {| chain := "ethereum"; sortBy := Some ByLiquidity;
                   chain_limit := Some 2 |})
      as (res & w' & Hrun & Hanswer).
    + intros l Hl. injection Hl as <-. lia.
    + exists res, w'. split; [exact Hrun|]. split; [|exact Hanswer].
      rewrite getPairsByChain_run in Hrun. vm_compute in Hrun.
      injection Hrun as <- _. reflexivity.
  - destruct (getPairsByChain_filtered_sorted_limited
                Fixtures.chain_env Fixtures.fresh
                {| chain := "ethereum"; sortBy := None; chain_limit := Some 0 |})
      as (res & w' & Hrun & Hanswer).
    + intros l Hl. injection Hl as <-. lia.
    + exists res, w'. split; [exact Hrun|]. split; [|exact Hanswer].
      rewrite getPairsByChain_run in Hrun. vm_compute in Hrun.
      injection Hrun as <- _. reflexivity.
  - destruct (getPairsByChain_filtered_sorted_limited
                Fixtures.null_body_env Fixtures.fresh
                {| chain := "ethereum"; sortBy := None; chain_limit := None |})
      as (res & w' & Hrun & Hanswer).
    + intros l Hl. discriminate Hl.
    + exists res, w'. split; [exact Hrun|]. exact Hanswer.
Defined.

(** C4 as stated fails at the limit 0: the code tests [params.limit] for
    truth, so a limit of 0 is treated as no limit given and the three
    pairs of the chain come back where the claim truncates to none. *)
Lemma getPairsByChain_limit_zero_counterexample :
  fst (getPairsByChain
         {| chain := "ethereum"; sortBy := None; chain_limit := Some 0 |}
         Fixtures.chain_env Fixtures.fresh)
    = Returned (succeed [Fixtures.shib; Fixtures.pepe; Fixtures.weth])
  /\ ~ chain_contract requested_chain_limit
         {| chain := "ethereum"; sortBy := None; chain_limit := Some 0 |}
         [Fixtures.shib; Fixtures.bonk; Fixtures.pepe; Fixtures.weth]
         [Fixtures.shib; Fixtures.pepe; Fixtures.weth].
Proof.
  split; [rewrite getPairsByChain_run; reflexivity|].
  intros (candidates & _ & _ & _ & Hcut). discriminate Hcut.
Qed.

(* ===================================================================== *)
(** * formatPrice *)
(* ===================================================================== *)

Lemma js_one_value : js_one = S754_finite false 4503599627370496 (-52).
Proof. reflexivity. Qed.

Lemma js_hundredth_value : js_hundredth = S754_finite false 5764607523034235 (-59).
Proof. reflexivity. Qed.

Lemma js_1e21_value : js_1e21 = S754_finite false 7629394531250000 17.
Proof. reflexivity. Qed.

(** The constants are the doubles nearest to 1, 1/100 and 10^21. *)
Lemma js_constants_rounded :
  js_one = number_of_Z 1 /\
  js_hundredth = number_of_ratio false 1 100 /\
  js_1e21 = number_of_Z (10 ^ 21).
Proof. repeat split; vm_compute; reflexivity. Qed.

(** ** Strings of digits *)

Lemma all_digits_app a b :
  all_digits a = true -> all_digits b = true -> all_digits (a +++ b) = true.
Proof.
  induction a as [|c a IH]; simpl; intros Ha Hb; [exact Hb|].
  apply andb_true_iff in Ha. destruct Ha as [Hc Ha].
  rewrite Hc. simpl. apply IH; assumption.
Qed.

Lemma all_digits_zeros n : all_digits (zeros n) = true.
Proof. induction n as [|n IH]; simpl; [reflexivity|exact IH]. Qed.

Lemma all_digits_uint d :
  all_digits (DecimalString.NilEmpty.string_of_uint d) = true.
Proof. induction d; simpl; try reflexivity; exact IHd. Qed.

Lemma all_digits_of n : all_digits (digits_of n) = true.
Proof.
  unfold digits_of, DecimalString.NilZero.string_of_uint.
  destruct (N.to_uint n) eqn:E; try reflexivity;
    rewrite <- E; apply all_digits_uint.
Qed.

Lemma all_digits_drop i : forall s,
  all_digits s = true -> all_digits (drop_chars i s) = true.
Proof.
  induction i as [|i IH]; intros [|c s] H; simpl; try assumption; try reflexivity.
  simpl in H. apply andb_true_iff in H. apply IH. tauto.
Qed.

Lemma all_digits_take i : forall s,
  all_digits s = true -> all_digits (take_chars i s) = true.
Proof.
  induction i as [|i IH]; intros [|c s] H; simpl; try reflexivity.
  simpl in H. apply andb_true_iff in H. destruct H as [Hc H].
  rewrite Hc. simpl. apply IH. exact H.
Qed.

Lemma length_drop_chars i : forall s,
  String.length (drop_chars i s) = (String.length s - i)%nat.
Proof.
  induction i as [|i IH]; intros [|c s]; simpl; try reflexivity.
  apply IH.
Qed.

Lemma length_append a b :
  String.length (a +++ b) = (String.length a + String.length b)%nat.
Proof. induction a as [|c a IH]; simpl; [reflexivity|rewrite IH; reflexivity]. Qed.

Lemma length_zeros n : String.length (zeros n) = n.
Proof. induction n as [|n IH]; simpl; [reflexivity|rewrite IH; reflexivity]. Qed.

Lemma digit_is_not_point c : Js.is_digit c = true -> Ascii.eqb c "." = false.
Proof.
  intros H. destruct (Ascii.eqb_spec c "."%char) as [->|]; [|reflexivity].
  discriminate H.
Qed.

Lemma fraction_of_digits_point a b :
  all_digits a = true -> fraction_of (a +++ "." +++ b) = Some b.
Proof.
  induction a as [|c a IH]; simpl; intros Ha; [reflexivity|].
  apply andb_true_iff in Ha. destruct Ha as [Hc Ha].
  rewrite (digit_is_not_point c Hc). apply IH. exact Ha.
Qed.

(** The fixed notation shows exactly the digits asked for. *)
Lemma fraction_digits_place_point f n :
  (0 < f)%nat -> fraction_digits (place_point f n) = Some f.
Proof.
  intros Hf. unfold place_point. destruct f as [|f']; [lia|].
  set (f := S f') in *. cbv zeta.
  set (m := if Nat.leb (String.length (digits_of n)) f
            then zeros (f + 1 - String.length (digits_of n)) +++ digits_of n
            else digits_of n).
  assert (Hm : all_digits m = true).
  { unfold m. destruct (Nat.leb _ _).
    - apply all_digits_app; [apply all_digits_zeros|apply all_digits_of].
    - apply all_digits_of. }
  assert (Hlen : (f < String.length m)%nat).
  { unfold m. destruct (Nat.leb_spec (String.length (digits_of n)) f).
    - rewrite length_append, length_zeros. lia.
    - lia. }
  unfold fraction_digits.
  rewrite fraction_of_digits_point by (apply all_digits_take; exact Hm).
  rewrite all_digits_drop by exact Hm.
  rewrite length_drop_chars. f_equal. lia.
Qed.

Lemma fraction_digits_minus s :
  fraction_digits ("-" +++ s) = fraction_digits s.
Proof. reflexivity. Qed.

(** ** Which branch of [toFixed] a price takes *)

(** A finite double below [1e21] in magnitude is printed in fixed
    notation. *)
Lemma toFixed_fixed f negative m e :
  (0 < f)%nat ->
  js_le js_1e21 (S754_finite false m e) = false ->
  fraction_digits (toFixed f (S754_finite negative m e)) = Some f.
Proof.
  intros Hf Hsmall. unfold toFixed. rewrite Hsmall.
  destruct negative.
  - rewrite fraction_digits_minus. apply fraction_digits_place_point. exact Hf.
  - apply fraction_digits_place_point. exact Hf.
Qed.

Lemma toFixed_zero f negative :
  (0 < f)%nat -> fraction_digits (toFixed f (S754_zero negative)) = Some f.
Proof. intros Hf. apply fraction_digits_place_point. exact Hf. Qed.

Lemma SFcompare_antisym a b :
  SFcompare b a = option_map CompOpp (SFcompare a b).
Proof.
  destruct a as [[]|[]| |[] m1 e1], b as [[]|[]| |[] m2 e2];
    simpl; try reflexivity;
    rewrite (Z.compare_antisym e1 e2);
    destruct (e1 ?= e2); simpl; try reflexivity;
    pose proof (Pos.compare_cont_antisym m1 m2 Eq) as Hm; simpl in Hm;
    rewrite <- Hm; try rewrite CompOpp_involutive; reflexivity.
Qed.

Lemma js_lt_not_ge a b : js_lt a b = true -> js_le b a = false.
Proof.
  unfold js_lt, js_le, SFltb, SFleb. rewrite (SFcompare_antisym a b).
  destruct (SFcompare a b) as [[]|]; simpl; congruence.
Qed.

(** Reading a comparison of doubles as a comparison of exponents (the
    mantissas are left alone). *)
Ltac by_exponents :=
  cbv beta iota delta [js_le js_lt SFleb SFltb SFcompare SFopp negb] in *;
  repeat match goal with
         | H : context [Z.compare ?a ?b] |- _ =>
             destruct (Z.compare_spec a b); cbv beta iota in H
         | |- context [Z.compare ?a ?b] =>
             destruct (Z.compare_spec a b); cbv beta iota
         end;
  try discriminate; try reflexivity; try lia.

Lemma below_one_below_1e21 m e :
  js_lt (S754_finite false m e) js_one = true ->
  js_le js_1e21 (S754_finite false m e) = false.
Proof.
  rewrite js_one_value, js_1e21_value. intros H. by_exponents.
Qed.

Lemma below_hundredth_below_1e21 m e :
  js_lt (S754_finite false m e) js_hundredth = true ->
  js_le js_1e21 (S754_finite false m e) = false.
Proof.
  rewrite js_hundredth_value, js_1e21_value. intros H. by_exponents.
Qed.

Lemma below_hundredth_below_one p :
  js_lt p js_hundredth = true -> js_le js_one p = false.
Proof.
  rewrite js_hundredth_value, js_one_value. intros H.
  destruct p as [s|[]| |[] m e]; by_exponents.
Qed.

Lemma above_minus_1e21 m e :
  js_lt (SFopp js_1e21) (S754_finite true m e) = true ->
  js_le js_1e21 (S754_finite false m e) = false.
Proof.
  rewrite js_1e21_value. intros H. by_exponents.
  destruct (Pos.compare_cont Eq 7629394531250000 m);
    cbv beta iota delta [CompOpp] in *; try discriminate; reflexivity.
Qed.

(** C6 (amended).  For every price [p] with [1 <= p < 1e21],
    [formatPrice(p)] shows exactly 2 fractional digits; for every [p] with
    [0.01 <= p < 1], exactly 4; for every [p] with [-1e21 < p < 0.01],
    exactly 8; and a string is first parsed to a number and then formatted
    by the same tiers. *)
Theorem formatPrice_tiers :
  forall p : number,
    (js_le js_one p = true -> js_lt p js_1e21 = true ->
     fraction_digits (formatPrice (inr p)) = Some 2%nat) /\
    (js_le js_hundredth p = true -> js_lt p js_one = true ->
     fraction_digits (formatPrice (inr p)) = Some 4%nat) /\
    (js_lt p js_hundredth = true -> js_lt (SFopp js_1e21) p = true ->
     fraction_digits (formatPrice (inr p)) = Some 8%nat) /\
    (forall s : string, formatPrice (inl s) = formatPrice (inr (parseFloat s))).
Proof.
  intros p. repeat split.
  - intros Hone Hbig. unfold formatPrice. rewrite Hone.
    pose proof (js_lt_not_ge _ _ Hbig) as Hfixed.
    destruct p as [s|[]| |[] m e];
      try solve [exfalso; rewrite js_one_value in Hone;
                 rewrite js_1e21_value in Hbig; by_exponents].
    apply toFixed_fixed; [lia|exact Hfixed].
  - intros Hcent Hone. unfold formatPrice.
    rewrite (js_lt_not_ge _ _ Hone), Hcent.
    destruct p as [s|[]| |[] m e];
      try solve [exfalso; rewrite js_hundredth_value in Hcent;
                 rewrite js_one_value in Hone; by_exponents].
    apply toFixed_fixed; [lia|]. apply below_one_below_1e21. exact Hone.
  - intros Hcent Hbig. unfold formatPrice.
    rewrite (below_hundredth_below_one _ Hcent), (js_lt_not_ge _ _ Hcent).
    destruct p as [s|[]| |[] m e].
    + apply toFixed_zero. lia.
    + exfalso. rewrite js_hundredth_value in Hcent. by_exponents.
    + exfalso. rewrite js_1e21_value in Hbig. by_exponents.
    + discriminate.
    + apply toFixed_fixed; [lia|]. apply above_minus_1e21. exact Hbig.
    + apply toFixed_fixed; [lia|]. apply below_hundredth_below_1e21. exact Hcent.
Qed.

(** The amended C6 at work: one price in each tier, and a string. *)
Lemma formatPrice_tiers_witness :
  fraction_digits (formatPrice (inr (number_of_Z 100))) = Some 2%nat /\
  fraction_digits (formatPrice (inr (parseFloat "0.5"))) = Some 4%nat /\
  fraction_digits (formatPrice (inr (parseFloat "0.00001"))) = Some 8%nat /\
  formatPrice (inl "1234.56") = formatPrice (inr (parseFloat "1234.56")).
Proof.
  split; [|split; [|split]].
  - apply (proj1 (formatPrice_tiers (number_of_Z 100))); vm_compute; reflexivity.
  - apply (proj1 (proj2 (formatPrice_tiers (parseFloat "0.5"))));
      vm_compute; reflexivity.
  - apply (proj1 (proj2 (proj2 (formatPrice_tiers (parseFloat "0.00001")))));
      vm_compute; reflexivity.
  - apply (proj2 (proj2 (proj2 (formatPrice_tiers js_zero)))).
Defined.

(** C6 as stated fails at [1e21] and at [-1e21]: [toFixed] answers in
    exponential notation from [1e21] on, so [formatPrice(1e21)] is the
    text [1e+21] and [formatPrice(-1e21)] is [-1e+21], neither with a
    fractional digit. *)
Lemma formatPrice_1e21_counterexample :
  formatPrice (inr js_1e21) = "1e+21" /\
  formatPrice (inr (SFopp js_1e21)) = "-1e+21" /\
  ~ price_tiers_as_stated js_1e21 /\
  ~ price_tiers_as_stated (SFopp js_1e21).
Proof.
  split; [vm_compute; reflexivity|]. split; [vm_compute; reflexivity|]. split.
  - intros [H _].
    assert (Hc := H ltac:(vm_compute; reflexivity)).
    vm_compute in Hc. discriminate Hc.
  - intros [_ [_ H]].
    assert (Hc := H ltac:(vm_compute; reflexivity)).
    vm_compute in Hc. discriminate Hc.
Qed.
(* ===================================================================== *)
(** * The token-info action *)
(* ===================================================================== *)

Lemma num_or0_liquidity p : (Js.num_or0 (liquidity_usd p) == usd_liquidity p)%Q.
Proof.
  unfold liquidity_usd, usd_liquidity, Js.num_or0.
  destruct (Pair.liquidity p) as [[[dollars|] b q]|]; try reflexivity.
  cbn [usd]. destruct (Qeq_bool dollars 0) eqn:Hzero; [|reflexivity].
  apply Qeq_bool_iff in Hzero. symmetry. exact Hzero.
Qed.

Lemma more_liquid_cases prev curr :
  ((usd_liquidity curr <= usd_liquidity prev)%Q /\ more_liquid prev curr = prev) \/
  ((usd_liquidity prev < usd_liquidity curr)%Q /\ more_liquid prev curr = curr).
Proof.
  unfold more_liquid.
  pose proof (num_or0_liquidity prev) as Hprev.
  pose proof (num_or0_liquidity curr) as Hcurr.
  destruct (Qle_bool (Js.num_or0 (liquidity_usd curr))
                     (Js.num_or0 (liquidity_usd prev))) eqn:Hle.
  - left. apply Qle_bool_iff in Hle. split; [lra|reflexivity].
  - right. split; [|reflexivity].
    apply Qnot_le_lt. intros H.
    assert (Qle_bool (Js.num_or0 (liquidity_usd curr))
                     (Js.num_or0 (liquidity_usd prev)) = true).
    { apply Qle_bool_iff. lra. }
    congruence.
Qed.

(** [reduce] with [more_liquid] walks the array with the most liquid
    pair so far in hand. *)
Lemma reduce_keeps_most_liquid rest :
  forall before best after,
    Forall (fun p => (usd_liquidity p < usd_liquidity best)%Q) before ->
    Forall (fun p => (usd_liquidity p <= usd_liquidity best)%Q) after ->
    most_liquid_of ((before ++ best :: after) ++ rest)
                   (fold_left more_liquid rest best).
Proof.
  induction rest as [|x rest IH]; intros before best after Hbefore Hafter.
  - rewrite app_nil_r. exists before, after. auto.
  - cbn [fold_left].
    destruct (more_liquid_cases best x) as [[Hle ->]|[Hlt ->]].
    + replace ((before ++ best :: after) ++ x :: rest)
        with ((before ++ best :: (after ++ [x])) ++ rest)
        by (rewrite <- !app_assoc; cbn [app]; rewrite <- app_assoc; reflexivity).
      apply IH; [exact Hbefore|].
      apply Forall_app. split; [exact Hafter|]. constructor; [exact Hle|constructor].
    + replace ((before ++ best :: after) ++ x :: rest)
        with (((before ++ best :: after) ++ x :: []) ++ rest)
        by (rewrite <- (app_assoc _ [x] rest); reflexivity).
      apply IH; [|constructor].
      apply Forall_app. split.
      * eapply Forall_impl; [|exact Hbefore]. cbv beta. intros p Hp. lra.
      * constructor; [exact Hlt|].
        eapply Forall_impl; [|exact Hafter]. cbv beta. intros p Hp. lra.
Qed.

Lemma reduce_most_liquid first rest :
  most_liquid_of (first :: rest) (reduce more_liquid first rest).
Proof.
  exact (reduce_keeps_most_liquid rest [] first [] (Forall_nil _) (Forall_nil _)).
Qed.

Lemma shown_price_text host p :
  Fmt.formatPrice host (shown_price p) = price_text host p.
Proof.
  unfold price_text, shown_price, Js.str_or.
  destruct (Pair.priceUsd p) as [[|c rest]|]; reflexivity.
Qed.

Lemma usd_or_na_text host figure : usd_or_na host figure = figure_text host figure.
Proof. reflexivity. Qed.

Lemma concat_cons sep (x : string) xs :
  xs <> [] -> String.concat sep (x :: xs) = x +++ sep +++ String.concat sep xs.
Proof. destruct xs; [congruence|reflexivity]. Qed.

Lemma token_info_line_lines host p :
  token_info_line host p = String.concat newline (pair_lines host p).
Proof.
  unfold token_info_line, pair_lines. cbn [String.concat].
  rewrite shown_price_text, usd_or_na_text. unfold liquidity_usd.
  rewrite !append_assoc. reflexivity.
Qed.

(** The trading-pairs section line by line. *)
Lemma pair_lines_join host listed :
  String.concat newline (flat_map (pair_lines host) listed)
  = Js.join newline (map (token_info_line host) listed).
Proof.
  unfold Js.join. induction listed as [|p listed IH]; [reflexivity|].
  destruct listed as [|p' listed].
  - cbn [flat_map map app]. rewrite app_nil_r. cbn [String.concat].
    symmetry. apply token_info_line_lines.
  - change (flat_map (pair_lines host) (p :: p' :: listed))
      with (pair_lines host p ++ flat_map (pair_lines host) (p' :: listed)).
    change (map (token_info_line host) (p :: p' :: listed))
      with (token_info_line host p :: map (token_info_line host) (p' :: listed)).
    rewrite (concat_cons newline (token_info_line host p)) by discriminate.
    rewrite <- IH.
    set (tail := flat_map (pair_lines host) (p' :: listed)).
    assert (Htail : tail <> []) by (unfold tail; cbn [flat_map pair_lines app]; discriminate).
    unfold pair_lines at 1. cbn [app].
    rewrite concat_cons by discriminate.
    rewrite (concat_cons _ _ tail Htail).
    rewrite token_info_line_lines. unfold pair_lines. cbn [String.concat].
    rewrite !append_assoc. reflexivity.
Qed.

(** The text of the handler is the stated answer, line by line. *)
Lemma token_info_text_lines host mainPair p listed pairs :
  token_info_reply host mainPair (p :: listed) pairs =
  match Pair.priceChange mainPair, Pair.volume mainPair with
  | Some change, Some volume =>
      Returned
        {| text := String.concat newline
                     (token_info_lines host mainPair (h24 change) (h24 volume)
                        (p :: listed));
           action := "dexscreener_token_info";
           result_data := Some pairs |}
  | Some _, None => Thrown (type_error "h24")
  | None, _ => Thrown (type_error "h24")
  end.
Proof.
  unfold token_info_reply.
  destruct (Pair.priceChange mainPair) as [c|]; [|reflexivity].
  destruct (Pair.volume mainPair) as [v|]; [|reflexivity].
  cbn [read outcome_bind]. f_equal. f_equal.
  unfold token_info_lines. cbn [app].
  repeat (rewrite concat_cons by discriminate).
  rewrite pair_lines_join, !shown_price_text, !usd_or_na_text.
  rewrite !append_assoc. reflexivity.
Qed.

(** C7.  When the text holds a token address and the lookup of that
    address answers a non-empty pair list, the handler answers with the
    figures of the most liquid pair of the list: a pair whose USD
    liquidity (a missing one counting as 0) no pair of the list exceeds,
    the first such pair.  The answer shows that pair's token, address,
    price, 24h change, 24h volume, market cap and FDV, and its
    trading-pairs section lists the first 3 pairs of the list, fewer
    when the list is shorter; the data are the whole list.  The handler
    throws when the most liquid pair has no 24h change or volume.  It
    sends the one lookup of the address. *)
Theorem token_info_most_liquid :
  forall host content env w addr pairs,
    match_address content = Some addr ->
    outcome (upstream env (List.length (requests w)) (GET_tokens addr))
      = inl (Fields (Some pairs)) ->
    pairs <> [] ->
    token_info_as_stated host pairs
      (fst (getTokenInfo_handler host content env w)) /\
    map snd (new_requests w (snd (getTokenInfo_handler host content env w)))
      = [GET_tokens addr].
Proof.
  intros host content env w addr pairs Haddr Hans Hne.
  destruct pairs as [|p0 rest]; [contradiction|].
  unfold getTokenInfo_handler. rewrite Haddr. unfold bind.
  rewrite getTokenPairs_run. cbn [tokenAddress]. rewrite Hans.
  cbn [field_result success data succeed or_empty]. unfold lift. cbn [fst snd].
  split.
  - exists (reduce more_liquid p0 rest). split; [apply reduce_most_liquid|].
    rewrite slice0_positive by lia.
    change (firstn (Z.to_nat 3) (p0 :: rest)) with (p0 :: firstn 2 rest).
    rewrite token_info_text_lines.
    change (firstn 3 (p0 :: rest)) with (p0 :: firstn 2 rest).
    destruct (Pair.priceChange (reduce more_liquid p0 rest));
      [destruct (Pair.volume (reduce more_liquid p0 rest))|];
      try reflexivity; eexists; reflexivity.
  - unfold new_requests. rewrite requests_answered, requests_paced.
    rewrite skipn_app, skipn_all, Nat.sub_diag. reflexivity.
Qed.

(** C7 at work with the formatting helpers of the service: of four
    pairs the third is the most liquid one and gives the figures of the
    answer; the first three are listed. *)
Lemma token_info_most_liquid_witness :
  most_liquid_of [Fixtures.shib; Fixtures.pepe; Fixtures.bonk; Fixtures.weth]
    Fixtures.bonk /\
  fst (getTokenInfo_handler Fixtures.service_host
         ("Get token info for " +++ Fixtures.usdc_address)
         Fixtures.token_env Fixtures.fresh)
  = Returned
      {| text :=
           String.concat newline
             [ "**📊 Token Information**";
               "";
               "**Token:** BONK (BONK)";
               "**Address:** `0xBONK`";
               "**Price:** 0.2500";
               "**24h Change:** +50.00%";
               "**24h Volume:** $750.00K";
               "**Market Cap:** N/A";
               "**FDV:** N/A";
               "";
               "**Top Trading Pairs:**";
               "• **SHIB/WETH** on uniswap (ethereum)";
               "  Price: 0.2500 | Liq: $250.00K";
               "• **PEPE/WETH** on uniswap (ethereum)";
               "  Price: 0.2500 | Liq: $5.00M";
               "• **BONK/WETH** on uniswap (Solana)";
               "  Price: 0.2500 | Liq: $9.00M" ];
         action := "dexscreener_token_info";
         result_data :=
           Some [Fixtures.shib; Fixtures.pepe; Fixtures.bonk; Fixtures.weth] |} /\
  map snd (new_requests Fixtures.fresh
             (snd (getTokenInfo_handler Fixtures.service_host
                     ("Get token info for " +++ Fixtures.usdc_address)
                     Fixtures.token_env Fixtures.fresh)))
  = [GET_tokens Fixtures.usdc_address].
Proof.
  destruct (token_info_most_liquid Fixtures.service_host
              ("Get token info for " +++ Fixtures.usdc_address)
              Fixtures.token_env Fixtures.fresh Fixtures.usdc_address
              [Fixtures.shib; Fixtures.pepe; Fixtures.bonk; Fixtures.weth]
              eq_refl eq_refl ltac:(discriminate))
    as [(mainPair & Hmost & Hanswer) Hsent].
  split; [|split; [|exact Hsent]].
  - exists [Fixtures.shib; Fixtures.pepe], [Fixtures.weth].
    split; [reflexivity|]. split.
    + repeat (apply Forall_cons; [vm_compute; reflexivity|]). apply Forall_nil.
    + apply Forall_cons; [vm_compute; discriminate|apply Forall_nil].
  - vm_compute. reflexivity.
Defined.

(* ===================================================================== *)
(** * Pacing *)
(* ===================================================================== *)

(** What [rateLimit] does achieve: it returns no earlier than [delay]
    after the recorded time of the last request, and records the time at
    which it returns. *)
Lemma rateLimit_waits env w delay :
  rateLimitDelay (dexConfig env) = Some delay ->
  delay <= now (paced env w) - lastRequestTime w /\
  lastRequestTime (paced env w) = now (paced env w).
Proof.
  intros Hd. unfold paced. rewrite Hd. simpl.
  destruct (Z.ltb_spec (now w - lastRequestTime w) delay); simpl; split;
    try reflexivity; lia.
Qed.

(** The request that follows [rateLimit] in a method leaves at least
    [delay] after the recorded time of the last request. *)
Lemma own_request_is_paced env w r delay :
  rateLimitDelay (dexConfig env) = Some delay ->
  exists t,
    nth_error (requests (answered env (paced env w) r)) (List.length (requests w))
      = Some (t, r) /\
    delay <= t - lastRequestTime w.
Proof.
  intros Hd. exists (now (paced env w)). split.
  - rewrite requests_answered, requests_paced.
    rewrite nth_error_app2 by lia. rewrite Nat.sub_diag. reflexivity.
  - apply (rateLimit_waits env w delay Hd).
Qed.

(** C8 fails on the code.  With the default delay of 100 ms,
    [getTrending({limit: 2})] over two promoted tokens sends three
    requests: the promoted-token listing, then the two per-token lookups.
    The lookups leave 40 ms after the listing request (as soon as its
    answer is in) and 0 ms apart from one another: [rateLimit] is not
    called before them. *)
Theorem fanout_requests_are_not_paced :
  exists found w',
    getTrending {| timeframe := None; trending_limit := Some 2 |}
      Fixtures.trending_env Fixtures.fresh = (Returned (succeed found), w') /\
    rateLimitDelay (dexConfig Fixtures.trending_env) = Some 100 /\
    map (fun entry => (fst entry - now Fixtures.fresh, url_of (snd entry)))
        (requests w')
      = [(0, "/token-boosts/top/v1");
         (40, "/tokens/v1/ethereum/0x123");
         (40, "/tokens/v1/ethereum/0x456")] /\
    ~ spaced 100 (requests w').
Proof.
  eexists; eexists. split; [rewrite getTrending_run; reflexivity|].
  split; [reflexivity|]. split; [vm_compute; reflexivity|].
  intros H. vm_compute in H. destruct H as [H _]. apply H. reflexivity.
Qed.

(** The defect in general: whenever [getTrending] visits two promoted
    tokens or more, the first two lookups leave at the same instant, so
    no positive delay separates the requests of the call. *)
Lemma fanout_lookups_leave_together env w params d t1 t2 others delay :
  outcome (upstream env (List.length (requests w)) GET_token_boosts_top) = inl d ->
  trending_chosen params (as_array d) = t1 :: t2 :: others ->
  0 < delay ->
  exists found w',
    getTrending params env w = (Returned (succeed found), w') /\
    ~ spaced delay (skipn (S (List.length (requests w))) (requests w')).
Proof.
  intros Hd Hchosen Hdelay. rewrite getTrending_run, Hd. cbv zeta.
  eexists; eexists; split; [reflexivity|].
  rewrite Hchosen.
  match goal with
  | |- context [requests (settle_world ?x)] =>
      change (requests (settle_world x)) with (requests x)
  end.
  rewrite requests_fanned, requests_answered, requests_paced.
  replace (S (List.length (requests w)))
    with (List.length (requests w ++ [(now (paced env w), GET_token_boosts_top)]))
    by (rewrite length_app; simpl; lia).
  rewrite skipn_app, skipn_all, Nat.sub_diag. simpl.
  intros [H _]. lia.
Qed.

(* ===================================================================== *)
(** * More about the service: envelopes, request logs, lookups *)
(* ===================================================================== *)

Lemma error_text_nonempty e c0 fallback0 :
  exists c rest, error_text e (String c0 fallback0) = String c rest.
Proof.
  rewrite error_text_preferred. unfold preferred_message.
  destruct (response_message e) as [[|c rest]|];
    destruct (message e) as [|c' rest']; eauto.
Qed.

Lemma well_formed_succeed {T} (d : T) : well_formed (succeed d).
Proof. simpl. split; [exists d|]; reflexivity. Qed.

Lemma well_formed_fail {T} c rest : well_formed (@fail T (String c rest)).
Proof. simpl. split; [reflexivity|]. exists c, rest. reflexivity. Qed.

Lemma well_formed_rejected {T} e c0 fallback0 :
  well_formed (@fail T (error_text e (String c0 fallback0))).
Proof.
  destruct (error_text_nonempty e c0 fallback0) as (c & rest & ->).
  apply well_formed_fail.
Qed.

Create HintDb envelope.
#[local] Hint Resolve well_formed_succeed well_formed_fail well_formed_rejected
  : envelope.

Lemma single_request_shape {T} (r : Request)
      (k : payload r -> T) c0 fallback0 env w :
  exists res w',
    try_catch (rateLimit ;; response <- api_get r ;; ret (succeed (k response)))
              (on_error (String c0 fallback0)) env w = (Returned res, w') /\
    well_formed res /\
    requests w' = requests w ++ [(now (paced env w), r)] /\
    lastRequestTime w' = now (paced env w).
Proof.
  rewrite (single_request_run r (fun d => succeed (k d))).
  eexists; eexists; split; [reflexivity|]. split; [|split; reflexivity].
  destruct (outcome _); auto with envelope.
Qed.

Ltac one_request k :=
  match goal with
  | |- exists res w', ?run = _ /\ _ =>
      let H := fresh "H" in
      match run with
      | try_catch (bind rateLimit (fun _ => bind (api_get ?r) _))
                  (on_error (String ?c0 ?f0)) ?env ?w =>
          destruct (single_request_shape r (k : payload r -> _) c0 f0 env w)
            as (res & w' & Hrun & Hwf & Hlog & Hlast);
          exists res, w'; split; [exact Hrun|]; split; [exact Hwf|];
          exists []; repeat split; assumption
      end
  end.

Lemma perform_shape op env w :
  exists res w', perform op env w = (Returned res, w') /\ run_shape op env w res w'.
Proof.
  unfold run_shape. destruct op; simpl.
  - rewrite search_run. eexists; eexists; split; [reflexivity|]. split.
    + destruct (outcome _) as [[field|]|e]; cbn [field_result]; auto with envelope.
    + exists []. repeat split; reflexivity.
  - rewrite getTokenPairs_run. eexists; eexists; split; [reflexivity|]. split.
    + destruct (outcome _) as [[field|]|e]; cbn [field_result]; auto with envelope.
    + exists []. repeat split; reflexivity.
  - rewrite getPair_run. eexists; eexists; split; [reflexivity|]. split.
    + destruct (outcome _) as [[[found|]|]|e]; cbn [field_result];
        auto with envelope.
    + exists []. repeat split; reflexivity.
  - rewrite getTrending_run.
    destruct (outcome _) as [d|e]; cbv zeta;
      (eexists; eexists; split; [reflexivity|]); split; auto with envelope.
    + destruct (fan_out_shape env w GET_token_boosts_top
                  (map lookup_of_token (trending_chosen params (as_array d))))
        as [Hlog Hlast].
      eexists. split; [exact Hlog|]. split; [exact Hlast|]. discriminate.
    + exists []. repeat split; reflexivity.
  - rewrite getPairsByChain_run. eexists; eexists; split; [reflexivity|]. split.
    + destruct (outcome _) as [[field|]|e]; cbn [field_result]; cbv zeta;
        auto with envelope.
    + exists []. repeat split; reflexivity.
  - rewrite getNewPairs_run.
    destruct (outcome _) as [d|e]; cbv zeta;
      (eexists; eexists; split; [reflexivity|]); split; auto with envelope.
    + destruct (fan_out_shape env w GET_token_profiles_latest
                  (map lookup_of_profile (newpairs_chosen params (as_array d))))
        as [Hlog Hlast].
      eexists. split; [exact Hlog|]. split; [exact Hlast|]. discriminate.
    + exists []. repeat split; reflexivity.
  - rewrite getTokenProfile_run. eexists; eexists; split; [reflexivity|]. split.
    + destruct (outcome _) as [d|e]; [destruct (find _ _)|]; auto with envelope.
    + exists []. repeat split; reflexivity.
  - unfold getMultipleTokens.
    destruct (30 <? Z.of_nat (List.length tokenAddresses)).
    + eexists; eexists; split; [reflexivity|]. split; auto with envelope.
    + one_request (@or_empty DexScreenerPair).
  - unfold getLatestTokenProfiles. one_request (@as_array DexScreenerProfile).
  - unfold getLatestBoostedTokens. one_request (@as_array DexScreenerBoostedToken).
  - unfold getTopBoostedTokens. one_request (@as_array DexScreenerBoostedToken).
  - unfold checkOrderStatus. one_request (@or_empty DexScreenerOrder).
  - unfold getTokenPairsByChain. one_request (@or_empty DexScreenerPair).
Qed.

(** X1.  Whatever the input and the upstream, the envelope that an
    operation returns is well formed: a success carries data and no
    error, a failure carries no data and an error text that is not
    empty. *)
Theorem envelope_is_well_formed :
  forall op env w,
    exists res w', perform op env w = (Returned res, w') /\ well_formed res.
Proof.
  intros op env w. destruct (perform_shape op env w) as (res & w' & Hrun & Hwf & _).
  exists res, w'. split; assumption.
Qed.

(** X2.  The request log of one call: an operation that is not one of
    the two aggregates appends exactly one request, its own, sent when
    [rateLimit] returns; [getMultipleTokens] with more than 30 addresses
    leaves the whole client state untouched.  The aggregates append their
    own request first. *)
Theorem operation_request_log :
  forall op env w,
    exists res w',
      perform op env w = (Returned res, w') /\
      match own_request op with
      | Some r =>
          exists extra,
            new_requests w w' = (now (paced env w), r) :: extra /\
            firstn (List.length (requests w)) (requests w') = requests w /\
            (is_aggregate op = false -> extra = [])
      | None => w' = w
      end.
Proof.
  intros op env w.
  destruct (perform_shape op env w) as (res & w' & Hrun & _ & Hlog).
  exists res, w'. split; [exact Hrun|].
  destruct (own_request op) as [r|]; [|exact Hlog].
  destruct Hlog as (extra & Hreq & _ & Hsingle).
  exists extra. unfold new_requests. rewrite Hreq.
  rewrite skipn_app, skipn_all, Nat.sub_diag.
  rewrite firstn_app, firstn_all, Nat.sub_diag. simpl. rewrite app_nil_r.
  split; [reflexivity|]. split; [reflexivity|exact Hsingle].
Qed.

(** X3.  Pacing across calls: when two operations run one after the
    other on the same client, the own request of the second leaves at
    least [rateLimitDelay] milliseconds after the own request of the
    first, whatever the answers and however long they took. *)
Theorem consecutive_operations_are_paced :
  forall op1 op2 env w delay r1 r2,
    rateLimitDelay (dexConfig env) = Some delay ->
    own_request op1 = Some r1 ->
    own_request op2 = Some r2 ->
    exists res1 w1 res2 w2 t1 t2,
      perform op1 env w = (Returned res1, w1) /\
      perform op2 env w1 = (Returned res2, w2) /\
      nth_error (requests w2) (List.length (requests w)) = Some (t1, r1) /\
      nth_error (requests w2) (List.length (requests w1)) = Some (t2, r2) /\
      delay <= t2 - t1.
Proof.
  intros op1 op2 env w delay r1 r2 Hdelay Hr1 Hr2.
  destruct (perform_shape op1 env w) as (res1 & w1 & Hrun1 & _ & Hlog1).
  destruct (perform_shape op2 env w1) as (res2 & w2 & Hrun2 & _ & Hlog2).
  rewrite Hr1 in Hlog1. rewrite Hr2 in Hlog2.
  destruct Hlog1 as (extra1 & Hreq1 & Hlast1 & _).
  destruct Hlog2 as (extra2 & Hreq2 & _ & _).
  exists res1, w1, res2, w2, (now (paced env w)), (now (paced env w1)).
  split; [exact Hrun1|]. split; [exact Hrun2|]. split; [|split].
  - rewrite Hreq2, Hreq1. rewrite <- app_assoc.
    rewrite nth_error_app2 by lia. rewrite Nat.sub_diag. reflexivity.
  - rewrite Hreq2. rewrite nth_error_app2 by lia. rewrite Nat.sub_diag. reflexivity.
  - rewrite <- Hlast1. apply (rateLimit_waits env w1 delay Hdelay).
Qed.

Lemma consecutive_operations_are_paced_witness :
  exists res1 w1 res2 w2 t1 t2,
    perform (Op_getTrending {| timeframe := None; trending_limit := Some 2 |})
      Fixtures.trending_env Fixtures.fresh = (Returned res1, w1) /\
    perform (Op_search {| query := "PEPE" |}) Fixtures.trending_env w1
      = (Returned res2, w2) /\
    nth_error (requests w2) (List.length (requests Fixtures.fresh))
      = Some (t1, GET_token_boosts_top) /\
    nth_error (requests w2) (List.length (requests w1))
      = Some (t2, GET_search "PEPE") /\
    100 <= t2 - t1.
Proof.
  apply (consecutive_operations_are_paced
           (Op_getTrending {| timeframe := None; trending_limit := Some 2 |})
           (Op_search {| query := "PEPE" |})
           Fixtures.trending_env Fixtures.fresh 100); reflexivity.
Defined.

(* ===================================================================== *)
(** * getTokenProfile *)
(* ===================================================================== *)

Lemma find_first {A} (f : A -> bool) (xs : list A) :
  match find f xs with
  | Some x => exists before after,
                xs = before ++ x :: after /\ f x = true /\
                Forall (fun y => f y = false) before
  | None => Forall (fun y => f y = false) xs
  end.
Proof.
  induction xs as [|y ys IH]; simpl; [constructor|].
  destruct (f y) eqn:Hy.
  - exists [], ys. repeat split; [exact Hy|constructor].
  - destruct (find f ys) as [x|].
    + destruct IH as (before & after & -> & Hx & Hbefore).
      exists (y :: before), after. repeat split; [exact Hx|].
      constructor; assumption.
    + constructor; assumption.
Qed.

(** X4.  [getTokenProfile] scans the latest profiles in their listed
    order and answers with the first one whose address equals the wanted
    one up to the case of its letters; when there is none it fails with
    "Token profile not found" although the request itself succeeded. *)
Theorem getTokenProfile_first_match :
  forall a env w d,
    outcome (upstream env (List.length (requests w)) GET_token_profiles_latest)
      = inl d ->
    exists res w',
      getTokenProfile a env w = (Returned res, w') /\
      ((exists before profile after,
          as_array d = before ++ profile :: after /\
          Js.toLowerCase (Profile.tokenAddress profile) = Js.toLowerCase a /\
          Forall (fun p => Js.toLowerCase (Profile.tokenAddress p)
                           <> Js.toLowerCase a) before /\
          res = succeed profile)
       \/
       (Forall (fun p => Js.toLowerCase (Profile.tokenAddress p)
                         <> Js.toLowerCase a) (as_array d) /\
        res = fail "Token profile not found")).
Proof.
  intros a env w d Hd. rewrite getTokenProfile_run, Hd.
  assert (Hno : forall ps,
             Forall (fun y => String.eqb (Js.toLowerCase (Profile.tokenAddress y))
                                         (Js.toLowerCase a) = false) ps ->
             Forall (fun p => Js.toLowerCase (Profile.tokenAddress p)
                              <> Js.toLowerCase a) ps).
  { intros ps. apply Forall_impl. intros p Hp. apply String.eqb_neq. exact Hp. }
  match goal with
  | |- context [find ?f ?xs] =>
      pose proof (find_first f xs) as Hfind; destruct (find f xs) as [profile|]
  end; (eexists; eexists; split; [reflexivity|]).
  - left. destruct Hfind as (before & after & Hsplit & Hsame & Hbefore).
    exists before, profile, after. split; [exact Hsplit|].
    split; [apply String.eqb_eq; exact Hsame|].
    split; [apply Hno; exact Hbefore|reflexivity].
  - right. split; [apply Hno; exact Hfind|reflexivity].
Qed.

Lemma getTokenProfile_first_match_witness :
  exists res w',
    getTokenProfile "0xABC"
      {| dexConfig := Fixtures.default_config;
         upstream := Fixtures.with_profiles
                       (Fixtures.ok 40 (Many [Fixtures.profile "ethereum" "0x123";
                                              Fixtures.profile "bsc" "0xabc";
                                              Fixtures.profile "base" "0xAbC"]))
                       Fixtures.unreachable |}
      Fixtures.fresh = (Returned res, w') /\
    res = succeed (Fixtures.profile "bsc" "0xabc").
Proof.
  destruct (getTokenProfile_first_match "0xABC"
              {| dexConfig := Fixtures.default_config;
                 upstream := Fixtures.with_profiles
                               (Fixtures.ok 40 (Many [Fixtures.profile "ethereum" "0x123";
                                                      Fixtures.profile "bsc" "0xabc";
                                                      Fixtures.profile "base" "0xAbC"]))
                               Fixtures.unreachable |}
              Fixtures.fresh
              (Many [Fixtures.profile "ethereum" "0x123";
                     Fixtures.profile "bsc" "0xabc";
                     Fixtures.profile "base" "0xAbC"]) eq_refl)
    as (res & w' & Hrun & Hres).
  exists res, w'. split; [exact Hrun|].
  rewrite getTokenProfile_run in Hrun. injection Hrun as <- _. reflexivity.
Defined.

(** X5.  The answer of [getTokenProfile] depends on the address only up
    to the case of its letters: two addresses with the same lower-case
    form give the same run, result and requests alike. *)
Theorem getTokenProfile_ignores_case :
  forall a b env w,
    Js.toLowerCase a = Js.toLowerCase b ->
    getTokenProfile a env w = getTokenProfile b env w.
Proof.
  intros a b env w Hab. rewrite !getTokenProfile_run, Hab. reflexivity.
Qed.

Lemma getTokenProfile_ignores_case_witness :
  getTokenProfile "0xA0B8" Fixtures.newpairs_env Fixtures.fresh
  = getTokenProfile "0xa0b8" Fixtures.newpairs_env Fixtures.fresh.
Proof.
  apply (getTokenProfile_ignores_case "0xA0B8" "0xa0b8"). reflexivity.
Defined.

(* ===================================================================== *)
(** * What the aggregates send *)
(* ===================================================================== *)

Lemma length_trending_slots env tokens :
  forall n, List.length (trending_slots env n tokens) = List.length tokens.
Proof. induction tokens as [|t ts IH]; intros n; simpl; [|rewrite IH]; reflexivity. Qed.

Lemma length_newpairs_slots env profiles :
  forall n, List.length (newpairs_slots env n profiles) = List.length profiles.
Proof. induction profiles as [|t ts IH]; intros n; simpl; [|rewrite IH]; reflexivity. Qed.

(** X6.  The cost of [getTrending]: with a limit that is not negative
    (10 when it is absent or 0) the call sends one request for the
    promoted tokens and one lookup for each of the first [limit] of them,
    so at most [1 + limit] requests, and its result has no more entries
    than lookups were sent. *)
Theorem getTrending_request_budget :
  forall params env w d,
    outcome (upstream env (List.length (requests w)) GET_token_boosts_top) = inl d ->
    not_negative (trending_limit params) ->
    exists found w',
      getTrending params env w = (Returned (succeed found), w') /\
      List.length (new_requests w w')
        = (1 + Nat.min (Z.to_nat (Js.int_or (trending_limit params) 10))
                       (List.length (as_array d)))%nat /\
      (List.length found < List.length (new_requests w w'))%nat.
Proof.
  intros params env w d Hd Hlimit. rewrite getTrending_run, Hd. cbv zeta.
  eexists; eexists; split; [reflexivity|].
  rewrite new_requests_fan_out. simpl List.length. rewrite !length_map.
  unfold trending_chosen.
  rewrite slice0_positive by (apply int_or_positive; [exact Hlimit|lia]).
  rewrite length_firstn. split; [reflexivity|].
  apply Nat.lt_succ_r.
  etransitivity; [apply filter_length_le|].
  rewrite length_trending_slots, length_firstn. reflexivity.
Qed.

Lemma getTrending_request_budget_witness :
  exists found w',
    getTrending {| timeframe := None; trending_limit := Some 1 |}
      Fixtures.trending_env Fixtures.fresh = (Returned (succeed found), w') /\
    List.length (new_requests Fixtures.fresh w') = 2%nat /\
    (List.length found < List.length (new_requests Fixtures.fresh w'))%nat.
Proof.
  apply (getTrending_request_budget
           {| timeframe := None; trending_limit := Some 1 |}
           Fixtures.trending_env Fixtures.fresh (Many Fixtures.two_promoted)).
  - reflexivity.
  - intros l Hl. injection Hl as <-. lia.
Defined.

(** X7.  [getNewPairs] with a chain: after the request for the latest
    profiles, the lookups it sends are, in the listed order, those of the
    profiles whose chain equals the requested one up to the case of its
    letters, cut to the limit; no profile of another chain is looked up.
    All lookups leave at the instant the listing has arrived. *)
Theorem getNewPairs_looks_up_the_chain_only :
  forall params env w d c,
    outcome (upstream env (List.length (requests w)) GET_token_profiles_latest)
      = inl d ->
    newpairs_chain params = Some c ->
    c <> "" ->
    exists found w' visited t,
      getNewPairs params env w = (Returned (succeed found), w') /\
      new_requests w w'
        = (now (paced env w), GET_token_profiles_latest)
            :: map (fun p => (t, lookup_of_profile p)) visited /\
      visited = Js.slice0 (Js.int_or (newpairs_limit params) 10)
                  (filter (fun p => same_chain c (Profile.chainId p)) (as_array d)) /\
      Forall (fun p => In p (as_array d) /\
                       Js.toLowerCase (Profile.chainId p) = Js.toLowerCase c)
             visited /\
      (List.length found <= List.length visited)%nat.
Proof.
  intros params env w d c Hd Hc Hne. rewrite getNewPairs_run, Hd. cbv zeta.
  assert (Hchosen : newpairs_chosen params (as_array d)
                    = Js.slice0 (Js.int_or (newpairs_limit params) 10)
                        (filter (fun p => same_chain c (Profile.chainId p))
                                (as_array d))).
  { unfold newpairs_chosen. rewrite Hc.
    destruct (String.eqb_spec c ""); [contradiction|reflexivity]. }
  eexists; eexists; exists (newpairs_chosen params (as_array d)); eexists.
  split; [reflexivity|]. split; [|split; [exact Hchosen|split]].
  - rewrite new_requests_fan_out, map_map. reflexivity.
  - rewrite Hchosen. unfold Js.slice0. apply Forall_forall. intros p Hp.
    apply In_firstn_In in Hp. apply filter_In in Hp. destruct Hp as [Hin Hsame].
    split; [exact Hin|]. apply String.eqb_eq. exact Hsame.
  - etransitivity; [apply filter_length_le|].
    rewrite length_newpairs_slots. reflexivity.
Qed.

Lemma getNewPairs_looks_up_the_chain_only_witness :
  exists found w' visited t,
    getNewPairs {| newpairs_chain := Some "Ethereum"; newpairs_limit := None |}
      Fixtures.newpairs_env Fixtures.fresh = (Returned (succeed found), w') /\
    new_requests Fixtures.fresh w'
      = (now (paced Fixtures.newpairs_env Fixtures.fresh), GET_token_profiles_latest)
          :: map (fun p => (t, lookup_of_profile p)) visited /\
    visited = [Fixtures.profile "ethereum" "0x123"; Fixtures.profile "ethereum" "0x456"].
Proof.
  destruct (getNewPairs_looks_up_the_chain_only
              {| newpairs_chain := Some "Ethereum"; newpairs_limit := None |}
              Fixtures.newpairs_env Fixtures.fresh
              (Many [Fixtures.profile "ethereum" "0x123";
                     Fixtures.profile "ethereum" "0x456"])
              "Ethereum" eq_refl eq_refl)
    as (found & w' & visited & t & Hrun & Hlog & Hvisited & _).
  - discriminate.
  - exists found, w', visited, t. repeat split; assumption.
Defined.

(* ===================================================================== *)
(** * rateLimit and the configured delay *)
(* ===================================================================== *)

(** X8.  When [rateLimit] returns: with a delay [d] configured, at the
    later of the current time and [lastRequestTime + d]; it then records
    that time as the time of the last request and touches nothing else.
    A fresh client, whose [lastRequestTime] is 0, is not held back. *)
Theorem rateLimit_returns_at_the_later_time :
  forall env w delay,
    rateLimitDelay (dexConfig env) = Some delay ->
    exists w',
      rateLimit env w = (Returned tt, w') /\
      now w' = Z.max (now w) (lastRequestTime w + delay) /\
      lastRequestTime w' = now w' /\
      requests w' = requests w /\
      (lastRequestTime w = 0 -> delay <= now w -> now w' = now w).
Proof.
  intros env w delay Hdelay. rewrite rateLimit_run. eexists. split; [reflexivity|].
  unfold paced. rewrite Hdelay. cbn [now lastRequestTime requests].
  destruct (Z.ltb_spec (now w - lastRequestTime w) delay);
    repeat split; lia.
Qed.

Lemma rateLimit_returns_at_the_later_time_witness :
  exists w',
    rateLimit Fixtures.down_env
      {| now := 1040; lastRequestTime := 1000; requests := []; inflight := 0 |}
    = (Returned tt, w') /\
    now w' = 1100.
Proof.
  destruct (rateLimit_returns_at_the_later_time Fixtures.down_env
              {| now := 1040; lastRequestTime := 1000; requests := []; inflight := 0 |}
              100 eq_refl) as (w' & Hrun & Hnow & _).
  exists w'. split; [exact Hrun|exact Hnow].
Defined.



(* ===================================================================== *)
(** * formatPriceChange, formatUsdValue and unparsable prices *)
(* ===================================================================== *)

Lemma js_thousand_value : js_thousand = S754_finite false 8796093022208000 (-43).
Proof. reflexivity. Qed.

Lemma js_million_value : js_million = S754_finite false 8589934592000000 (-33).
Proof. reflexivity. Qed.

Lemma js_scales_rounded :
  js_thousand = number_of_Z 1000 /\ js_million = number_of_Z 1000000.
Proof. split; vm_compute; reflexivity. Qed.

Lemma length_take_chars i : forall s,
  String.length (take_chars i s) = Nat.min i (String.length s).
Proof.
  induction i as [|i IH]; intros [|c s]; simpl; try reflexivity.
  rewrite IH. reflexivity.
Qed.

(** Steps 10.a to 10.c of [toFixed] produce digits, a point and exactly
    [f] digits. *)
Lemma place_point_fixed f n : (0 < f)%nat -> fixed_notation f (place_point f n).
Proof.
  intros Hf. unfold place_point. destruct f as [|f']; [lia|].
  set (f := S f') in *. cbv zeta.
  set (m := if Nat.leb (String.length (digits_of n)) f
            then zeros (f + 1 - String.length (digits_of n)) +++ digits_of n
            else digits_of n).
  assert (Hm : all_digits m = true).
  { unfold m. destruct (Nat.leb _ _).
    - apply all_digits_app; [apply all_digits_zeros|apply all_digits_of].
    - apply all_digits_of. }
  assert (Hlen : (f < String.length m)%nat).
  { unfold m. destruct (Nat.leb_spec (String.length (digits_of n)) f).
    - rewrite length_append, length_zeros. lia.
    - lia. }
  exists (take_chars (String.length m - f) m), (drop_chars (String.length m - f) m).
  split; [reflexivity|]. split; [|split; [|split]].
  - intros Hempty. apply (f_equal String.length) in Hempty.
    rewrite length_take_chars in Hempty. simpl in Hempty. lia.
  - apply all_digits_take. exact Hm.
  - apply all_digits_drop. exact Hm.
  - rewrite length_drop_chars. lia.
Qed.

Lemma toFixed_magnitude f x :
  (0 < f)%nat -> js_lt (SFabs x) js_1e21 = true ->
  fixed_notation f (toFixed f (SFabs x)).
Proof.
  intros Hf Hsmall. destruct x as [s|s| |s m e]; try discriminate Hsmall.
  - apply place_point_fixed. exact Hf.
  - cbn [SFabs] in *. unfold toFixed.
    rewrite (js_lt_not_ge _ _ Hsmall). apply place_point_fixed. exact Hf.
Qed.

(** X10.  [formatPriceChange] always shows a sign: for every change but
    [NaN] the text is "+" for a change that is at least zero and "-"
    otherwise, then the magnitude with [toFixed(2)], then "%"; a negative
    change that rounds to zero keeps its "-".  For a magnitude below 1e21
    the part between the sign and "%" is digits, a point and two
    digits. *)
Theorem formatPriceChange_shows_sign :
  forall c,
    c <> S754_nan ->
    formatPriceChange c
      = (if js_le js_zero c then "+" else "-") +++ toFixed 2 (SFabs c) +++ "%" /\
    (js_lt (SFabs c) js_1e21 = true -> fixed_notation 2 (toFixed 2 (SFabs c))).
Proof.
  intros c Hc. split; [|apply toFixed_magnitude; lia].
  unfold formatPriceChange.
  destruct c as [s|[]| |[] m e]; try reflexivity; [contradiction|].
  change (js_le js_zero (S754_finite true m e)) with false. cbv iota.
  unfold toFixed, SFabs.
  destruct (js_le js_1e21 (S754_finite false m e)); reflexivity.
Qed.

Lemma formatPriceChange_shows_sign_witness :
  formatPriceChange (parseFloat "-0.001") = "-0.00%" /\
  formatPriceChange (parseFloat "12.345") = "+12.35%".
Proof.
  split.
  - destruct (formatPriceChange_shows_sign (parseFloat "-0.001")) as [-> _].
    + vm_compute. discriminate.
    + vm_compute. reflexivity.
  - destruct (formatPriceChange_shows_sign (parseFloat "12.345")) as [-> _].
    + vm_compute. discriminate.
    + vm_compute. reflexivity.
Defined.

Lemma not_thousand_not_million v :
  js_le js_thousand v = false -> js_le js_million v = false.
Proof.
  rewrite js_thousand_value, js_million_value. intros H.
  destruct v as [s|[]| |[] m e]; by_exponents.
Qed.

(** X11.  [formatUsdValue] abbreviates by size, not by magnitude: every
    value that is not at least 1000 (every negative value however large,
    and [NaN]) is printed in full as "$" and [toFixed(2)], without a K or
    M; when its magnitude is below 1e21 that is an optional "-", digits,
    a point and two digits. *)
Theorem formatUsdValue_below_thousand :
  forall v,
    js_le js_thousand v = false ->
    formatUsdValue v = "$" +++ toFixed 2 v /\
    (js_lt (SFabs v) js_1e21 = true ->
     exists body,
       fixed_notation 2 body /\
       toFixed 2 v = (if js_lt v js_zero then "-" else "") +++ body).
Proof.
  intros v Hv. split.
  - unfold formatUsdValue. rewrite (not_thousand_not_million v Hv), Hv. reflexivity.
  - intros Hsmall. exists (toFixed 2 (SFabs v)).
    split; [apply toFixed_magnitude; [lia|exact Hsmall]|].
    destruct v as [s|[]| |[] m e]; try discriminate Hsmall; try reflexivity.
    change (js_lt (S754_finite true m e) js_zero) with true. cbv iota.
    unfold toFixed, SFabs.
    destruct (js_le js_1e21 (S754_finite false m e)); reflexivity.
Qed.

Lemma formatUsdValue_below_thousand_witness :
  formatUsdValue (number_of_Z (-2000000)) = "$-2000000.00".
Proof.
  destruct (formatUsdValue_below_thousand (number_of_Z (-2000000))) as [-> _].
  - vm_compute. reflexivity.
  - vm_compute. reflexivity.
Defined.

(** ** The last character of a printed number *)

Lemma last_char_app a b :
  b <> "" -> last_char (a +++ b) = last_char b.
Proof.
  intros Hb. induction a as [|c a IH]; [reflexivity|].
  simpl. destruct (a +++ b) eqn:E; [|exact IH].
  destruct a; simpl in E; [contradiction|discriminate].
Qed.

Lemma last_char_digit s c :
  all_digits s = true -> last_char s = Some c -> Js.is_digit c = true.
Proof.
  induction s as [|d s IH]; simpl; intros Hs Hc; [discriminate|].
  apply andb_true_iff in Hs. destruct Hs as [Hd Hs].
  destruct s; [injection Hc as <-; exact Hd|apply IH; assumption].
Qed.

Lemma uint_text_nonempty d :
  d <> Decimal.Nil -> DecimalString.NilEmpty.string_of_uint d <> "".
Proof. destruct d; simpl; congruence. Qed.

Lemma digits_of_nonempty n : digits_of n <> "".
Proof.
  unfold digits_of, DecimalString.NilZero.string_of_uint.
  destruct (N.to_uint n) eqn:E; try discriminate;
    rewrite <- E; apply uint_text_nonempty; rewrite E; discriminate.
Qed.

Lemma place_point_ends_with_digit f n :
  exists c, last_char (place_point f n) = Some c /\ Js.is_digit c = true.
Proof.
  assert (Hdigits : forall s, s <> "" -> all_digits s = true ->
                              exists c, last_char s = Some c /\ Js.is_digit c = true).
  { intros s Hne Hs. destruct (last_char s) as [c|] eqn:E.
    - exists c. split; [reflexivity|]. apply (last_char_digit s c Hs E).
    - destruct s as [|d s]; [contradiction|]. exfalso.
      clear Hne Hs. revert d E. induction s as [|d' s IH]; intros d E.
      + discriminate.
      + apply (IH d'). exact E. }
  destruct f as [|f'].
  - apply Hdigits; [apply digits_of_nonempty|apply all_digits_of].
  - destruct (place_point_fixed (S f') n) as (whole & fraction & -> & _ & _ & Hfr & Hlen);
      [lia|].
    assert (Hne : fraction <> "") by (destruct fraction; [discriminate|congruence]).
    rewrite last_char_app by (destruct fraction; [contradiction|discriminate]).
    change ("." +++ fraction) with (String "." fraction).
    destruct fraction as [|d rest]; [contradiction|].
    change (last_char (String "." (String d rest))) with (last_char (String d rest)).
    apply Hdigits; assumption.
Qed.

Lemma exponential_text_ends_with_digit x v :
  exists c, last_char (exponential_text x v) = Some c /\ Js.is_digit c = true.
Proof.
  unfold exponential_text.
  destruct (shortest_digits x v (decimal_length v) (seq 1 17)) as [s n].
  set (tail := digits_of (N.of_nat (n - 1))).
  assert (Hne : tail <> "") by apply digits_of_nonempty.
  rewrite last_char_app
    by (destruct tail; [contradiction|discriminate]).
  change ("e+" +++ tail) with (String "e" (String "+" tail)).
  destruct tail as [|d rest] eqn:E; [contradiction|].
  change (last_char (String "e" (String "+" (String d rest))))
    with (last_char (String d rest)).
  destruct (last_char (String d rest)) as [c|] eqn:Hc.
  - exists c. split; [reflexivity|].
    apply (last_char_digit (String d rest) c); [|exact Hc].
    rewrite <- E. apply all_digits_of.
  - exfalso. clear E Hne. revert d Hc.
    induction rest as [|d' rest IH]; intros d Hc; [discriminate|].
    apply (IH d'). exact Hc.
Qed.

(** What [toFixed] prints ends with a digit, or is [NaN] or an
    infinity. *)
Lemma toFixed_ends_like_a_number f x : ends_like_a_number (toFixed f x).
Proof.
  unfold ends_like_a_number.
  destruct x as [s|[]| |negative m e].
  - destruct (place_point_ends_with_digit f 0) as (c & Hc & Hd). eauto.
  - exists "y"%char. split; [reflexivity|tauto].
  - exists "y"%char. split; [reflexivity|tauto].
  - exists "N"%char. split; [reflexivity|tauto].
  - unfold toFixed. destruct (js_le js_1e21 (S754_finite false m e)).
    + destruct (exponential_text_ends_with_digit (S754_finite false m e)
                  (Z.pos m * 2 ^ e)) as (c & Hc & Hd).
      exists c. split; [|tauto].
      rewrite last_char_app; [exact Hc|].
      intros Hempty. rewrite Hempty in Hc. discriminate.
    + destruct (place_point_ends_with_digit f (scaled_round f m e)) as (c & Hc & Hd).
      exists c. split; [|tauto].
      rewrite last_char_app; [exact Hc|].
      intros Hempty. rewrite Hempty in Hc. discriminate.
Qed.

(** X12.  The suffix of [formatUsdValue] tells the tier: the text ends
    with M exactly when the value is at least 1000000, and with K
    exactly when it is at least 1000 and not at least 1000000; in every
    other case it ends the way a number does. *)
Theorem formatUsdValue_suffix_tells_tier :
  forall v,
    (last_char (formatUsdValue v) = Some "M"%char <-> js_le js_million v = true) /\
    (last_char (formatUsdValue v) = Some "K"%char <->
     js_le js_million v = false /\ js_le js_thousand v = true).
Proof.
  intros v.
  assert (Hsuffix : forall body suffix,
             last_char ("$" +++ body +++ String suffix "") = Some suffix).
  { intros body suffix.
    rewrite last_char_app by (destruct body; discriminate).
    rewrite last_char_app by discriminate. reflexivity. }
  unfold formatUsdValue.
  destruct (js_le js_million v).
  - rewrite (Hsuffix _ "M"%char). split; split; try tauto; try discriminate.
    intros [H _]. discriminate.
  - destruct (js_le js_thousand v).
    + rewrite (Hsuffix _ "K"%char). split; split; try tauto; discriminate.
    + destruct (toFixed_ends_like_a_number 2 v) as (c & Hc & Hkind).
      rewrite last_char_app
        by (intros Hempty; rewrite Hempty in Hc; discriminate).
      rewrite Hc.
      split; split; try discriminate; try (intros [_ H]; discriminate);
        intros Heq; injection Heq as ->;
        destruct Hkind as [Hd|[Hd|Hd]]; discriminate.
Qed.

(** ** Prices that are not numbers *)

Lemma all_chars_skip_spaces p s :
  all_chars p s = true -> all_chars p (Js.skip_spaces s) = true.
Proof.
  induction s as [|c s IH]; simpl; intros H; [reflexivity|].
  destruct (Js.is_space c); [|exact H].
  apply andb_true_iff in H. apply IH. tauto.
Qed.

Lemma not_numeric_span s :
  not_numeric s = true -> span_digits s = (EmptyString, s).
Proof.
  destruct s as [|c s]; simpl; intros H; [reflexivity|].
  apply andb_true_iff in H. destruct H as [Hc _].
  apply negb_true_iff, orb_false_iff in Hc. destruct Hc as [-> _]. reflexivity.
Qed.

Lemma not_numeric_prefix s :
  not_numeric s = true -> String.prefix "Infinity" s = false.
Proof.
  destruct s as [|c s]; [reflexivity|]. intros H.
  change (String.prefix "Infinity" (String c s))
    with (if Ascii.ascii_dec "I" c then String.prefix "nfinity" s else false).
  destruct (Ascii.ascii_dec "I" c) as [<-|Hne]; [discriminate H|reflexivity].
Qed.

Lemma parseFloat_not_numeric s : not_numeric s = true -> parseFloat s = S754_nan.
Proof.
  intros Hs. unfold parseFloat.
  apply all_chars_skip_spaces in Hs. fold (not_numeric (Js.skip_spaces s)) in Hs.
  set (s1 := Js.skip_spaces s) in *.
  assert (Hbody : forall negative s2,
             not_numeric s2 = true ->
             (if String.prefix "Infinity" s2 then S754_infinity negative
              else
                let '(int_part, s3) := span_digits s2 in
                let '(frac_part, s4) :=
                  match s3 with
                  | String "."%char rest => span_digits rest
                  | _ => (EmptyString, s3)
                  end in
                match int_part +++ frac_part with
                | EmptyString => S754_nan
                | ds =>
                    number_of_decimal negative (decimal_value ds 0)
                      (exponent_part s4 - Z.of_nat (String.length frac_part))
                end) = S754_nan).
  { intros negative s2 H2. rewrite (not_numeric_prefix s2 H2).
    rewrite (not_numeric_span s2 H2).
    destruct s2 as [|c rest]; [reflexivity|].
    assert (Hrest : not_numeric rest = true).
    { unfold not_numeric in *. simpl in H2. apply andb_true_iff in H2. tauto. }
    destruct (Ascii.ascii_dec c ".") as [->|Hc].
    - rewrite (not_numeric_span rest Hrest). reflexivity.
    - destruct c as [[] [] [] [] [] [] [] []]; try reflexivity.
      contradiction Hc. reflexivity. }
  assert (Htail : forall c rest, s1 = String c rest -> not_numeric rest = true).
  { intros c rest E. rewrite E in Hs. unfold not_numeric in *. simpl in Hs.
    apply andb_true_iff in Hs. tauto. }
  destruct s1 as [|c rest] eqn:E; [reflexivity|].
  specialize (Htail c rest eq_refl).
  destruct (Ascii.ascii_dec c "-") as [->|Hminus]; [apply Hbody; exact Htail|].
  destruct (Ascii.ascii_dec c "+") as [->|Hplus]; [apply Hbody; exact Htail|].
  transitivity
    (if String.prefix "Infinity" (String c rest) then S754_infinity false
     else
       let '(int_part, s3) := span_digits (String c rest) in
       let '(frac_part, s4) :=
         match s3 with
         | String "."%char rest0 => span_digits rest0
         | _ => (EmptyString, s3)
         end in
       match int_part +++ frac_part with
       | EmptyString => S754_nan
       | ds =>
           number_of_decimal false (decimal_value ds 0)
             (exponent_part s4 - Z.of_nat (String.length frac_part))
       end); [|apply Hbody; exact Hs].
  destruct c as [[] [] [] [] [] [] [] []]; try reflexivity;
    [contradiction Hplus; reflexivity|contradiction Hminus; reflexivity].
Qed.

(** X13.  A price text in which no number can start (no digit and no
    capital I anywhere: "N/A", "unknown", the empty string) is printed by
    [formatPrice] as "NaN": [parseFloat] gives [NaN], both comparisons
    are false, and [toFixed(8)] of [NaN] is "NaN". *)
Theorem formatPrice_of_unparsable_text :
  forall s, not_numeric s = true -> formatPrice (inl s) = "NaN".
Proof.
  intros s Hs. unfold formatPrice. rewrite (parseFloat_not_numeric s Hs).
  reflexivity.
Qed.

Lemma formatPrice_of_unparsable_text_witness :
  formatPrice (inl "N/A") = "NaN" /\ formatPrice (inl "") = "NaN".
Proof.
  split.
  - apply (formatPrice_of_unparsable_text "N/A"). reflexivity.
  - apply (formatPrice_of_unparsable_text ""). reflexivity.
Defined.

(* ===================================================================== *)
(** * The actions: what they send and what they answer *)
(* ===================================================================== *)

(** ** Texts *)

Lemma take_drop_chars i : forall s, s = take_chars i s +++ drop_chars i s.
Proof.
  induction i as [|i IH]; intros [|c s]; simpl; try reflexivity.
  rewrite <- IH. reflexivity.
Qed.

Lemma toLowerCase_drop_chars i : forall s,
  Js.toLowerCase (drop_chars i s) = drop_chars i (Js.toLowerCase s).
Proof. induction i as [|i IH]; intros [|c s]; simpl; try reflexivity. apply IH. Qed.

Lemma prefix_empty s : String.prefix "" s = true.
Proof. destruct s; reflexivity. Qed.

Lemma str_includes_empty hay : str_includes "" hay = true.
Proof. destruct hay; reflexivity. Qed.

(** A text that starts somewhere in [hay] is included in it. *)
Lemma str_includes_at needle i : forall hay,
  String.prefix needle (drop_chars i hay) = true -> str_includes needle hay = true.
Proof.
  induction i as [|i IH]; intros hay H.
  - destruct hay; simpl in *; rewrite H; reflexivity.
  - destruct hay as [|c hay].
    + simpl in H. destruct needle; [reflexivity|discriminate].
    + simpl in H. apply IH in H.
      change (str_includes needle (String c hay))
        with (orb (String.prefix needle (String c hay)) (str_includes needle hay)).
      rewrite H. apply orb_true_r.
Qed.

Lemma literal_here_included lit i content :
  literal_here lit (drop_chars i content) = true ->
  str_includes lit (Js.toLowerCase content) = true.
Proof.
  unfold literal_here. rewrite toLowerCase_drop_chars. apply str_includes_at.
Qed.

Lemma first_some_found {A B} (f : A -> option B) xs b :
  first_some f xs = Some b -> exists x, In x xs /\ f x = Some b.
Proof.
  induction xs as [|x xs IH]; simpl; [discriminate|].
  destruct (f x) as [b'|] eqn:E.
  - intros H. injection H as <-. exists x. split; [left; reflexivity|exact E].
  - intros H. destruct (IH H) as (y & Hy & Hfy). exists y. split; [right|]; assumption.
Qed.

(** ** The search action *)

Lemma match_query_unfold content :
  match_query content =
  match match keyword_here content with
        | Some rest => after_keyword rest
        | None => None
        end with
  | Some q => Some q
  | None =>
      match content with
      | String _ rest => match_query rest
      | EmptyString => None
      end
  end.
Proof. destruct content; reflexivity. Qed.

(** Where a match of the search pattern starts there is one of its three
    key words. *)
Lemma keyword_here_literal s rest :
  keyword_here s = Some rest ->
  literal_here "search" s = true \/ literal_here "find" s = true \/
  literal_here "look for" s = true.
Proof.
  unfold keyword_here.
  destruct (literal_here "search" s); [tauto|].
  destruct (literal_here "find" s); [tauto|].
  destruct (literal_here "look for" s); [tauto|discriminate].
Qed.

Lemma match_query_keyword content : forall q,
  match_query content = Some q ->
  exists i rest, keyword_here (drop_chars i content) = Some rest.
Proof.
  induction content as [|c content IH]; intros q H; rewrite match_query_unfold in H.
  - destruct (keyword_here "") as [rest|] eqn:E; [|discriminate].
    exists 0%nat, rest. exact E.
  - destruct (keyword_here (String c content)) as [rest|] eqn:E.
    + exists 0%nat, rest. exact E.
    + destruct (IH q H) as (i & rest & Hi). exists (S i), rest. exact Hi.
Qed.

Lemma match_query_validate content q :
  match_query content = Some q -> searchTokensAction.validate content = true.
Proof.
  intros H. destruct (match_query_keyword content q H) as (i & rest & Hkey).
  unfold searchTokensAction.validate.
  destruct (keyword_here_literal _ _ Hkey) as [Hl|[Hl|Hl]];
    apply literal_here_included in Hl; rewrite Hl;
    repeat rewrite orb_true_r; reflexivity.
Qed.

(** X14.  The search pattern is stricter than [validate]: a text that
    [validate] rejects (none of "search", "find", "look for" in it, in
    any case) never matches the pattern, so the handler answers with its
    guidance and sends nothing. *)
Theorem search_needs_a_keyword :
  forall host content env w,
    searchTokensAction.validate content = false ->
    searchTokensAction.handler host content env w
    = (Returned searchTokensAction.guidance, w).
Proof.
  intros host content env w Hno. unfold searchTokensAction.handler.
  destruct (match_query content) as [q|] eqn:E; [|reflexivity].
  apply match_query_validate in E. congruence.
Qed.

Lemma search_needs_a_keyword_witness :
  searchTokensAction.handler Fixtures.plain_host "What is PEPE?"
    Fixtures.down_env Fixtures.fresh
  = (Returned searchTokensAction.guidance, Fixtures.fresh).
Proof.
  apply (search_needs_a_keyword Fixtures.plain_host "What is PEPE?"
           Fixtures.down_env Fixtures.fresh).
  reflexivity.
Defined.

Lemma capture_rest_unfold c rest :
  capture_rest (String c rest) =
  if site_suffix (String c rest) then Some EmptyString
  else if is_line_terminator c then None
  else option_map (String c) (capture_rest rest).
Proof. reflexivity. Qed.

(** ** The character classes of the patterns, on ASCII *)

Lemma is_space_blank c : Js.is_space c = blank c.
Proof. destruct c as [[] [] [] [] [] [] [] []]; reflexivity. Qed.

Lemma line_terminator_spec c :
  is_line_terminator c = orb (Ascii.eqb c "010") (Ascii.eqb c "013").
Proof. destruct c as [[] [] [] [] [] [] [] []]; reflexivity. Qed.

Lemma all_chars_ext (f g : ascii -> bool) s :
  (forall c, f c = g c) -> all_chars f s = all_chars g s.
Proof.
  intros H. induction s as [|c s IH]; simpl; [|rewrite H, IH]; reflexivity.
Qed.

Lemma no_line_break_model p :
  all_chars (fun c => negb (is_line_terminator c)) p = no_line_break p.
Proof. apply all_chars_ext. intros c. rewrite line_terminator_spec. reflexivity. Qed.

Lemma no_space_model q :
  no_space q = all_chars (fun c => negb (Js.is_space c)) q.
Proof. apply all_chars_ext. intros c. rewrite is_space_blank. reflexivity. Qed.

Lemma append_empty s : s +++ "" = s.
Proof. induction s as [|c s IH]; simpl; [|rewrite IH]; reflexivity. Qed.

Lemma toLowerCase_take_chars i : forall s,
  Js.toLowerCase (take_chars i s) = take_chars i (Js.toLowerCase s).
Proof.
  induction i as [|i IH]; intros [|c s]; simpl; try reflexivity.
  rewrite IH. reflexivity.
Qed.

Lemma prefix_take a : forall s,
  String.prefix a s = true -> take_chars (String.length a) s = a.
Proof.
  induction a as [|x a IH]; intros s H; [destruct s; reflexivity|].
  destruct s as [|c s]; [discriminate H|].
  cbn [String.prefix] in H. destruct (Ascii.ascii_dec x c) as [->|]; [|discriminate H].
  cbn [String.length take_chars]. rewrite (IH s H). reflexivity.
Qed.

Lemma prefix_append a : forall b, String.prefix a (a +++ b) = true.
Proof.
  induction a as [|x a IH]; intros b; [destruct b; reflexivity|].
  cbn [String.append String.prefix].
  destruct (Ascii.ascii_dec x x) as [_|Hne]; [apply IH|contradiction Hne; reflexivity].
Qed.

(** A literal matched under the [i] flag: the characters it covers. *)
Lemma literal_here_take lit s :
  literal_here lit s = true ->
  Js.toLowerCase (take_chars (String.length lit) s) = lit.
Proof.
  unfold literal_here. intros H. rewrite toLowerCase_take_chars.
  apply prefix_take. exact H.
Qed.

(** [Js.skip_spaces] drops a run of white space and stops at the first
    character that is none. *)
Lemma skip_spaces_split s :
  exists lead,
    s = lead +++ Js.skip_spaces s /\ blanks lead = true /\
    match Js.skip_spaces s with
    | String c _ => blank c = false
    | EmptyString => True
    end.
Proof.
  induction s as [|c s (lead & Hs & Hlead & Hfirst)].
  - exists "". repeat split.
  - cbn [Js.skip_spaces]. destruct (Js.is_space c) eqn:Hc.
    + exists (String c lead). split; [cbn [String.append]; rewrite <- Hs; reflexivity|].
      split; [|exact Hfirst].
      unfold blanks. cbn [all_chars]. rewrite <- is_space_blank, Hc. exact Hlead.
    + exists "". split; [reflexivity|]. split; [reflexivity|].
      rewrite <- is_space_blank. exact Hc.
Qed.

(** [trim_end] drops a run of white space at the end and keeps the
    start. *)
Lemma trim_end_split t :
  exists trail,
    t = trim_end t +++ trail /\ blanks trail = true /\
    match last_char (trim_end t) with
    | Some c => blank c = false
    | None => True
    end /\
    match trim_end t with
    | String c _ => exists rest, t = String c rest
    | EmptyString => True
    end.
Proof.
  induction t as [|c t (trail & Ht & Htrail & Hlast & Hfirst)].
  - exists "". repeat split.
  - cbn [trim_end]. destruct (trim_end t) as [|k kept] eqn:Hkept.
    + cbn [String.append] in Ht. subst trail.
      destruct (Js.is_space c) eqn:Hc.
      * exists (String c t). split; [reflexivity|]. split; [|split; exact I].
        unfold blanks. cbn [all_chars]. rewrite <- is_space_blank, Hc. exact Htrail.
      * exists t. split; [reflexivity|]. split; [exact Htrail|]. split.
        -- cbn [last_char]. rewrite <- is_space_blank. exact Hc.
        -- exists t. reflexivity.
    + exists trail. split; [cbn [String.append]; f_equal; exact Ht|].
      split; [exact Htrail|]. split; [exact Hlast|]. exists t. reflexivity.
Qed.

(** [trim] removes the white space at the two ends and nothing else. *)
Lemma trim_trimmed s : trimmed_of s (trim s).
Proof.
  unfold trim.
  destruct (skip_spaces_split s) as (lead & Hs & Hlead & Hfirst).
  destruct (trim_end_split (Js.skip_spaces s)) as (trail & Ht & Htrail & Hlast & Hkeep).
  exists lead, trail. split; [rewrite <- Ht; exact Hs|].
  split; [exact Hlead|]. split; [exact Htrail|]. split; [|exact Hlast].
  destruct (trim_end (Js.skip_spaces s)) as [|c kept]; [exact I|].
  destruct Hkeep as (rest & Hrest). rewrite Hrest in Hfirst. exact Hfirst.
Qed.

(** What the pattern of the final "on dexscreener" matches. *)
Lemma site_suffix_names after : site_suffix after = true -> names_the_site after.
Proof.
  destruct after as [|c rest]; [discriminate|]. unfold site_suffix.
  intros H. apply andb_true_iff in H. destruct H as [Hc H].
  cbv zeta in H. apply andb_true_iff in H. destruct H as [Hon H].
  destruct (skip_spaces_split rest) as (lead1 & Hrest & Hlead1 & _).
  set (s1 := Js.skip_spaces rest) in *.
  destruct (drop_chars 2 s1) as [|c2 rest2] eqn:Hdrop; [discriminate H|].
  apply andb_true_iff in H. destruct H as [Hc2 H].
  apply andb_true_iff in H. destruct H as [Hsite Hend].
  destruct (skip_spaces_split rest2) as (lead2 & Hrest2 & Hlead2 & _).
  set (s3 := Js.skip_spaces rest2) in *.
  apply String.eqb_eq in Hend.
  exists (String c lead1), (take_chars 2 s1), (String c2 lead2), (take_chars 11 s3).
  split; [|split; [discriminate|split; [|split; [|split; [discriminate|split]]]]].
  - cbn [String.append]. f_equal.
    rewrite Hrest at 1. f_equal.
    rewrite (take_drop_chars 2 s1) at 1. f_equal. rewrite Hdrop.
    cbn [String.append]. f_equal. rewrite Hrest2 at 1. f_equal.
    rewrite (take_drop_chars 11 s3) at 1. rewrite Hend. apply append_empty.
  - unfold blanks. cbn [all_chars]. rewrite <- is_space_blank, Hc. exact Hlead1.
  - apply (literal_here_take "on"). exact Hon.
  - unfold blanks. cbn [all_chars]. rewrite <- is_space_blank, Hc2. exact Hlead2.
  - apply (literal_here_take "dexscreener"). exact Hsite.
Qed.

Lemma capture_rest_spec s : forall p,
  capture_rest s = Some p ->
  all_chars (fun c => negb (is_line_terminator c)) p = true /\
  exists after, s = p +++ after /\ (after = "" \/ site_suffix after = true).
Proof.
  induction s as [|c rest IH]; intros p H.
  - injection H as <-. split; [reflexivity|]. exists "". split; [reflexivity|tauto].
  - rewrite capture_rest_unfold in H.
    destruct (site_suffix (String c rest)) eqn:Hsite.
    + injection H as <-. split; [reflexivity|].
      exists (String c rest). split; [reflexivity|tauto].
    + destruct (is_line_terminator c) eqn:Hc; [discriminate|].
      destruct (capture_rest rest) as [p'|]; [|discriminate].
      injection H as <-. destruct (IH p' eq_refl) as (Hp & after & -> & Hafter).
      split.
      * simpl. rewrite Hc, Hp. reflexivity.
      * exists after. split; [reflexivity|exact Hafter].
Qed.

Lemma capture_spec s p :
  capture s = Some p ->
  p <> "" /\ all_chars (fun c => negb (is_line_terminator c)) p = true /\
  exists after, s = p +++ after /\ (after = "" \/ site_suffix after = true).
Proof.
  destruct s as [|c rest]; [discriminate|]. unfold capture.
  destruct (is_line_terminator c) eqn:Hc; [discriminate|].
  destruct (capture_rest rest) as [p'|] eqn:E; [|discriminate].
  intros H. injection H as <-.
  destruct (capture_rest_spec rest p' E) as (Hp & after & -> & Hafter).
  split; [discriminate|]. split.
  - simpl. rewrite Hc, Hp. reflexivity.
  - exists after. split; [reflexivity|exact Hafter].
Qed.

Lemma reaches_the_end_drop i s p :
  reaches_the_end (drop_chars i s) p -> reaches_the_end s p.
Proof.
  intros (before & after & Hs & Hafter).
  exists (take_chars i s +++ before), after. split; [|exact Hafter].
  rewrite append_assoc, <- Hs. apply take_drop_chars.
Qed.

Lemma capture_reaches s p :
  capture s = Some p ->
  p <> "" /\ no_line_break p = true /\ reaches_the_end s p.
Proof.
  intros H. destruct (capture_spec s p H) as (Hne & Hp & after & Hs & Hafter).
  split; [exact Hne|]. split; [rewrite <- no_line_break_model; exact Hp|].
  exists "", after. split; [exact Hs|].
  destruct Hafter as [Hafter|Hafter]; [left; exact Hafter|].
  right. apply site_suffix_names. exact Hafter.
Qed.

Lemma after_spaces_reaches s p :
  after_spaces s = Some p ->
  p <> "" /\ no_line_break p = true /\ reaches_the_end s p.
Proof.
  unfold after_spaces. destruct (literal_here "for" s).
  - destruct (first_some _ _) as [q|] eqn:E.
    + intros H. injection H as <-.
      apply first_some_found in E. destruct E as (u & _ & Hu).
      apply capture_reaches in Hu. destruct Hu as (Hne & Hp & Hreach).
      split; [exact Hne|]. split; [exact Hp|].
      apply (reaches_the_end_drop 3). apply (reaches_the_end_drop u). exact Hreach.
    + apply capture_reaches.
  - apply capture_reaches.
Qed.

Lemma match_query_reaches content : forall p,
  match_query content = Some p ->
  p <> "" /\ no_line_break p = true /\ reaches_the_end content p.
Proof.
  assert (Hhere : forall s p,
             match keyword_here s with
             | Some rest => after_keyword rest
             | None => None
             end = Some p ->
             p <> "" /\ no_line_break p = true /\ reaches_the_end s p).
  { intros s p H. unfold keyword_here in H.
    assert (Hafter : forall k, after_keyword (drop_chars k s) = Some p ->
                               p <> "" /\ no_line_break p = true /\
                               reaches_the_end s p).
    { intros k Hk. unfold after_keyword in Hk.
      apply first_some_found in Hk. destruct Hk as (t & _ & Ht).
      apply after_spaces_reaches in Ht. destruct Ht as (Hne & Hp & Hreach).
      split; [exact Hne|]. split; [exact Hp|].
      apply (reaches_the_end_drop k). apply (reaches_the_end_drop t). exact Hreach. }
    destruct (literal_here "search" s); [apply (Hafter 6%nat H)|].
    destruct (literal_here "find" s); [apply (Hafter 4%nat H)|].
    destruct (literal_here "look for" s); [apply (Hafter 8%nat H)|discriminate]. }
  induction content as [|c content IH]; intros p H; rewrite match_query_unfold in H.
  - destruct (match keyword_here "" with
              | Some rest => after_keyword rest
              | None => None
              end) as [q|] eqn:E; [|discriminate].
    injection H as <-. apply Hhere. exact E.
  - destruct (match keyword_here (String c content) with
              | Some rest => after_keyword rest
              | None => None
              end) as [q|] eqn:E.
    + injection H as <-. apply Hhere. exact E.
    + destruct (IH p H) as (Hne & Hp & Hreach).
      split; [exact Hne|]. split; [exact Hp|].
      apply (reaches_the_end_drop 1 (String c content)). exact Hreach.
Qed.

Lemma new_requests_answered env w r :
  new_requests w (answered env (paced env w) r) = [(now (paced env w), r)].
Proof.
  unfold new_requests. rewrite requests_answered, requests_paced.
  rewrite skipn_app, skipn_all, Nat.sub_diag. reflexivity.
Qed.

(** X15.  What the search handler asks for, on a message of ASCII
    characters: when the pattern matches, the captured text is not
    empty, holds no line break, and runs to the end of the message, or
    to a final "on dexscreener"; the handler sends exactly one request,
    the search for the captured text without the white space at its two
    ends, and whatever the answer it sends no other. *)
Theorem search_query_runs_to_the_end :
  forall host content env w captured,
    ascii_only content = true ->
    match_query content = Some captured ->
    captured <> "" /\
    no_line_break captured = true /\
    reaches_the_end content captured /\
    trimmed_of captured (trim captured) /\
    exists o w',
      searchTokensAction.handler host content env w = (o, w') /\
      new_requests w w' = [(now (paced env w), GET_search (trim captured))].
Proof.
  intros host content env w captured _ Hmatch.
  destruct (match_query_reaches content captured Hmatch) as (Hne & Hp & Hreach).
  split; [exact Hne|]. split; [exact Hp|]. split; [exact Hreach|].
  split; [apply trim_trimmed|].
  unfold searchTokensAction.handler. rewrite Hmatch. unfold bind.
  rewrite search_run. cbn [query].
  destruct (outcome (upstream env (List.length (requests w))
                       (GET_search (trim captured)))) as [[field|]|e];
    cbn [field_result success data succeed fail].
  - destruct (Js.slice0 5 (or_empty field)) as [|p0 ps].
    + eexists; eexists; split; [reflexivity|apply new_requests_answered].
    + unfold lift.
      destruct (map_indexed (searchTokensAction.entry host) 0 (p0 :: ps));
        (eexists; eexists; split; [reflexivity|apply new_requests_answered]).
  - eexists; eexists; split; [reflexivity|apply new_requests_answered].
  - eexists; eexists; split; [reflexivity|apply new_requests_answered].
Qed.

(** X15 at work: the query runs up to the final "on dexscreener", and
    the white space that a capture takes along at the end of a message
    is not part of the request. *)
Lemma search_query_runs_to_the_end_witness :
  (reaches_the_end "Find USDC pairs on dexscreener" "USDC pairs" /\
   exists o w',
     searchTokensAction.handler Fixtures.plain_host "Find USDC pairs on dexscreener"
       Fixtures.down_env Fixtures.fresh = (o, w') /\
     new_requests Fixtures.fresh w'
     = [(now (paced Fixtures.down_env Fixtures.fresh), GET_search "USDC pairs")]) /\
  (trimmed_of "PEPE  " "PEPE" /\
   exists o w',
     searchTokensAction.handler Fixtures.plain_host "Search for PEPE  "
       Fixtures.down_env Fixtures.fresh = (o, w') /\
     new_requests Fixtures.fresh w'
     = [(now (paced Fixtures.down_env Fixtures.fresh), GET_search "PEPE")]).
Proof.
  split.
  - destruct (search_query_runs_to_the_end Fixtures.plain_host
                "Find USDC pairs on dexscreener" Fixtures.down_env Fixtures.fresh
                "USDC pairs" eq_refl eq_refl) as (_ & _ & Hreach & _ & Hrun).
    split; [exact Hreach|exact Hrun].
  - destruct (search_query_runs_to_the_end Fixtures.plain_host
                "Search for PEPE  " Fixtures.down_env Fixtures.fresh
                "PEPE  " eq_refl eq_refl) as (_ & _ & _ & Htrim & Hrun).
    split; [exact Htrim|exact Hrun].
Defined.

Lemma line_terminator_is_space c :
  Js.is_space c = false -> is_line_terminator c = false.
Proof.
  unfold Js.is_space, is_line_terminator. intros H.
  apply orb_false_iff in H. destruct H as [_ H].
  destruct (Nat.eqb_spec (nat_of_ascii c) 10) as [E|_];
    [rewrite E in H; discriminate H|].
  destruct (Nat.eqb_spec (nat_of_ascii c) 13) as [E|_];
    [rewrite E in H; discriminate H|reflexivity].
Qed.

Lemma site_suffix_needs_space c rest :
  Js.is_space c = false -> site_suffix (String c rest) = false.
Proof. intros H. unfold site_suffix. rewrite H. reflexivity. Qed.

Lemma capture_rest_no_space tail :
  (tail = "" \/ site_suffix tail = true) ->
  forall q, all_chars (fun c => negb (Js.is_space c)) q = true -> capture_rest (q +++ tail) = Some q.
Proof.
  intros Htail q. induction q as [|c q IH]; intros Hq.
  - destruct Htail as [->|Hsite]; [reflexivity|].
    destruct tail as [|c rest]; [discriminate|].
    simpl String.append. rewrite capture_rest_unfold, Hsite. reflexivity.
  - simpl in Hq. apply andb_true_iff in Hq.
    destruct Hq as [Hc Hq]. apply negb_true_iff in Hc.
    simpl String.append. rewrite capture_rest_unfold.
    rewrite (site_suffix_needs_space c _ Hc), (line_terminator_is_space c Hc).
    rewrite (IH Hq). reflexivity.
Qed.

Lemma capture_no_space tail q :
  (tail = "" \/ site_suffix tail = true) ->
  q <> "" -> all_chars (fun c => negb (Js.is_space c)) q = true -> capture (q +++ tail) = Some q.
Proof.
  intros Htail Hne Hq. destruct q as [|c q]; [contradiction|].
  simpl in Hq. apply andb_true_iff in Hq.
  destruct Hq as [Hc Hq]. apply negb_true_iff in Hc.
  simpl String.append. unfold capture.
  rewrite (line_terminator_is_space c Hc).
  rewrite (capture_rest_no_space tail Htail q Hq). reflexivity.
Qed.

Lemma count_spaces_no_space q tail :
  q <> "" -> all_chars (fun c => negb (Js.is_space c)) q = true -> count_spaces (q +++ tail) = 0%nat.
Proof.
  intros Hne Hq. destruct q as [|c q]; [contradiction|].
  simpl in Hq. apply andb_true_iff in Hq.
  destruct Hq as [Hc _]. apply negb_true_iff in Hc.
  simpl. rewrite Hc. reflexivity.
Qed.

Lemma no_space_drop i : forall s, all_chars (fun c => negb (Js.is_space c)) s = true ->
  all_chars (fun c => negb (Js.is_space c)) (drop_chars i s) = true.
Proof.
  induction i as [|i IH]; intros [|c s] Hs; try assumption; try reflexivity.
  simpl. apply IH. simpl in Hs.
  apply andb_true_iff in Hs. tauto.
Qed.

Lemma count_spaces_plain s : all_chars (fun c => negb (Js.is_space c)) s = true -> count_spaces s = 0%nat.
Proof.
  destruct s as [|c s]; [reflexivity|]. intros Hs.
  simpl in Hs. apply andb_true_iff in Hs.
  destruct Hs as [Hc _]. apply negb_true_iff in Hc. simpl. rewrite Hc. reflexivity.
Qed.

(** The pattern after its key word and one blank, on a query of one
    word that follows "for". *)
Lemma after_spaces_for tail q :
  (tail = "" \/ site_suffix tail = true) ->
  q <> "" -> all_chars (fun c => negb (Js.is_space c)) q = true ->
  after_spaces ("for " +++ q +++ tail) = Some q.
Proof.
  intros Htail Hne Hq. unfold after_spaces.
  change (literal_here "for" ("for " +++ q +++ tail)) with true. cbv iota.
  change (drop_chars 3 ("for " +++ q +++ tail)) with (String " " (q +++ tail)).
  change (count_spaces (String " " (q +++ tail)))
    with (S (count_spaces (q +++ tail))).
  rewrite (count_spaces_no_space q tail Hne Hq).
  change (countdown 1) with [1%nat]. cbn [first_some].
  change (drop_chars 1 (String " " (q +++ tail))) with (q +++ tail).
  rewrite (capture_no_space tail q Htail Hne Hq). reflexivity.
Qed.

(** The same on a query of one word that ends the message. *)
Lemma after_spaces_word q :
  q <> "" -> all_chars (fun c => negb (Js.is_space c)) q = true -> after_spaces q = Some q.
Proof.
  intros Hne Hq.
  assert (Hcapture : capture q = Some q).
  { rewrite <- (append_empty q) at 1.
    apply capture_no_space; [left; reflexivity|exact Hne|exact Hq]. }
  unfold after_spaces. destruct (literal_here "for" q); [|exact Hcapture].
  rewrite (count_spaces_plain _ (no_space_drop 3 q Hq)).
  change (countdown 0) with (@nil nat). cbn [first_some]. exact Hcapture.
Qed.

(** X16.  A query of one word of ASCII characters is found as written:
    "Search for" and the word, with or without a final "on dexscreener",
    and "Find" and the word, capture exactly the word. *)
Theorem search_finds_one_word :
  forall q,
    q <> "" -> ascii_only q = true -> no_space q = true ->
    match_query ("Search for " +++ q +++ " on dexscreener") = Some q /\
    match_query ("Search for " +++ q) = Some q /\
    match_query ("Find " +++ q) = Some q.
Proof.
  intros q Hne _ Hq. rewrite no_space_model in Hq.
  assert (Hfor : forall tail, (tail = "" \/ site_suffix tail = true) ->
                              after_keyword (" for " +++ q +++ tail) = Some q).
  { intros tail Htail. unfold after_keyword.
    change (count_spaces (" for " +++ q +++ tail)) with 1%nat.
    change (countdown 1) with [1%nat]. cbn [first_some].
    change (drop_chars 1 (" for " +++ q +++ tail)) with ("for " +++ q +++ tail).
    rewrite (after_spaces_for tail q Htail Hne Hq). reflexivity. }
  split; [|split]; rewrite match_query_unfold.
  - change (keyword_here ("Search for " +++ q +++ " on dexscreener"))
      with (Some (" for " +++ q +++ " on dexscreener")).
    cbv beta iota. rewrite Hfor; [reflexivity|right; reflexivity].
  - change (keyword_here ("Search for " +++ q)) with (Some (" for " +++ q)).
    cbv beta iota. rewrite <- (append_empty q) at 1.
    rewrite Hfor; [reflexivity|left; reflexivity].
  - change (keyword_here ("Find " +++ q)) with (Some (" " +++ q)).
    unfold after_keyword.
    change (count_spaces (" " +++ q)) with (S (count_spaces q)).
    rewrite (count_spaces_plain q Hq).
    change (countdown 1) with [1%nat]. cbn [first_some].
    change (drop_chars 1 (" " +++ q)) with q.
    rewrite (after_spaces_word q Hne Hq). reflexivity.
Qed.

Lemma search_finds_one_word_witness :
  match_query "Search for PEPE on dexscreener" = Some "PEPE" /\
  match_query "Search for PEPE" = Some "PEPE" /\
  match_query "Find PEPE" = Some "PEPE".
Proof.
  apply (search_finds_one_word "PEPE"); [discriminate|reflexivity|reflexivity].
Defined.

(** ** The token-information action *)

Lemma substring_take_drop n : forall m s,
  String.substring n m s = take_chars m (drop_chars n s).
Proof.
  induction n as [|n IH]; intros m s.
  - revert s. induction m as [|m IHm]; intros [|c s]; simpl; try reflexivity.
    rewrite IHm. reflexivity.
  - destruct s as [|c s]; simpl; [destruct m; reflexivity|apply IH].
Qed.

Lemma hex_run_take n : forall t,
  hex_run n (take_chars n t) = true ->
  hex_run n t = true /\ (n <= String.length t)%nat.
Proof.
  induction n as [|n IH]; intros t H; [split; [reflexivity|lia]|].
  destruct t as [|c t]; [discriminate H|].
  simpl in H. apply andb_true_iff in H. destruct H as [Hc H].
  destruct (IH t H) as [Hrun Hlen]. split.
  - simpl. rewrite Hc, Hrun. reflexivity.
  - simpl. lia.
Qed.

Lemma occurs_in_drop i s p : occurs_in (drop_chars i s) p -> occurs_in s p.
Proof.
  intros (before & after & Hs). exists (take_chars i s +++ before), after.
  rewrite append_assoc, <- Hs. apply take_drop_chars.
Qed.

Lemma address_here_spec s :
  String.prefix "0x" s = true ->
  hex_run 40 (String.substring 2 40 s) = true ->
  address_shaped (String.substring 0 42 s) = true /\
  occurs_in s (String.substring 0 42 s).
Proof.
  intros Hprefix Hhex.
  rewrite substring_take_drop in Hhex. rewrite substring_take_drop.
  destruct s as [|c1 s1]; [discriminate Hprefix|].
  destruct s1 as [|c2 t].
  { change (String.prefix "0x" (String c1 ""))
      with (if Ascii.ascii_dec "0" c1 then false else false) in Hprefix.
    destruct (Ascii.ascii_dec "0" c1); discriminate Hprefix. }
  change (drop_chars 2 (String c1 (String c2 t))) with t in Hhex.
  destruct (hex_run_take 40 t Hhex) as [_ Hlen].
  change (drop_chars 0 (String c1 (String c2 t))) with (String c1 (String c2 t)).
  change (take_chars 42 (String c1 (String c2 t)))
    with (String c1 (String c2 (take_chars 40 t))).
  split.
  - unfold address_shaped.
    change (drop_chars 2 (String c1 (String c2 (take_chars 40 t))))
      with (take_chars 40 t).
    rewrite Hhex.
    change (String.length (String c1 (String c2 (take_chars 40 t))))
      with (S (S (String.length (take_chars 40 t)))).
    rewrite length_take_chars, Nat.min_l by exact Hlen.
    replace (String.prefix "0x" (String c1 (String c2 (take_chars 40 t))))
      with true; [reflexivity|].
    change (String.prefix "0x" (String c1 (String c2 t)))
      with (if Ascii.ascii_dec "0" c1
            then if Ascii.ascii_dec "x" c2 then String.prefix "" t else false
            else false) in Hprefix.
    change (String.prefix "0x" (String c1 (String c2 (take_chars 40 t))))
      with (if Ascii.ascii_dec "0" c1
            then if Ascii.ascii_dec "x" c2
                 then String.prefix "" (take_chars 40 t) else false
            else false).
    destruct (Ascii.ascii_dec "0" c1); [|discriminate Hprefix].
    destruct (Ascii.ascii_dec "x" c2); [|discriminate Hprefix].
    symmetry. apply prefix_empty.
  - exists "", (drop_chars 40 t). cbn [String.append].
    rewrite <- (take_drop_chars 40 t). reflexivity.
Qed.

(** What the address pattern finds is [0x] and forty hexadecimal digits,
    standing in the message. *)
Lemma match_address_spec content : forall a,
  match_address content = Some a ->
  address_shaped a = true /\ occurs_in content a.
Proof.
  induction content as [|c content IH]; intros a H; [discriminate|].
  change (match_address (String c content))
    with (if andb (String.prefix "0x" (String c content))
                  (hex_run 40 (String.substring 2 40 (String c content)))
          then Some (String.substring 0 42 (String c content))
          else match_address content) in H.
  destruct (andb _ _) eqn:Hhere.
  - apply andb_true_iff in Hhere. destruct Hhere as [Hprefix Hhex].
    replace a with (String.substring 0 42 (String c content)) by congruence.
    apply address_here_spec; assumption.
  - destruct (IH a H) as [Hshape Hocc]. split; [exact Hshape|].
    apply (occurs_in_drop 1 (String c content)). exact Hocc.
Qed.

(** X17.  What the token-information handler sends: without an address
    in the message ([0x] and forty hexadecimal digits) it answers with
    its guidance and leaves the client untouched; with one, it sends
    exactly one request, for the pairs of the leftmost such address, and
    when that request is rejected it answers, without data, with the
    error text of the service. *)
Theorem token_info_requests :
  forall host content env w,
    exists o w',
      getTokenInfo_handler host content env w = (o, w') /\
      match match_address content with
      | None =>
          w' = w /\ exists r, o = Returned r /\ result_data r = None
      | Some a =>
          address_shaped a = true /\
          occurs_in content a /\
          new_requests w w' = [(now (paced env w), GET_tokens a)] /\
          forall e,
            outcome (upstream env (List.length (requests w)) (GET_tokens a)) = inr e ->
            exists r,
              o = Returned r /\ result_data r = None /\
              text r = "Failed to get token info: "
                       +++ preferred_message e "Failed to get token pairs"
      end.
Proof.
  intros host content env w. unfold getTokenInfo_handler.
  destruct (match_address content) as [a|] eqn:Hmatch.
  - destruct (match_address_spec content a Hmatch) as [Hshape Hocc].
    unfold bind. rewrite getTokenPairs_run. cbn [tokenAddress].
    destruct (outcome (upstream env (List.length (requests w)) (GET_tokens a)))
      as [[field|]|e0]; cbn [field_result success data error succeed fail].
    + destruct (or_empty field) as [|p0 rest].
      * eexists; eexists; split; [reflexivity|].
        split; [exact Hshape|]. split; [exact Hocc|].
        split; [apply new_requests_answered|discriminate].
      * unfold lift. eexists; eexists; split; [reflexivity|].
        split; [exact Hshape|]. split; [exact Hocc|].
        split; [apply new_requests_answered|discriminate].
    + eexists; eexists; split; [reflexivity|].
      split; [exact Hshape|]. split; [exact Hocc|].
      split; [apply new_requests_answered|discriminate].
    + eexists; eexists; split; [reflexivity|].
      split; [exact Hshape|]. split; [exact Hocc|].
      split; [apply new_requests_answered|].
      intros e He. injection He as <-. eexists. split; [reflexivity|].
      split; [reflexivity|]. cbn [text template_text].
      rewrite error_text_preferred. reflexivity.
  - eexists; eexists; split; [reflexivity|]. split; [reflexivity|].
    eexists. split; reflexivity.
Qed.

(** ** The trending action *)





(** ** The new-pairs action *)

Lemma newpairs_slots_values env profiles : forall n,
  Forall (fun slot => exists p ls,
                        slot = Value p /\ Pair.labels p = Some ls /\ In "new" ls)
         (filter Js.not_null (newpairs_slots env n profiles)).
Proof.
  induction profiles as [|p ps IH]; intros n; simpl; [constructor|].
  unfold newpairs_slot.
  destruct (lookup_answer env n (Profile.chainId p) (Profile.tokenAddress p))
    as [[[|p0 others]|]|e]; simpl; try apply IH.
  constructor; [|apply IH].
  exists (Pair.with_labels p0 (ensure_new (Pair.labels p0))),
         (ensure_new (Pair.labels p0)).
  split; [reflexivity|]. split; [reflexivity|].
  unfold ensure_new. destruct (Pair.labels p0) as [old|]; [|left; reflexivity].
  destruct (Js.includes "new" old) eqn:Hinc.
  - apply includes_In. exact Hinc.
  - apply in_or_app. right. left. reflexivity.
Qed.

Lemma map_indexed_values host minutes clock slots i :
  Forall (fun slot : Slot DexScreenerPair => exists p, slot = Value p) slots ->
  exists lines,
    map_indexed (getNewPairsAction.entry host minutes clock) i slots = Returned lines.
Proof.
  intros H. revert i. induction H as [|slot rest (p & ->) _ IH]; intros i; simpl.
  - exists []. reflexivity.
  - destruct (IH (S i)) as (lines & ->). eexists. reflexivity.
Qed.

(** X19.  The new-pairs handler always answers: whatever the message and
    the upstream, it returns under its own action name and never throws,
    because a result of [getNewPairs] holds pairs only; and every pair of
    the data it returns carries the label "new", so every entry of the
    list shows the marker. *)
Theorem new_pairs_handler_always_answers :
  forall host minutes content env w,
    exists r w',
      getNewPairsAction.handler host minutes content env w = (Returned r, w') /\
      action r = getNewPairsAction.name /\
      forall pairs,
        result_data r = Some pairs ->
        Forall (fun slot =>
                  exists p, slot = Value p /\
                            getNewPairsAction.new_marker (Pair.labels p) = "🆕")
               pairs.
Proof.
  intros host minutes content env w.
  unfold getNewPairsAction.handler. cbv zeta. unfold bind at 1.
  rewrite getNewPairs_run.
  destruct (outcome (upstream env (List.length (requests w)) GET_token_profiles_latest))
    as [d|e]; cbv zeta; cbn [success data succeed fail].
  - set (pairs := filter Js.not_null _).
    assert (Hpairs : Forall (fun slot => exists p ls,
                               slot = Value p /\ Pair.labels p = Some ls /\
                               In "new" ls) pairs)
      by apply newpairs_slots_values.
    unfold bind, clock, lift.
    assert (Hvalues : Forall (fun slot : Slot DexScreenerPair =>
                                exists p, slot = Value p) pairs).
    { eapply Forall_impl; [|exact Hpairs].
      intros slot (p & ls & Hp & _). exists p. exact Hp. }
    match goal with
    | |- context [map_indexed (getNewPairsAction.entry host minutes ?c) 0%nat pairs] =>
        destruct (map_indexed_values host minutes c pairs 0%nat Hvalues)
          as (lines & Hlines)
    end.
    rewrite Hlines.
    eexists; eexists; split; [reflexivity|]. split; [reflexivity|].
    intros found Hfound. injection Hfound as <-.
    eapply Forall_impl; [|exact Hpairs].
    intros slot (p & ls & Hp & Hls & Hin). exists p. split; [exact Hp|].
    unfold getNewPairsAction.new_marker. rewrite Hls.
    apply includes_In in Hin. rewrite Hin. reflexivity.
  - eexists; eexists; split; [reflexivity|]. split; [reflexivity|]. discriminate.
Qed.

(** ** The chain-pairs action *)

Lemma find_chain_validate content :
  getPairsByChainAction.validate content
  = match getPairsByChainAction.find_chain content with
    | Some _ => true
    | None => false
    end.
Proof.
  unfold getPairsByChainAction.validate, getPairsByChainAction.find_chain.
  induction getPairsByChainAction.chains as [|c cs IH]; simpl; [reflexivity|].
  destruct (str_includes c (Js.toLowerCase content)); [reflexivity|exact IH].
Qed.

(** X20.  [validate] and the handler of the chain-pairs action agree: a
    message that [validate] accepts never gets the "Please specify a
    blockchain" answer.  The handler then sends exactly one request, a
    search for the first chain of the supported list, in the order of
    that list, whose name stands in the lower-cased message; a message
    that [validate] rejects gets the guidance and nothing is sent. *)
Theorem chain_pairs_follow_validate :
  forall host content env w,
    exists o w',
      getPairsByChainAction.handler host content env w = (o, w') /\
      if getPairsByChainAction.validate content
      then exists skipped chain later,
             getPairsByChainAction.chains = skipped ++ chain :: later /\
             str_includes chain (Js.toLowerCase content) = true /\
             Forall (fun c => str_includes c (Js.toLowerCase content) = false)
                    skipped /\
             new_requests w w' = [(now (paced env w), GET_search chain)]
      else o = Returned getPairsByChainAction.guidance /\ w' = w.
Proof.
  intros host content env w. rewrite find_chain_validate.
  unfold getPairsByChainAction.handler.
  pose proof (find_first (fun c => str_includes c (Js.toLowerCase content))
                getPairsByChainAction.chains) as Hfind.
  fold (getPairsByChainAction.find_chain content) in Hfind.
  destruct (getPairsByChainAction.find_chain content) as [c0|].
  - destruct Hfind as (skipped & later & Hsplit & Hin & Hskipped).
    assert (Hlog : forall w',
               w' = answered env (paced env w) (GET_search c0) ->
               exists skipped chain1 later,
                 getPairsByChainAction.chains = skipped ++ chain1 :: later /\
                 str_includes chain1 (Js.toLowerCase content) = true /\
                 Forall (fun c => str_includes c (Js.toLowerCase content) = false)
                        skipped /\
                 new_requests w w' = [(now (paced env w), GET_search chain1)]).
    { intros w' ->. exists skipped, c0, later.
      repeat split; try assumption. apply new_requests_answered. }
    cbv zeta. unfold bind at 1. rewrite getPairsByChain_run. cbn [chain].
    destruct (outcome (upstream env (List.length (requests w)) (GET_search c0)))
      as [[field|]|e]; cbn [field_result]; cbv zeta; cbn [success data succeed fail].
    + unfold bind, lift.
      destruct (map_indexed _ _ _);
        (eexists; eexists; split; [reflexivity|]); apply (Hlog _ eq_refl).
    + eexists; eexists; split; [reflexivity|]. apply (Hlog _ eq_refl).
    + eexists; eexists; split; [reflexivity|]. apply (Hlog _ eq_refl).
  - eexists; eexists; split; [reflexivity|]. split; reflexivity.
Qed.

Lemma supported_chains_are_lower_case chain :
  In chain getPairsByChainAction.chains -> Js.toLowerCase chain = chain.
Proof.
  unfold getPairsByChainAction.chains. simpl.
  intros H. repeat (destruct H as [<-|H]; [reflexivity|]). contradiction.
Qed.

Lemma prefix_split a : forall s,
  String.prefix a s = true -> s = a +++ drop_chars (String.length a) s.
Proof.
  intros s H. pose proof (take_drop_chars (String.length a) s) as E.
  rewrite (prefix_take a s H) in E. exact E.
Qed.

(** [hay.includes(needle)] says that [needle] stands in [hay]. *)
Lemma str_includes_occurs needle hay :
  str_includes needle hay = true <-> occurs_in hay needle.
Proof.
  split.
  - induction hay as [|c hay IH]; intros H.
    + cbn [str_includes] in H. rewrite orb_false_r in H.
      exists "", (drop_chars (String.length needle) ""). apply prefix_split. exact H.
    + change (str_includes needle (String c hay))
        with (orb (String.prefix needle (String c hay)) (str_includes needle hay)) in H.
      apply orb_true_iff in H. destruct H as [H|H].
      * exists "", (drop_chars (String.length needle) (String c hay)).
        apply prefix_split. exact H.
      * destruct (IH H) as (before & after & ->).
        exists (String c before), after. reflexivity.
  - intros (before & after & ->). induction before as [|c before IH].
    + apply (str_includes_at needle 0).
      change (String.prefix needle (needle +++ after) = true). apply prefix_append.
    + change (str_includes needle (String c before +++ needle +++ after))
        with (orb (String.prefix needle (String c (before +++ needle +++ after)))
                  (str_includes needle (before +++ needle +++ after))).
      rewrite IH. apply orb_true_r.
Qed.

Lemma str_includes_absent needle hay :
  str_includes needle hay = false -> ~ occurs_in hay needle.
Proof.
  intros H Hocc. apply str_includes_occurs in Hocc. congruence.
Qed.

(** The criterion that the handler reads is the one the message asks
    for. *)
Lemma sort_criterion_stated content :
  criterion_as_stated content (getPairsByChainAction.sort_criterion content).
Proof.
  unfold getPairsByChainAction.sort_criterion.
  destruct (str_includes "liquid" content) eqn:Hliquid;
    [apply str_includes_occurs; exact Hliquid|].
  apply str_includes_absent in Hliquid.
  destruct (str_includes "gain" content) eqn:Hgain;
    [split; [exact Hliquid|left; apply str_includes_occurs; exact Hgain]|].
  destruct (str_includes "change" content) eqn:Hchange;
    [split; [exact Hliquid|right; apply str_includes_occurs; exact Hchange]|].
  apply str_includes_absent in Hgain. apply str_includes_absent in Hchange.
  cbn [orb].
  destruct (str_includes "active" content) eqn:Hactive;
    [repeat (split; [assumption|]); left; apply str_includes_occurs; exact Hactive|].
  destruct (str_includes "trades" content) eqn:Htrades;
    [repeat (split; [assumption|]); right; apply str_includes_occurs; exact Htrades|].
  apply str_includes_absent in Hactive. apply str_includes_absent in Htrades.
  cbn [orb]. repeat split; assumption.
Qed.

(** X21.  The data of a chain-pairs answer: at most ten pairs, all of
    one of the eight supported chains whose name stands in the
    lower-cased message, ordered descending by the criterion that the
    message asks for: the USD liquidity when "liquid" stands in it as
    written, else the 24h price change for "gain" or "change", else the
    24h buys plus sells (added as doubles) for "active" or "trades", else
    the 24h volume; a missing figure counts as 0. *)
Theorem chain_pairs_data_is_ranked :
  forall host content env w r w' pairs,
    getPairsByChainAction.handler host content env w = (Returned r, w') ->
    result_data r = Some pairs ->
    exists chain key,
      In chain ["ethereum"; "bsc"; "polygon"; "arbitrum"; "optimism"; "base";
                "solana"; "avalanche"] /\
      occurs_in (Js.toLowerCase content) chain /\
      criterion_as_stated content key /\
      (List.length pairs <= 10)%nat /\
      Forall (fun p => Js.toLowerCase (Pair.chainId p) = chain) pairs /\
      descending key pairs.
Proof.
  intros host content env w r w' pairs Hrun Hdata.
  unfold getPairsByChainAction.handler in Hrun.
  destruct (getPairsByChainAction.find_chain content) as [c0|] eqn:Hchain;
    [|injection Hrun as <- _; discriminate Hdata].
  exists c0, (getPairsByChainAction.sort_criterion content).
  destruct (find_some _ _ Hchain) as [Hsupported Hstands].
  split; [exact Hsupported|].
  split; [apply str_includes_occurs; exact Hstands|].
  split; [apply sort_criterion_stated|].
  assert (Hlower : Js.toLowerCase c0 = c0)
    by (apply supported_chains_are_lower_case; exact Hsupported).
  cbv zeta in Hrun. unfold bind at 1 in Hrun.
  rewrite getPairsByChain_run in Hrun. cbn [chain sortBy chain_limit] in Hrun.
  destruct (outcome (upstream env (List.length (requests w)) (GET_search c0)))
    as [[field|]|e]; cbn [field_result] in Hrun; cbv zeta in Hrun;
    cbn [success data succeed fail] in Hrun;
    [|injection Hrun as <- _; discriminate Hdata
     |injection Hrun as <- _; discriminate Hdata].
  change (10 =? 0) with false in Hrun. cbv iota in Hrun.
  unfold bind, lift in Hrun.
  destruct (map_indexed _ _ _) as [lines|e]; [|discriminate Hrun].
  injection Hrun as <- _. cbn [result_data] in Hdata. injection Hdata as <-.
  rewrite slice0_positive by lia.
  set (key := getPairsByChainAction.sort_criterion content).
  split; [|split].
  - rewrite length_firstn. apply Nat.le_min_l.
  - apply Forall_firstn.
    eapply Permutation_Forall;
      [symmetry; apply (sort_perm (sort_metric key))|].
    apply Forall_forall. intros p Hp. apply filter_In in Hp.
    destruct Hp as [_ Hp]. apply String.eqb_eq in Hp. rewrite Hp. exact Hlower.
  - apply StronglySorted_firstn. apply sort_descending.
Qed.

(** X21 at work: a message that asks for the most liquid pairs of
    Ethereum gets the three pairs of that chain, the most liquid one
    first. *)
Lemma chain_pairs_data_is_ranked_witness :
  exists r w',
    getPairsByChainAction.handler Fixtures.plain_host
      "What are the most liquid pairs on Ethereum?" Fixtures.chain_env Fixtures.fresh
    = (Returned r, w') /\
    result_data r = Some [Fixtures.pepe; Fixtures.weth; Fixtures.shib] /\
    occurs_in "what are the most liquid pairs on ethereum?" "ethereum" /\
    descending ByLiquidity [Fixtures.pepe; Fixtures.weth; Fixtures.shib].
Proof.
  eexists; eexists. split; [vm_compute; reflexivity|].
  split; [reflexivity|].
  destruct (chain_pairs_data_is_ranked Fixtures.plain_host
              "What are the most liquid pairs on Ethereum?"
              Fixtures.chain_env Fixtures.fresh _ _
              [Fixtures.pepe; Fixtures.weth; Fixtures.shib]
              ltac:(vm_compute; reflexivity) eq_refl)
    as (chain & key & _ & _ & Hkey & _ & _ & Hsorted).
  split; [exists "what are the most liquid pairs on ", "?"; reflexivity|].
  assert (Hliquid : occurs_in "What are the most liquid pairs on Ethereum?" "liquid")
    by (exists "What are the most ", " pairs on Ethereum?"; reflexivity).
  destruct key; cbn [criterion_as_stated] in Hkey;
    try (exfalso; apply (proj1 Hkey); exact Hliquid).
  exact Hsorted.
Defined.

(** ** The boosted-tokens and the token-profiles actions *)

Lemma listing_run {A} (r : Request) (k : payload r -> list A) fallback env w :
  try_catch (rateLimit ;; response <- api_get r ;; ret (succeed (k response)))
            (on_error fallback) env w =
  (Returned
     (match outcome (upstream env (List.length (requests w)) r) with
      | inl d => succeed (k d)
      | inr e => fail (error_text e fallback)
      end),
   answered env (paced env w) r).
Proof. exact (single_request_run r (fun d => succeed (k d)) fallback env w). Qed.

(** X22.  The boosted-tokens handler sends exactly one request: to the
    top-boosts endpoint when "top" stands anywhere in the lower-cased
    message, to the latest-boosts endpoint otherwise.  When the endpoint
    answers with a listing and the handler returns, its data are the
    first ten tokens of the listing in their order, and none when the
    listing is empty; on a rejected request the handler returns the
    error text of the service and no data. *)
Theorem boosted_handler_lists_first_ten :
  forall host content env w,
    exists o w',
      getBoostedTokensAction.handler host content env w = (o, w') /\
      (occurs_in (Js.toLowerCase content) "top" ->
       new_requests w w' = [(now (paced env w), GET_token_boosts_top)] /\
       lists_first 10 "Failed to get boosted tokens: "
         "Failed to get top boosted tokens"
         (outcome (upstream env (List.length (requests w)) GET_token_boosts_top)) o) /\
      (~ occurs_in (Js.toLowerCase content) "top" ->
       new_requests w w' = [(now (paced env w), GET_token_boosts_latest)] /\
       lists_first 10 "Failed to get boosted tokens: "
         "Failed to get latest boosted tokens"
         (outcome (upstream env (List.length (requests w)) GET_token_boosts_latest)) o).
Proof.
  intros host content env w. unfold getBoostedTokensAction.handler. cbv zeta.
  destruct (str_includes "top" (Js.toLowerCase content)) eqn:Htop; unfold bind.
  - apply str_includes_occurs in Htop.
    unfold getTopBoostedTokens.
    rewrite (listing_run GET_token_boosts_top (@as_array DexScreenerBoostedToken)).
    unfold lists_first.
    destruct (outcome (upstream env (List.length (requests w)) GET_token_boosts_top))
      as [d|e]; cbn [success data error succeed fail].
    + rewrite slice0_positive by lia. change (Z.to_nat 10) with 10%nat.
      destruct (firstn 10 (as_array d));
        (eexists; eexists; split; [reflexivity|]);
        (split; [|intros Hno; contradiction (Hno Htop)]); intros _;
        (split; [apply new_requests_answered|]);
        intros r Hr; injection Hr as <-; reflexivity.
    + eexists; eexists; split; [reflexivity|].
      split; [|intros Hno; contradiction (Hno Htop)]. intros _.
      split; [apply new_requests_answered|].
      eexists. split; [reflexivity|]. split; [reflexivity|].
      cbn [text template_text]. rewrite error_text_preferred. reflexivity.
  - apply str_includes_absent in Htop.
    unfold getLatestBoostedTokens.
    rewrite (listing_run GET_token_boosts_latest (@as_array DexScreenerBoostedToken)).
    unfold lists_first.
    destruct (outcome (upstream env (List.length (requests w)) GET_token_boosts_latest))
      as [d|e]; cbn [success data error succeed fail].
    + rewrite slice0_positive by lia. change (Z.to_nat 10) with 10%nat.
      destruct (firstn 10 (as_array d));
        (eexists; eexists; split; [reflexivity|]);
        (split; [intros Hyes; contradiction (Htop Hyes)|]); intros _;
        (split; [apply new_requests_answered|]);
        intros r Hr; injection Hr as <-; reflexivity.
    + eexists; eexists; split; [reflexivity|].
      split; [intros Hyes; contradiction (Htop Hyes)|]. intros _.
      split; [apply new_requests_answered|].
      eexists. split; [reflexivity|]. split; [reflexivity|].
      cbn [text template_text]. rewrite error_text_preferred. reflexivity.
Qed.

(** X22 at work: a message with "top" in it, two promoted tokens in the
    listing; the handler returns both, and asked the top-boosts
    endpoint. *)
Lemma boosted_handler_lists_first_ten_witness :
  exists r w',
    getBoostedTokensAction.handler Fixtures.plain_host "Show me the TOP boosted tokens"
      Fixtures.trending_env Fixtures.fresh = (Returned r, w') /\
    map snd (new_requests Fixtures.fresh w') = [GET_token_boosts_top] /\
    result_data r = Some Fixtures.two_promoted.
Proof.
  destruct (boosted_handler_lists_first_ten Fixtures.plain_host
              "Show me the TOP boosted tokens" Fixtures.trending_env Fixtures.fresh)
    as (o & w' & Hrun & Htop & _).
  destruct Htop as [Hsent Hlisted];
    [exists "show me the ", " boosted tokens"; reflexivity|].
  assert (Hreturned : exists r, o = Returned r).
  { assert (Ho : o = fst (getBoostedTokensAction.handler Fixtures.plain_host
                            "Show me the TOP boosted tokens"
                            Fixtures.trending_env Fixtures.fresh))
      by (rewrite Hrun; reflexivity).
    rewrite Ho. eexists. vm_compute. reflexivity. }
  destruct Hreturned as (r & ->).
  exists r, w'. split; [exact Hrun|]. split; [rewrite Hsent; reflexivity|].
  apply (Hlisted r eq_refl).
Defined.

(** X23.  The token-profiles handler sends exactly one request, for the
    latest profiles, whatever the message.  When the endpoint answers
    with a listing and the handler returns, its data are the first five
    profiles of the listing in their order, and none when the listing is
    empty; on a rejected request the handler returns the error text of
    the service and no data. *)
Theorem profiles_handler_lists_first_five :
  forall env w,
    exists o w',
      getTokenProfilesAction.handler env w = (o, w') /\
      new_requests w w' = [(now (paced env w), GET_token_profiles_latest)] /\
      lists_first 5 "Failed to get token profiles: "
        "Failed to get latest token profiles"
        (outcome (upstream env (List.length (requests w)) GET_token_profiles_latest)) o.
Proof.
  intros env w. unfold getTokenProfilesAction.handler, bind.
  unfold getLatestTokenProfiles.
  rewrite (listing_run GET_token_profiles_latest (@as_array DexScreenerProfile)).
  unfold lists_first.
  destruct (outcome (upstream env (List.length (requests w)) GET_token_profiles_latest))
    as [d|e]; cbn [success data error succeed fail].
  - rewrite slice0_positive by lia. change (Z.to_nat 5) with 5%nat.
    destruct (firstn 5 (as_array d));
      (eexists; eexists; split; [reflexivity|]);
      (split; [apply new_requests_answered|]);
      intros r Hr; injection Hr as <-; reflexivity.
  - eexists; eexists; split; [reflexivity|].
    split; [apply new_requests_answered|].
    eexists. split; [reflexivity|]. split; [reflexivity|].
    cbn [text template_text]. rewrite error_text_preferred. reflexivity.
Qed.

(** X23 at work: two profiles in the listing; the handler returns both,
    and on an upstream that is down it returns the error text. *)
Lemma profiles_handler_lists_first_five_witness :
  (exists r w',
     getTokenProfilesAction.handler Fixtures.newpairs_env Fixtures.fresh
       = (Returned r, w') /\
     map snd (new_requests Fixtures.fresh w') = [GET_token_profiles_latest] /\
     result_data r = Some [Fixtures.profile "ethereum" "0x123";
                           Fixtures.profile "ethereum" "0x456"]) /\
  (exists r w',
     getTokenProfilesAction.handler Fixtures.down_env Fixtures.fresh
       = (Returned r, w') /\
     result_data r = None /\
     text r = "Failed to get token profiles: Network Error").
Proof.
  split.
  - destruct (profiles_handler_lists_first_five Fixtures.newpairs_env Fixtures.fresh)
      as (o & w' & Hrun & Hsent & Hlisted).
    assert (Hreturned : exists r, o = Returned r).
    { assert (Ho : o = fst (getTokenProfilesAction.handler
                              Fixtures.newpairs_env Fixtures.fresh))
        by (rewrite Hrun; reflexivity).
      rewrite Ho. eexists. vm_compute. reflexivity. }
    destruct Hreturned as (r & ->).
    exists r, w'. split; [exact Hrun|]. split; [rewrite Hsent; reflexivity|].
    apply (Hlisted r eq_refl).
  - destruct (profiles_handler_lists_first_five Fixtures.down_env Fixtures.fresh)
      as (o & w' & Hrun & _ & (r & -> & Hdata & Htext)).
    exists r, w'. split; [exact Hrun|]. split; [exact Hdata|exact Htext].
Defined.

(** ** The exported list *)

Ltac by_cases_of_the_run :=
  repeat match goal with
         | |- context [match ?x with _ => _ end] =>
             lazymatch x with
             | context [match _ with _ => _ end] => fail
             | _ => destruct x
             end
         end;
  intros Hrun; inversion Hrun; reflexivity.

(** X24.  The seven exported actions have pairwise different names, and
    every answer that a handler returns, on whichever of its paths,
    carries the name of its own action. *)
Theorem actions_answer_under_their_names :
  forall host minutes,
    NoDup (map Action.name (dexscreenerActions host minutes)) /\
    forall a content env w answer w',
      In a (dexscreenerActions host minutes) ->
      Action.handler a content env w = (Returned answer, w') ->
      fst answer = Action.name a.
Proof.
  intros host minutes. split.
  - simpl. repeat constructor; simpl; intuition discriminate.
  - intros a content env w answer w' Hin.
    simpl in Hin.
    repeat (destruct Hin as [<-|Hin]); try contradiction;
      cbn [Action.handler Action.name]; unfold answer_of.
    + unfold searchTokensAction.handler, bind, lift, ret. by_cases_of_the_run.
    + unfold getTokenInfoAction.handler, getTokenInfo_handler, token_info_reply,
        outcome_bind, read, bind, lift, ret.
      by_cases_of_the_run.
    + unfold getTrendingAction.handler, getTrending_handler, trending_answer,
        bind, lift, ret.
      by_cases_of_the_run.
    + unfold getNewPairsAction.handler, bind, lift, ret, clock. by_cases_of_the_run.
    + unfold getPairsByChainAction.handler, bind, lift, ret. by_cases_of_the_run.
    + unfold getBoostedTokensAction.handler, bind, lift, ret. by_cases_of_the_run.
    + unfold getTokenProfilesAction.handler, bind, lift, ret. by_cases_of_the_run.
Qed.

(** X25.  Six of the seven [validate] predicates read the message in
    lower case only, so two messages that differ in the case of their
    letters are accepted or rejected alike.  The token-information
    action is the exception: it looks for "info", "details" or "price"
    in the message as written, and rejects a message in capitals. *)
Theorem validate_ignores_case_but_for_token_info :
  forall host minutes,
    (forall a c1 c2,
       In a (dexscreenerActions host minutes) ->
       Action.name a <> getTokenInfoAction.name ->
       Js.toLowerCase c1 = Js.toLowerCase c2 ->
       Action.validate a c1 = Action.validate a c2) /\
    getTokenInfoAction.validate "token info" = true /\
    getTokenInfoAction.validate "TOKEN INFO" = false.
Proof.
  intros host minutes. split; [|split; reflexivity].
  intros a c1 c2 Hin Hname Hcase. simpl in Hin.
  repeat (destruct Hin as [<-|Hin]); try contradiction;
    cbn [Action.validate Action.name] in *;
    try (contradiction Hname; reflexivity);
    unfold searchTokensAction.validate, getTrendingAction.validate,
      getNewPairsAction.validate, getPairsByChainAction.validate,
      getBoostedTokensAction.validate, getTokenProfilesAction.validate;
    rewrite Hcase; reflexivity.
Qed.

(** ** Handlers on pairs that are typed as declared *)

Lemma Forall_slice0 {A} (P : A -> Prop) k xs :
  Forall P xs -> Forall P (Js.slice0 k xs).
Proof. intros H. unfold Js.slice0. apply Forall_firstn. exact H. Qed.

Lemma Forall_filter {A} (P : A -> Prop) f xs :
  Forall P xs -> Forall P (filter f xs).
Proof.
  intros H. apply Forall_forall. intros x Hx. apply filter_In in Hx.
  destruct Hx as [Hx _]. eapply Forall_forall; eassumption.
Qed.

Lemma search_entries_return host ps :
  Forall carries_windows ps ->
  forall i, exists lines,
    map_indexed (searchTokensAction.entry host) i ps = Returned lines.
Proof.
  induction 1 as [|p ps (Hchange & Hvol & _) _ IH]; intros i.
  - exists []. reflexivity.
  - cbn [map_indexed]. destruct (IH (S i)) as (lines & ->).
    unfold searchTokensAction.entry.
    destruct (Pair.priceChange p) as [change|]; [|contradiction].
    destruct (Pair.volume p) as [vol|]; [|contradiction].
    cbn [read outcome_bind]. eexists. reflexivity.
Qed.

Lemma chain_entries_return host key ps :
  Forall carries_windows ps ->
  forall i, exists lines,
    map_indexed (getPairsByChainAction.entry host key) i ps = Returned lines.
Proof.
  induction 1 as [|p ps (Hchange & Hvol & Htxns) _ IH]; intros i.
  - exists []. reflexivity.
  - cbn [map_indexed]. destruct (IH (S i)) as (lines & ->).
    unfold getPairsByChainAction.entry, getPairsByChainAction.metric.
    destruct (Pair.priceChange p) as [change|]; [|contradiction].
    destruct (Pair.volume p) as [vol|]; [|contradiction].
    destruct (Pair.txns p) as [t|]; [|contradiction].
    destruct key; cbn [read outcome_bind]; eexists; reflexivity.
Qed.

(** X26.  On pairs typed as the interface declares (price change,
    volume and transaction windows present) the search, the
    token-information and the chain-pairs handler always answer: for
    every message and every behaviour of the upstream they return and do
    not throw. *)
Theorem handlers_answer_on_typed_pairs :
  forall host content env w,
    typed_pairs env ->
    (exists r w',
       searchTokensAction.handler host content env w = (Returned r, w')) /\
    (exists r w',
       getTokenInfo_handler host content env w = (Returned r, w')) /\
    (exists r w',
       getPairsByChainAction.handler host content env w = (Returned r, w')).
Proof.
  intros host content env w [Hsearch Htokens]. split; [|split].
  - unfold searchTokensAction.handler.
    destruct (match_query content) as [captured|];
      [|eexists; eexists; reflexivity].
    unfold bind. rewrite search_run. cbn [query].
    destruct (outcome (upstream env (List.length (requests w))
                         (GET_search (trim captured)))) as [[field|]|e] eqn:Hd;
      cbn [field_result success data succeed fail];
      [|eexists; eexists; reflexivity|eexists; eexists; reflexivity].
    assert (Htyped : Forall carries_windows (Js.slice0 5 (or_empty field))).
    { apply Forall_slice0. destruct field as [ds|]; [|constructor].
      apply (Hsearch _ _ _ Hd). }
    destruct (Js.slice0 5 (or_empty field)) as [|p0 ps];
      [eexists; eexists; reflexivity|].
    unfold lift.
    destruct (search_entries_return host _ Htyped 0%nat) as (lines & ->).
    eexists; eexists; reflexivity.
  - unfold getTokenInfo_handler.
    destruct (match_address content) as [a|]; [|eexists; eexists; reflexivity].
    unfold bind. rewrite getTokenPairs_run. cbn [tokenAddress].
    destruct (outcome (upstream env (List.length (requests w)) (GET_tokens a)))
      as [[field|]|e] eqn:Hd;
      cbn [field_result success data succeed fail];
      [|eexists; eexists; reflexivity|eexists; eexists; reflexivity].
    assert (Htyped : Forall carries_windows (or_empty field)).
    { destruct field as [ds|]; [|constructor]. apply (Htokens _ _ _ Hd). }
    destruct (or_empty field) as [|p0 rest]; [eexists; eexists; reflexivity|].
    unfold lift, token_info_reply.
    assert (Hin : In (reduce more_liquid p0 rest) (p0 :: rest)).
    { destruct (reduce_most_liquid p0 rest) as (before & after & -> & _).
      apply in_or_app. right. left. reflexivity. }
    destruct (proj1 (Forall_forall _ _) Htyped _ Hin) as (Hchange & Hvol & _).
    destruct (Pair.priceChange (reduce more_liquid p0 rest)); [|contradiction].
    destruct (Pair.volume (reduce more_liquid p0 rest)); [|contradiction].
    eexists; eexists; reflexivity.
  - unfold getPairsByChainAction.handler.
    destruct (getPairsByChainAction.find_chain content) as [c0|];
      [|eexists; eexists; reflexivity].
    cbv zeta. unfold bind at 1. rewrite getPairsByChain_run.
    cbn [chain sortBy chain_limit].
    destruct (outcome (upstream env (List.length (requests w)) (GET_search c0)))
      as [[field|]|e] eqn:Hd; cbn [field_result]; cbv zeta;
      cbn [success data succeed fail];
      [|eexists; eexists; reflexivity|eexists; eexists; reflexivity].
    change (10 =? 0) with false. cbv iota.
    set (key := getPairsByChainAction.sort_criterion content).
    assert (Htyped : Forall carries_windows
                       (Js.slice0 5
                          (Js.slice0 10
                             (sort (compare_pairs key)
                                (filter (fun p => same_chain c0 (Pair.chainId p))
                                        (or_empty field)))))).
    { apply Forall_slice0, Forall_slice0.
      eapply Permutation_Forall;
        [symmetry; apply (sort_perm (sort_metric key))|].
      apply Forall_filter. destruct field as [ds|]; [|constructor].
      apply (Hsearch _ _ _ Hd). }
    unfold bind, lift.
    destruct (chain_entries_return host key _ Htyped 0%nat) as (lines & ->).
    eexists; eexists; reflexivity.
Qed.

Lemma handlers_answer_on_typed_pairs_witness :
  exists r w',
    getPairsByChainAction.handler Fixtures.plain_host
      "Show me top tokens on ethereum" Fixtures.chain_env Fixtures.fresh
    = (Returned r, w').
Proof.
  assert (Htyped : typed_pairs Fixtures.chain_env).
  { split.
    - intros n q ds. simpl. destruct (String.eqb q "ethereum"); [|discriminate].
      intros H. injection H as <-.
      repeat constructor; discriminate.
    - intros n a ds. discriminate. }
  destruct (handlers_answer_on_typed_pairs Fixtures.plain_host
              "Show me top tokens on ethereum" Fixtures.chain_env Fixtures.fresh
              Htyped) as (_ & _ & Hchain).
  exact Hchain.
Defined.

(* ===================================================================== *)
(** * The repository's own tests, replayed on the model *)
(* ===================================================================== *)

(** [service.test.ts], "should format price correctly", and the
    formatting checks of [e2e-real.test.ts]. *)
Example test_formatPrice :
  formatPrice (inr (number_of_Z 100)) = "100.00" /\
  formatPrice (inr (parseFloat "0.5")) = "0.5000" /\
  formatPrice (inr (parseFloat "0.00001")) = "0.00001000" /\
  formatPrice (inr (parseFloat "0.00001234")) = "0.00001234" /\
  formatPrice (inr (parseFloat "1234.56")) = "1234.56".
Proof. repeat split; vm_compute; reflexivity. Qed.

(** [service.test.ts], "should return trending pairs". *)
Example test_getTrending :
  exists found w',
    getTrending {| timeframe := None; trending_limit := Some 2 |}
      Fixtures.trending_env Fixtures.fresh = (Returned (succeed found), w') /\
    found = [Value Fixtures.pepe; Value Fixtures.shib] /\
    In "/token-boosts/top/v1" (map (fun entry => url_of (snd entry)) (requests w')).
Proof.
  eexists; eexists. split; [rewrite getTrending_run; reflexivity|].
  split; [reflexivity|]. left. reflexivity.
Qed.

(** [service.test.ts], "should reject more than 30 addresses". *)
Example test_getMultipleTokens_31 :
  getMultipleTokens "ethereum" (repeat "0x123" 31) Fixtures.down_env Fixtures.fresh
  = (Returned (fail "Maximum 30 token addresses allowed"), Fixtures.fresh).
Proof. reflexivity. Qed.

(** [actions.test.ts], "should handle trending request with timeframe":
    the text asks for the top 5 in the last 6h. *)
Example test_trending_patterns :
  match_timeframe "What are the top 5 hot tokens in the last 6h?" = Some TF_6h /\
  option_map Js.parseInt (match_top "What are the top 5 hot tokens in the last 6h?")
    = Some (Some 5) /\
  trending_heading (Some TF_6h)
    = "**🔥 Trending Tokens (6h)**" +++ newline +++ newline.
Proof. repeat split; vm_compute; reflexivity. Qed.

(** The address pattern of the token-info action on its own example. *)
Example test_match_address :
  match_address "Get token info for 0xA0b86991c6218b36c1d19D4a2e9Eb0cE3606eB48"
  = Some "0xA0b86991c6218b36c1d19D4a2e9Eb0cE3606eB48" /\
  match_address "What is the price of token 0x..." = None.
Proof. split; vm_compute; reflexivity. Qed.

(** A handler does not survive the [undefined] entry that C9 is about:
    rendering it reads a property of [undefined]. *)
Example test_trending_handler_on_undefined :
  exists e w',
    getTrending_handler Fixtures.plain_host "show me trending tokens"
      Fixtures.sparse_env Fixtures.fresh = (Thrown e, w') /\
    message e = "Cannot read properties of undefined (reading 'priceChange')".
Proof. eexists; eexists. split; vm_compute; reflexivity. Qed.

(** The default configuration: the public endpoint and 100 ms. *)
Example test_default_config :
  apiUrl Fixtures.default_config = "https://api.dexscreener.com" /\
  rateLimitDelay Fixtures.default_config = Some 100.
Proof. split; reflexivity. Qed.

(** [service.test.ts], "should format price change correctly" and
    "should format USD value correctly", and the formatting checks of
    [e2e-real.test.ts]. *)
Example test_formatPriceChange :
  formatPriceChange (parseFloat "5.5") = "+5.50%" /\
  formatPriceChange (parseFloat "-3.25") = "-3.25%" /\
  formatPriceChange (parseFloat "12.34") = "+12.34%" /\
  formatPriceChange (parseFloat "-5.67") = "-5.67%".
Proof. repeat split; vm_compute; reflexivity. Qed.

Example test_formatUsdValue :
  formatUsdValue (number_of_Z 1500000) = "$1.50M" /\
  formatUsdValue (number_of_Z 5000) = "$5.00K" /\
  formatUsdValue (number_of_Z 100) = "$100.00" /\
  formatUsdValue (number_of_Z 1234567) = "$1.23M" /\
  formatUsdValue (number_of_Z 1234) = "$1.23K".
Proof. repeat split; vm_compute; reflexivity. Qed.

(** [actions.test.ts]: the messages of the action tests are accepted by
    [validate], and the handlers call the service with the parameters the
    tests expect. *)
Example test_validate :
  searchTokensAction.validate "Search for PEPE tokens" = true /\
  getTrendingAction.validate "Show me trending tokens" = true /\
  getNewPairsAction.validate "Show me new pairs" = true /\
  getPairsByChainAction.validate "Show me top tokens on ethereum" = true.
Proof. repeat split; vm_compute; reflexivity. Qed.

Example test_search_query :
  option_map trim (match_query "Search for PEPE") = Some "PEPE".
Proof. vm_compute. reflexivity. Qed.

Example test_new_pairs_patterns :
  match_chain "What are the 5 new tokens on ethereum?" = Some "ethereum" /\
  option_map Js.parseInt (match_count "What are the 5 new tokens on ethereum?")
    = Some (Some 5) /\
  getNewPairsAction.heading (Some "ethereum")
    = "**🆕 New Trading Pairs on ethereum**" +++ newline +++ newline.
Proof. repeat split; vm_compute; reflexivity. Qed.

Example test_chain_pairs_patterns :
  getPairsByChainAction.find_chain "What are the most liquid pairs on polygon?"
    = Some "polygon" /\
  getPairsByChainAction.sort_criterion "What are the most liquid pairs on polygon?"
    = ByLiquidity /\
  capitalize "polygon" = "Polygon".
Proof. repeat split; vm_compute; reflexivity. Qed.
